(** * Cafe management system: order placement, inventory and the admin routes

    A shallow embedding of [cafe_management.py], a single-file Flask
    application over SQLite.  The four tables are modelled as they are
    declared in [init_db]; every route handler is a computation in a small
    state-and-exception monad over the database, in which [execute_db] is one
    statement followed by one commit, exactly as in the source. *)

From Stdlib Require Import ZArith QArith List Lia.
From Stdlib Require Import Floats.SpecFloat.
From stdpp Require Import base option list sorting gmap strings pretty fin_maps.

Local Open Scope string_scope.
Local Open Scope list_scope.
Local Open Scope Z_scope.

(** ** Python floats and SQLite REAL: IEEE-754 binary64 *)

Module Float.

Definition prec : Z := 53.
Definition emax : Z := 1024.

Definition add : spec_float -> spec_float -> spec_float := SFadd prec emax.
Definition mul : spec_float -> spec_float -> spec_float := SFmul prec emax.

(** the float nearest to an integer (round to nearest, ties to even) *)
Definition of_Z (z : Z) : spec_float := binary_normalize prec emax z 0 false.

(** the literal [0.0] *)
Definition zero : spec_float := S754_zero false.

Definition is_nan (f : spec_float) : bool :=
  match f with S754_nan => true | _ => false end.

(** the float that a REAL column gives back for a float written to it:
    SQLite keeps no negative zero, [-0.0] is read back as [0.0] *)
Definition stored (f : spec_float) : spec_float :=
  match f with
  | S754_zero _ => S754_zero false
  | _ => f
  end.

(** the rational number a float stands for; none for infinities and NaN *)
Definition to_Q (f : spec_float) : option Q :=
  match f with
  | S754_zero _ => Some 0%Q
  | S754_finite s m e =>
      let v := (inject_Z (Z.pos m) * Qpower 2 e)%Q in
      Some (if s then Qopp v else v)
  | S754_infinity _ | S754_nan => None
  end.

End Float.

(** ** Exceptions a handler can raise *)

Inductive exn : Type :=
| BadRequestKeyError   (* request.form[...] on an absent field *)
| ValueError           (* int(...) or float(...) on text that does not parse *)
| OverflowError        (* an int too large for a float or for SQLite INTEGER *)
| IntegrityError       (* sqlite3: UNIQUE or NOT NULL constraint failed *)
| OperationalError.    (* sqlite3: the storage layer failed *)

Global Instance exn_eq_dec : EqDecision exn.
Proof. solve_decision. Defined.

(** [int * float]: the int is converted to a float first, and the
    conversion raises when the int is beyond the range of floats. *)
Definition py_int_mul_float (n : Z) (x : spec_float) : exn + spec_float :=
  match Float.of_Z n with
  | S754_infinity _ => inl OverflowError
  | f => inr (Float.mul f x)
  end.

(** A Python int bound to a statement parameter must fit SQLite's 64-bit
    signed INTEGER. *)
Definition sqlite_int_min : Z := - 2 ^ 63.
Definition sqlite_int_max : Z := 2 ^ 63 - 1.

Definition fits_sqlite_int (n : Z) : bool :=
  (sqlite_int_min <=? n) && (n <=? sqlite_int_max).

Definition bind_int (n : Z) : exn + Z :=
  if fits_sqlite_int n then inr n else inl OverflowError.

(** ** The tables of [init_db] *)

Record menu_item : Type := Build_menu_item {
  mi_id : Z;
  mi_name : string;
  mi_description : string;
  mi_price : spec_float;
  mi_sku : string;
  mi_active : Z
}.

Record order : Type := Build_order {
  o_id : Z;
  o_created_at : string;
  o_total : spec_float
}.

Record order_item : Type := Build_order_item {
  oi_id : Z;
  oi_order_id : Z;
  oi_menu_item_id : Z;
  oi_qty : Z;
  oi_price : spec_float
}.

(** Rows are kept in rowid order.  The three [_seq] fields are the
    AUTOINCREMENT counters (the largest rowid ever handed out).  The
    [inventory] table has a UNIQUE [sku] and its [id] column is never read, so
    it is the finite map from [sku] to [quantity]. *)
Record database : Type := Build_database {
  menu_items : list menu_item;
  menu_items_seq : Z;
  inventory : gmap string Z;
  orders : list order;
  orders_seq : Z;
  order_items : list order_item;
  order_items_seq : Z
}.

Definition empty_database : database :=
  Build_database [] 0 ∅ [] 0 [] 0.

Definition set_menu_items (rows : list menu_item) (seq : Z) (d : database) : database :=
  Build_database rows seq (inventory d) (orders d) (orders_seq d)
                 (order_items d) (order_items_seq d).

Definition set_inventory (inv : gmap string Z) (d : database) : database :=
  Build_database (menu_items d) (menu_items_seq d) inv (orders d) (orders_seq d)
                 (order_items d) (order_items_seq d).

Definition set_orders (rows : list order) (seq : Z) (d : database) : database :=
  Build_database (menu_items d) (menu_items_seq d) (inventory d) rows seq
                 (order_items d) (order_items_seq d).

Definition set_order_items (rows : list order_item) (seq : Z) (d : database) : database :=
  Build_database (menu_items d) (menu_items_seq d) (inventory d) (orders d) (orders_seq d)
                 rows seq.

(** ** The SQL statements of the program

    A query reads the database; a statement either raises or returns the new
    database together with [lastrowid]. *)

Definition statement : Type := database -> exn + (database * Z).

Module Sql.

(** [SELECT * FROM menu_items WHERE active = 1] *)
Definition select_active_menu (d : database) : list menu_item :=
  filter (fun m => mi_active m = 1) (menu_items d).

(** [SELECT * FROM menu_items] *)
Definition select_menu (d : database) : list menu_item := menu_items d.

(** [SELECT COUNT( * ) as c FROM menu_items] *)
Definition count_menu (d : database) : Z := Z.of_nat (length (menu_items d)).

(** [SELECT * FROM menu_items WHERE id = ?], [one=True] *)
Definition select_menu_item (item_id : Z) (d : database) : exn + option menu_item :=
  match bind_int item_id with
  | inl e => inl e
  | inr i => inr (List.find (fun m => mi_id m =? i) (menu_items d))
  end.

(** [SELECT quantity FROM inventory WHERE sku = ?], [one=True] *)
Definition select_quantity (sku : string) (d : database) : option Z :=
  inventory d !! sku.

(** [SELECT sku, quantity FROM inventory] *)
Definition select_inventory (d : database) : gmap string Z := inventory d.

(** [SELECT * FROM orders ORDER BY id DESC] *)
Definition select_orders_desc (d : database) : list order := rev (orders d).

(** [SELECT * FROM orders WHERE id = ?], [one=True] *)
Definition select_order (order_id : Z) (d : database) : exn + option order :=
  match bind_int order_id with
  | inl e => inl e
  | inr i => inr (List.find (fun o => o_id o =? i) (orders d))
  end.

(** [SELECT oi.qty, oi.price, mi.name FROM order_items oi
     JOIN menu_items mi ON mi.id = oi.menu_item_id WHERE oi.order_id = ?] *)
Definition select_order_lines (order_id : Z) (d : database)
  : list (Z * spec_float * string) :=
  flat_map
    (fun oi =>
       if oi_order_id oi =? order_id then
         match List.find (fun m => mi_id m =? oi_menu_item_id oi) (menu_items d) with
         | Some m => [(oi_qty oi, oi_price oi, mi_name m)]
         | None => []
         end
       else [])
    (order_items d).

(** [INSERT INTO orders (created_at, total) VALUES (?, ?)].
    A NaN is bound as NULL, which [total REAL NOT NULL] refuses. *)
Definition insert_order (created_at : string) (total : spec_float) : statement :=
  fun d =>
    if Float.is_nan total then inl IntegrityError
    else
      let id := orders_seq d + 1 in
      inr (set_orders (orders d ++ [Build_order id created_at total]) id d, id).

(** [INSERT INTO order_items (order_id, menu_item_id, qty, price)
     VALUES (?, ?, ?, ?)] *)
Definition insert_order_item (order_id menu_id qty : Z) (price : spec_float) : statement :=
  fun d =>
    match bind_int qty with
    | inl e => inl e
    | inr q =>
        if Float.is_nan price then inl IntegrityError
        else
          let id := order_items_seq d + 1 in
          inr (set_order_items
                 (order_items d ++ [Build_order_item id order_id menu_id q price]) id d, id)
    end.

(** [UPDATE inventory SET quantity = quantity - ? WHERE sku = ?] *)
Definition decrement_inventory (qty : Z) (sku : string) : statement :=
  fun d =>
    match bind_int qty with
    | inl e => inl e
    | inr q => inr (set_inventory (alter (fun quantity => quantity - q) sku (inventory d)) d, 0)
    end.

(** [INSERT OR IGNORE INTO inventory (sku, quantity) VALUES (?, ?)] *)
Definition insert_or_ignore_inventory (sku : string) (qty : Z) : statement :=
  fun d =>
    match bind_int qty with
    | inl e => inl e
    | inr q =>
        match inventory d !! sku with
        | Some _ => inr (d, 0)
        | None => inr (set_inventory (<[sku := q]> (inventory d)) d, 0)
        end
    end.

(** [INSERT OR REPLACE INTO inventory (sku, quantity) VALUES (?, ?)] *)
Definition insert_or_replace_inventory (sku : string) (qty : Z) : statement :=
  fun d =>
    match bind_int qty with
    | inl e => inl e
    | inr q => inr (set_inventory (<[sku := q]> (inventory d)) d, 0)
    end.

(** [INSERT INTO menu_items (name, description, price, sku, active)
     VALUES (?, ?, ?, ?, ?)]: [price REAL NOT NULL], [sku TEXT UNIQUE]; the row
    holds the price as the REAL column keeps it *)
Definition insert_menu_item (name desc : string) (price : spec_float)
           (sku : string) (active : Z) : statement :=
  fun d =>
    match bind_int active with
    | inl e => inl e
    | inr a =>
        if Float.is_nan price then inl IntegrityError
        else if bool_decide (sku ∈ fmap mi_sku (menu_items d)) then inl IntegrityError
        else
          let id := menu_items_seq d + 1 in
          inr (set_menu_items
                 (menu_items d ++ [Build_menu_item id name desc (Float.stored price) sku a])
                 id d,
               id)
    end.

(** [UPDATE menu_items SET name = ?, description = ?, price = ?, sku = ?,
     active = ? WHERE id = ?] *)
Definition update_menu_item (name desc : string) (price : spec_float)
           (sku : string) (active item_id : Z) : statement :=
  fun d =>
    match bind_int active, bind_int item_id with
    | inr a, inr i =>
        if existsb (fun m => mi_id m =? i) (menu_items d) then
          if Float.is_nan price then inl IntegrityError
          else if bool_decide
                    (sku ∈ fmap mi_sku (filter (fun m => mi_id m ≠ i) (menu_items d)))
               then inl IntegrityError
          else
            inr (set_menu_items
                   (fmap (fun m => if mi_id m =? i
                                  then Build_menu_item (mi_id m) name desc (Float.stored price)
                                                      sku a
                                  else m)
                        (menu_items d))
                   (menu_items_seq d) d, 0)
        else inr (d, 0)
    | _, _ => inl OverflowError
    end.

(** [DELETE FROM menu_items WHERE id = ?] *)
Definition delete_menu_item (item_id : Z) : statement :=
  fun d =>
    match bind_int item_id with
    | inl e => inl e
    | inr i =>
        inr (set_menu_items (filter (fun m => mi_id m ≠ i) (menu_items d))
                            (menu_items_seq d) d, 0)
    end.

End Sql.

(** ** Handlers: state and exceptions

    The state of a request is the committed database and the behaviour of the
    storage layer: [budget = None] is storage that never fails, and
    [budget = Some n] is storage that accepts [n] more statements and raises
    [sqlite3.OperationalError] at the one after. *)

Record state : Type := Build_state {
  db : database;
  budget : option nat
}.

Definition M (A : Type) : Type := state -> (exn + A) * state.

Definition ret {A : Type} (a : A) : M A := fun s => (inr a, s).

Definition raise {A : Type} (e : exn) : M A := fun s => (inl e, s).

Definition bind {A B : Type} (m : M A) (k : A -> M B) : M B :=
  fun s =>
    match m s with
    | (inl e, s') => (inl e, s')
    | (inr a, s') => k a s'
    end.

Declare Scope handler_scope.
Delimit Scope handler_scope with handler.
Bind Scope handler_scope with M.

Notation "x <- m ;; k" := (bind m (fun x => k))
  (at level 100, m at next level, right associativity) : handler_scope.
Notation "m ;;; k" := (bind m (fun _ => k))
  (at level 100, right associativity) : handler_scope.

Local Open Scope handler_scope.

(** a value computed by plain Python code that may raise *)
Definition lift {A : Type} (r : exn + A) : M A :=
  match r with
  | inl e => raise e
  | inr a => ret a
  end.

(** [try: body except e: handler] *)
Definition try_except {A : Type} (body : M A) (e : exn) (handler : M A) : M A :=
  fun s =>
    match body s with
    | (inl e', s') => if decide (e' = e) then handler s' else (inl e', s')
    | (inr a, s') => (inr a, s')
    end.

(** [query_db]: run a query against the committed database. *)
Definition query_db {A : Type} (query : database -> A) : M A :=
  fun s => (inr (query (db s)), s).

(** [execute_db]: run one statement and commit it ([db.commit()] follows
    every [cur.execute]); a statement that raises leaves the committed
    database as it was.  Returns [cur.lastrowid], which the handlers read
    after an INSERT only.  The budget is the storage layer: [Some O] is a
    database that refuses the statement with [OperationalError].  There is
    no rollback in [execute_db], so a statement that raised inside SQLite
    can leave the connection holding its lock until it is closed, and the
    next request then meets a locked database: that request runs with
    budget [Some O]. *)
Definition execute_db (stmt : statement) : M Z :=
  fun s =>
    match budget s with
    | Some O => (inl OperationalError, s)
    | b =>
        match stmt (db s) with
        | inl e => (inl e, s)
        | inr (d', rowid) => (inr rowid, Build_state d' (Nat.pred <$> b))
        end
    end.

(** ** What a handler answers *)

(** the messages passed to [flash].  [Order_placed order_id total] stands
    for [f'Order placed. ID {order_id} ... Total Rs {total:.2f}'] and carries
    the float; [reported_total] below is the text printed for it. *)
Inductive flash_message : Type :=
| No_items_selected
| Insufficient_inventory_for (name : string)
| Order_placed (order_id : Z) (total : spec_float)
| Order_not_found
| Item_added
| Item_updated
| Item_deleted
| Item_not_found
| SKU_must_be_unique
| Inventory_updated.

Inductive endpoint : Type :=
| To_index
| To_view_order (order_id : Z)
| To_view_orders
| To_admin_menu.

(** one row of the order page: name, qty, price and [qty * price] *)
Record order_view_line : Type := Build_order_view_line {
  vl_name : string;
  vl_qty : Z;
  vl_price : spec_float;
  vl_subtotal : spec_float
}.

Inductive page : Type :=
| Index_page (menu : list menu_item)
| Orders_page (rows : list order)
| Order_view_page (o : order) (items : list order_view_line)
| Admin_menu_page (menu : list menu_item) (inv : gmap string Z)
| Add_edit_page (item : option menu_item).

Inductive response : Type :=
| Redirect (target : endpoint) (flash : flash_message)
| Render (body : page) (flash : option flash_message).

(** ** Requests *)

(** A submitted form field that the handler passes to [int]. *)
Inductive int_field : Type :=
| Missing                (* the field is not in the form *)
| Unparsable             (* [int] raises ValueError on its text *)
| Parsed (n : Z).

(** the POST form of [/place_order]: the field [qty_<id>] of each item id *)
Definition order_form : Type := Z -> int_field.

(** [int(request.form.get(f'qty_{m['id']}', 0))] *)
Definition form_qty (form : order_form) (item_id : Z) : exn + Z :=
  match form item_id with
  | Missing => inr 0
  | Unparsable => inl ValueError
  | Parsed n => inr n
  end.

(** the parsed POST form of the add and edit pages: [name], [description]
    and [sku] stripped, [price] through [float], [active] through [int] *)
Record item_form : Type := Build_item_form {
  if_name : string;
  if_description : string;
  if_price : spec_float;
  if_sku : string;
  if_active : Z
}.

(** the parsed POST form of [/admin/inventory] *)
Record inventory_form : Type := Build_inventory_form {
  vf_sku : string;
  vf_qty : Z
}.

(** A request body: GET, or a POST whose fields were read (or whose reading
    raised: a missing key, text that is not a number). *)
Inductive body (A : Type) : Type :=
| GET
| POST (form : exn + A).
Arguments GET {A}.
Arguments POST {A} form.

(** ** [place_order] *)

(** one tuple of the list [order_items] built by [place_order] *)
Record order_line : Type := Build_order_line {
  ol_menu_id : Z;
  ol_sku : string;
  ol_name : string;
  ol_qty : Z;
  ol_price : spec_float;
  ol_subtotal : spec_float
}.

(** the first loop: [for m in menu], accumulating [order_items] and [total] *)
Fixpoint collect_order_items (form : order_form) (menu : list menu_item)
         (order_items : list order_line) (total : spec_float)
  : exn + (list order_line * spec_float) :=
  match menu with
  | [] => inr (order_items, total)
  | m :: menu' =>
      match form_qty form (mi_id m) with
      | inl e => inl e
      | inr qty =>
          if 0 <? qty then
            match py_int_mul_float qty (mi_price m) with
            | inl e => inl e
            | inr subtotal =>
                collect_order_items form menu'
                  (order_items ++
                     [Build_order_line (mi_id m) (mi_sku m) (mi_name m) qty (mi_price m) subtotal])
                  (Float.add total subtotal)
            end
          else collect_order_items form menu' order_items total
      end
  end.

(** the second loop ([# Check inventory]): the name of the first line whose
    inventory row is absent or holds less than the line's quantity *)
Fixpoint check_inventory (order_items : list order_line) : M (option string) :=
  match order_items with
  | [] => ret None
  | l :: rest =>
      inv <- query_db (Sql.select_quantity (ol_sku l));;
      match inv with
      | None => ret (Some (ol_name l))
      | Some quantity =>
          if quantity <? ol_qty l then ret (Some (ol_name l))
          else check_inventory rest
      end
  end.

(** the third loop: one OrderLine insert and one decrement per line, each
    committed by its own [execute_db] *)
Fixpoint write_order_items (order_id : Z) (order_items : list order_line) : M unit :=
  match order_items with
  | [] => ret tt
  | l :: rest =>
      execute_db (Sql.insert_order_item order_id (ol_menu_id l) (ol_qty l) (ol_price l));;;
      execute_db (Sql.decrement_inventory (ol_qty l) (ol_sku l));;;
      write_order_items order_id rest
  end.

(** [now] is [datetime.now().isoformat()] *)
Definition place_order (now : string) (form : order_form) : M response :=
  menu <- query_db Sql.select_active_menu;;
  collected <- lift (collect_order_items form menu [] Float.zero);;
  let '(order_items, total) := collected in
  match order_items with
  | [] => ret (Redirect To_index No_items_selected)
  | _ :: _ =>
      short <- check_inventory order_items;;
      match short with
      | Some name => ret (Redirect To_index (Insufficient_inventory_for name))
      | None =>
          order_id <- execute_db (Sql.insert_order now total);;
          write_order_items order_id order_items;;;
          ret (Redirect (To_view_order order_id) (Order_placed order_id total))
      end
  end.

(** ** The read-only pages *)

Definition index : M response :=
  menu <- query_db Sql.select_active_menu;;
  ret (Render (Index_page menu) None).

Definition view_orders : M response :=
  rows <- query_db Sql.select_orders_desc;;
  ret (Render (Orders_page rows) None).

(** the rows of ORDER_VIEW_BODY: the template computes
    [it['qty'] * it['price']] for the subtotal column *)
Fixpoint order_view_lines (items : list (Z * spec_float * string))
  : exn + list order_view_line :=
  match items with
  | [] => inr []
  | (qty, price, name) :: rest =>
      match py_int_mul_float qty price with
      | inl e => inl e
      | inr subtotal =>
          match order_view_lines rest with
          | inl e => inl e
          | inr lines => inr (Build_order_view_line name qty price subtotal :: lines)
          end
      end
  end.

Definition view_order (order_id : Z) : M response :=
  found <- query_db (Sql.select_order order_id);;
  o <- lift found;;
  match o with
  | None => ret (Redirect To_view_orders Order_not_found)
  | Some o =>
      items <- query_db (Sql.select_order_lines order_id);;
      lines <- lift (order_view_lines items);;
      ret (Render (Order_view_page o lines) None)
  end.

(** ** The admin routes *)

Definition admin_menu : M response :=
  menu <- query_db Sql.select_menu;;
  inv <- query_db Sql.select_inventory;;
  ret (Render (Admin_menu_page menu inv) None).

Definition admin_add_item (req : body item_form) : M response :=
  match req with
  | GET => ret (Render (Add_edit_page None) None)
  | POST form =>
      f <- lift form;;
      try_except
        (execute_db (Sql.insert_menu_item (if_name f) (if_description f) (if_price f)
                                          (if_sku f) (if_active f));;;
         execute_db (Sql.insert_or_ignore_inventory (if_sku f) 0);;;
         ret (Redirect To_admin_menu Item_added))
        IntegrityError
        (ret (Render (Add_edit_page None) (Some SKU_must_be_unique)))
  end.

Definition admin_edit_item (item_id : Z) (req : body item_form) : M response :=
  found <- query_db (Sql.select_menu_item item_id);;
  item <- lift found;;
  match item with
  | None => ret (Redirect To_admin_menu Item_not_found)
  | Some it =>
      match req with
      | GET => ret (Render (Add_edit_page (Some it)) None)
      | POST form =>
          f <- lift form;;
          try_except
            (execute_db (Sql.update_menu_item (if_name f) (if_description f) (if_price f)
                                              (if_sku f) (if_active f) item_id);;;
             execute_db (Sql.insert_or_ignore_inventory (if_sku f) 0);;;
             ret (Redirect To_admin_menu Item_updated))
            IntegrityError
            (ret (Render (Add_edit_page (Some it)) (Some SKU_must_be_unique)))
      end
  end.

Definition admin_delete_item (item_id : Z) : M response :=
  execute_db (Sql.delete_menu_item item_id);;;
  ret (Redirect To_admin_menu Item_deleted).

Definition admin_update_inventory (form : exn + inventory_form) : M response :=
  f <- lift form;;
  execute_db (Sql.insert_or_replace_inventory (vf_sku f) (vf_qty f));;;
  ret (Redirect To_admin_menu Inventory_updated).

(** ** Start-up: [seed_if_empty] *)

Definition sample_menu : list (string * string * spec_float * string * Z) :=
  [ ("Espresso", "Strong classic espresso", Float.of_Z 80, "ESP-01", 1);
    ("Cappuccino", "Espresso with steamed milk foam", Float.of_Z 120, "CAP-01", 1);
    ("Veg Sandwich", "Grilled vegetables with chutney", Float.of_Z 140, "SND-01", 1);
    ("Cold Coffee", "Iced cold coffee with milk", Float.of_Z 110, "CFC-01", 1) ].

Fixpoint seed_rows (rows : list (string * string * spec_float * string * Z)) : M unit :=
  match rows with
  | [] => ret tt
  | (name, desc, price, sku, active) :: rest =>
      execute_db (Sql.insert_menu_item name desc price sku active);;;
      execute_db (Sql.insert_or_ignore_inventory sku 50);;;
      seed_rows rest
  end.

Definition seed_if_empty : M unit :=
  c <- query_db Sql.count_menu;;
  if c =? 0 then seed_rows sample_menu else ret tt.

(** the database of a first start: [init_db] then [seed_if_empty] *)
Definition seeded_database : database :=
  db (snd (seed_if_empty (Build_state empty_database None))).

(** ** The routes as one transition system *)

Inductive request : Type :=
| Get_index
| Post_place_order (now : string) (form : order_form)
| Get_view_orders
| Get_view_order (order_id : Z)
| Get_admin_menu
| Admin_add_item (req : body item_form)
| Admin_edit_item (item_id : Z) (req : body item_form)
| Admin_delete_item (item_id : Z)
| Post_admin_update_inventory (form : exn + inventory_form).

Definition handle (r : request) : M response :=
  match r with
  | Get_index => index
  | Post_place_order now form => place_order now form
  | Get_view_orders => view_orders
  | Get_view_order order_id => view_order order_id
  | Get_admin_menu => admin_menu
  | Admin_add_item req => admin_add_item req
  | Admin_edit_item item_id req => admin_edit_item item_id req
  | Admin_delete_item item_id => admin_delete_item item_id
  | Post_admin_update_inventory form => admin_update_inventory form
  end.

(** the database after a request, whatever the handler answered *)
Definition db_after (r : request) (d : database) (b : option nat) : database :=
  db (snd (handle r (Build_state d b))).

(** the databases the program reaches when it serves one request at a time:
    the seeded one, and any database that a request, run from start to end,
    leaves behind, with storage failing or not.  A step is a whole handler;
    the statements of two requests served on two threads can also
    interleave, and [interleaved_orders] below is one such schedule. *)
Inductive reachable : database -> Prop :=
| reachable_seeded : reachable seeded_database
| reachable_step (d : database) (r : request) (b : option nat) :
    reachable d -> reachable (db_after r d b).

(** ** Vocabulary of the specification *)

(** *** Invariants of the schema *)

(** What the constraints of [init_db] and the handlers maintain: [sku TEXT
    UNIQUE], [id INTEGER PRIMARY KEY AUTOINCREMENT], [price REAL NOT NULL],
    [quantity INTEGER], and order ids handed out by the [orders] counter. *)
Record wf_db (d : database) : Prop := Build_wf_db {
  wf_sku_unique : NoDup (fmap mi_sku (menu_items d));
  wf_id_unique : NoDup (fmap mi_id (menu_items d));
  wf_menu_ids : Forall (fun m => mi_id m <= menu_items_seq d) (menu_items d);
  wf_price : Forall (fun m => Float.is_nan (mi_price m) = false) (menu_items d);
  wf_quantity : map_Forall (fun _ q => fits_sqlite_int q = true) (inventory d);
  wf_order_ids : Forall (fun o => o_id o <= orders_seq d) (orders d);
  wf_order_item_ids : Forall (fun oi => oi_order_id oi <= orders_seq d) (order_items d)
}.

(** every on-hand quantity is at least zero *)
Definition nonneg_inventory (d : database) : Prop :=
  map_Forall (fun _ q => 0 <= q) (inventory d).

(** *** Hoare triples over handlers *)

Definition hoare {A : Type} (pre : state -> Prop) (m : M A)
           (post : exn + A -> state -> Prop) : Prop :=
  forall s, pre s -> post (fst (m s)) (snd (m s)).

(** [m] keeps [P] true of the database, whatever it answers *)
Definition preserves {A : Type} (P : database -> Prop) (m : M A) : Prop :=
  hoare (fun s => P (db s)) m (fun _ s => P (db s)).

(** a statement that keeps [P] whenever it succeeds *)
Definition stmt_preserves (P : database -> Prop) (stmt : statement) : Prop :=
  forall d d' rowid, P d -> stmt d = inr (d', rowid) -> P d'.

(** *** The lines of a basket *)

(** [selects form menu lines]: the first loop of [place_order], run over
    [menu] without raising, keeps exactly [lines]. *)
Inductive selects (form : order_form) : list menu_item -> list order_line -> Prop :=
| selects_nil : selects form [] []
| selects_skip m menu lines qty :
    form_qty form (mi_id m) = inr qty ->
    qty <= 0 ->
    selects form menu lines ->
    selects form (m :: menu) lines
| selects_take m menu lines qty subtotal :
    form_qty form (mi_id m) = inr qty ->
    0 < qty ->
    py_int_mul_float qty (mi_price m) = inr subtotal ->
    selects form menu lines ->
    selects form (m :: menu)
            (Build_order_line (mi_id m) (mi_sku m) (mi_name m) qty (mi_price m) subtotal
               :: lines).

(** [total += subtotal] over the lines, from [total] *)
Definition add_subtotals (total : spec_float) (lines : list order_line) : spec_float :=
  fold_left (fun acc l => Float.add acc (ol_subtotal l)) lines total.

(** the binary64 sum of [qty * price], left to right from [0.0] *)
Definition float_total (items : list (Z * spec_float)) : spec_float :=
  fold_left (fun acc '(qty, price) => Float.add acc (Float.mul (Float.of_Z qty) price))
            items Float.zero.

(** the exact sum of [qty * price] as a rational number *)
Fixpoint exact_total (items : list (Z * spec_float)) : option Q :=
  match items with
  | [] => Some 0%Q
  | (qty, price) :: rest =>
      match Float.to_Q price, exact_total rest with
      | Some p, Some t => Some (inject_Z qty * p + t)%Q
      | _, _ => None
      end
  end.

(** the second loop of [place_order] as a function of the inventory *)
Fixpoint first_short (inv : gmap string Z) (lines : list order_line) : option string :=
  match lines with
  | [] => None
  | l :: rest =>
      match inv !! ol_sku l with
      | None => Some (ol_name l)
      | Some quantity =>
          if quantity <? ol_qty l then Some (ol_name l) else first_short inv rest
      end
  end.

(** the quantity a basket requests of one stock key, summed over its lines *)
Definition aggregate (lines : list order_line) (sku : string) : Z :=
  foldr (fun l acc => if decide (ol_sku l = sku) then ol_qty l + acc else acc) 0 lines.

(** the stock key has no inventory row, or less on hand than the basket
    requests of it in total *)
Definition insufficient (d : database) (lines : list order_line) (sku : string) : Prop :=
  match inventory d !! sku with
  | None => True
  | Some quantity => quantity < aggregate lines sku
  end.

(** *** What a committed order writes *)

(** the OrderLine rows of [lines], numbered after [seq] *)
Fixpoint order_item_rows (order_id seq : Z) (lines : list order_line) : list order_item :=
  match lines with
  | [] => []
  | l :: rest =>
      Build_order_item (seq + 1) order_id (ol_menu_id l) (ol_qty l) (ol_price l)
        :: order_item_rows order_id (seq + 1) rest
  end.

(** the inventory after the decrement of every line *)
Definition decremented (inv : gmap string Z) (lines : list order_line) : gmap string Z :=
  fold_left (fun i l => alter (fun quantity => quantity - ol_qty l) (ol_sku l) i) lines inv.

(** the database after the third loop has written every line *)
Definition written_lines (order_id : Z) (lines : list order_line) (d : database) : database :=
  Build_database
    (menu_items d) (menu_items_seq d)
    (decremented (inventory d) lines)
    (orders d) (orders_seq d)
    (order_items d ++ order_item_rows order_id (order_items_seq d) lines)
    (order_items_seq d + Z.of_nat (length lines)).

(** the database with the Order, all its OrderLines and all decrements *)
Definition committed_order (now : string) (total : spec_float) (lines : list order_line)
           (d : database) : database :=
  let order_id := orders_seq d + 1 in
  written_lines order_id lines
    (set_orders (orders d ++ [Build_order order_id now total]) order_id d).

(** the statements of the third loop accept the line: its quantity fits an
    INTEGER and its price is not NaN *)
Definition line_writable (l : order_line) : Prop :=
  fits_sqlite_int (ol_qty l) = true /\ Float.is_nan (ol_price l) = false.

(** the commit stage: the Order insert, then the third loop *)
Definition commit_order (now : string) (total : spec_float) (lines : list order_line)
  : M response :=
  order_id <- execute_db (Sql.insert_order now total);;
  write_order_items order_id lines;;;
  ret (Redirect (To_view_order order_id) (Order_placed order_id total)).

(** the line passed the inventory check against [inv] *)
Definition checked (inv : gmap string Z) (l : order_line) : Prop :=
  0 < ol_qty l /\ exists q, inv !! ol_sku l = Some q /\ ol_qty l <= q.

(** *** The ledger under catalog edits *)

(** [d] has the ledger of [d0] (the same Order and OrderLine rows) and a
    catalog with the same item ids *)
Definition ledger_kept (d0 d : database) : Prop :=
  orders d = orders d0
  /\ order_items d = order_items d0
  /\ forall x, is_Some (List.find (fun m => mi_id m =? x) (menu_items d))
               <-> is_Some (List.find (fun m => mi_id m =? x) (menu_items d0)).

(** quantity and price of the rows that the order page joins *)
Definition sale (row : Z * spec_float * string) : Z * spec_float := (row.1.1, row.1.2).


(** the billing columns of the order page depend on the joined rows only
    through their quantity and price *)
Definition line_billing (lines : exn + list order_view_line)
  : exn + list (Z * spec_float * spec_float) :=
  match lines with
  | inl e => inl e
  | inr ls => inr ((fun l => (vl_qty l, vl_price l, vl_subtotal l)) <$> ls)
  end.

(** *** Outcomes *)

(** the accept/reject outcome of an order attempt: accepted with a total,
    rejected with a message, or failed with an exception *)
Inductive outcome : Type :=
| Accepted (total : spec_float)
| Rejected (flash : flash_message)
| Failed (e : exn)
| Other.

Definition outcome_of (r : exn + response) : outcome :=
  match r with
  | inl e => Failed e
  | inr (Redirect (To_view_order _) (Order_placed _ total)) => Accepted total
  | inr (Redirect To_index flash) => Rejected flash
  | inr _ => Other
  end.

Definition is_order_placed (r : exn + response) : Prop :=
  exists order_id flash, r = inr (Redirect (To_view_order order_id) flash).

(** two readings of a quantity field that the first loop treats alike: the
    same reading, or two quantities that are both dropped by [if qty > 0] *)
Definition same_choice (a b : exn + Z) : Prop :=
  a = b \/ exists x y, a = inr x /\ b = inr y /\ x <= 0 /\ y <= 0.

(** the form without the entry of [item_id] *)
Definition without_entry (item_id : Z) (form : order_form) : order_form :=
  fun i => if i =? item_id then Missing else form i.

(** the billing content of an order page: the stored total and, per line,
    quantity, price and subtotal *)
Definition billing (r : exn + response) : option (spec_float * list (Z * spec_float * spec_float)) :=
  match r with
  | inr (Render (Order_view_page o lines) _) =>
      Some (o_total o, fmap (fun l => (vl_qty l, vl_price l, vl_subtotal l)) lines)
  | _ => None
  end.

(** *** The ledger across requests *)

(** the two ledger tables and the order counter are as in [d] *)
Definition ledger_unchanged (d d' : database) : Prop :=
  orders d' = orders d
  /\ orders_seq d' = orders_seq d
  /\ order_items d' = order_items d.

(** [d'] has one Order more than [d], numbered after the counter of [d] and
    stamped [now], and only OrderLine rows of that Order were added *)
Definition ledger_appended (now : string) (d d' : database) : Prop :=
  exists total rows,
    orders d' = orders d ++ [Build_order (orders_seq d + 1) now total]
    /\ orders_seq d' = orders_seq d + 1
    /\ order_items d' = order_items d ++ rows
    /\ Forall (fun oi => oi_order_id oi = orders_seq d + 1) rows.

(** order ids grow along the table and stay below the counter *)
Definition orders_sorted (d : database) : Prop :=
  StronglySorted (fun o1 o2 => o_id o1 < o_id o2) (orders d)
  /\ Forall (fun o => o_id o <= orders_seq d) (orders d).

(** the rows that the order page of [order_id] shows for the lines of a basket *)
Definition view_lines_of (lines : list order_line) : list order_view_line :=
  (fun l => Build_order_view_line (ol_name l) (ol_qty l) (ol_price l) (ol_subtotal l))
    <$> lines.

(** the database without the OrderLine rows that refer to menu item
    [item_id] *)
Definition without_lines_of (item_id : Z) (d : database) : database :=
  set_order_items (filter (fun oi => oi_menu_item_id oi ≠ item_id) (order_items d))
                  (order_items_seq d) d.

(** every OrderLine refers to a menu id that the menu counter has already
    handed out *)
Definition lines_refer_to_issued_ids (d : database) : Prop :=
  Forall (fun oi => oi_menu_item_id oi <= menu_items_seq d) (order_items d).

(** *** The total as it is printed *)

(** [round(100 * num / den)] for [num >= 0], the tie going to the even cent *)
Definition cents_of (num : Z) (den : positive) : Z :=
  let n := 100 * num in
  let q := n / Z.pos den in
  match 2 * (n mod Z.pos den) ?= Z.pos den with
  | Lt => q
  | Gt => q + 1
  | Eq => if Z.even q then q else q + 1
  end.

(** a number of cents with two fractional digits *)
Definition format_cents (negative : bool) (cents : Z) : string :=
  String.append (if negative then "-" else "")
    (String.append (pretty (cents / 100))
       (String.append "."
          (String.append (if cents mod 100 <? 10 then "0" else "") (pretty (cents mod 100))))).

(** [f'{x:.2f}']: the float rounded correctly to two fractional digits *)
Definition format_2f (x : spec_float) : string :=
  match x with
  | S754_nan => "nan"
  | S754_infinity s => if s then "-inf" else "inf"
  | S754_zero s => format_cents s 0
  | S754_finite s m e =>
      format_cents s
        (match e with
         | Z.neg k => cents_of (Z.pos m) (2 ^ k)
         | _ => cents_of (Z.pos m * 2 ^ e) 1
         end)
  end.

(** a rational number rounded to two fractional digits *)
Definition format_2f_exact (q : Q) : string :=
  format_cents (Qnum q <? 0) (cents_of (Z.abs (Qnum q)) (Qden q)).

(** the total as the message of [place_order] prints it,
    [f'... Total Rs {total:.2f}'] *)
Definition reported_total (flash : flash_message) : option string :=
  match flash with
  | Order_placed _ total => Some (format_2f total)
  | _ => None
  end.

(** *** A commit that the storage layer stops *)

(** the database with the OrderLine row of one line, and with its decrement *)
Definition with_order_item (order_id : Z) (l : order_line) (d : database) : database :=
  set_order_items
    (order_items d ++
       [Build_order_item (order_items_seq d + 1) order_id (ol_menu_id l) (ol_qty l)
                         (ol_price l)])
    (order_items_seq d + 1) d.

Definition with_decrement (l : order_line) (d : database) : database :=
  set_inventory (alter (fun quantity => quantity - ol_qty l) (ol_sku l) (inventory d)) d.

(** the database after the first [j] statements of the third loop: the
    lines before line [j / 2] are written in full, and when [j] is odd line
    [j / 2] has its OrderLine row but not its decrement *)
Fixpoint written_prefix (order_id : Z) (lines : list order_line) (j : nat) (d : database)
  : database :=
  match lines, j with
  | [], _ => d
  | _ :: _, O => d
  | l :: _, S O => with_order_item order_id l d
  | l :: rest, S (S j') =>
      written_prefix order_id rest j' (with_decrement l (with_order_item order_id l d))
  end.

(** the database with the new Order record only *)
Definition with_order (now : string) (total : spec_float) (d : database) : database :=
  set_orders (orders d ++ [Build_order (orders_seq d + 1) now total]) (orders_seq d + 1) d.

(** *** Two order placements served at the same time *)

(** the part of [place_order] that only reads (the first two loops): an
    exception, a rejection, or the lines and total to commit *)
Definition order_decision (form : order_form) (d : database)
  : exn + (flash_message + list order_line * spec_float) :=
  match collect_order_items form (Sql.select_active_menu d) [] Float.zero with
  | inl e => inl e
  | inr ([], _) => inr (inl No_items_selected)
  | inr (lines, total) =>
      match first_short (inventory d) lines with
      | Some name => inr (inl (Insufficient_inventory_for name))
      | None => inr (inr (lines, total))
      end
  end.

(** the rest of [place_order] after its reads *)
Definition finish_order (now : string)
           (decision : exn + (flash_message + list order_line * spec_float))
  : M response :=
  match decision with
  | inl e => raise e
  | inr (inl flash) => ret (Redirect To_index flash)
  | inr (inr (lines, total)) => commit_order now total lines
  end.

(** Two requests A and B served on two threads, scheduled so that both run
    their reads before either writes: reads of A, reads of B, writes of A,
    writes of B.  The storage layer accepts every statement. *)
Definition interleaved_orders (nowA : string) (formA : order_form)
           (nowB : string) (formB : order_form) (d : database)
  : (exn + response) * (exn + response) * database :=
  let decisionA := order_decision formA d in
  let decisionB := order_decision formB d in
  let '(answerA, sA) := finish_order nowA decisionA (Build_state d None) in
  let '(answerB, sB) := finish_order nowB decisionB (Build_state (db sA) None) in
  (answerA, answerB, db sB).

(** *** Databases used as examples *)

(** the float [0.075], which lies [2^-60] below the number 0.075 *)
Definition three_fortieths : spec_float := S754_finite false 5404319552844595 (-56).

(** the seeded database after the admin has set the price of the Espresso
    (menu id 1) to [0.075] *)
Definition database_repriced : database :=
  db_after (Admin_edit_item 1 (POST (inr (Build_item_form "Espresso" "Strong classic espresso"
                                                          three_fortieths "ESP-01" 1))))
           seeded_database None.

(** the float [0.01], which lies a little above the number 0.01 *)
Definition one_hundredth : spec_float := S754_finite false 5764607523034235 (-59).

(** the seeded database after the admin has set the price of the Espresso
    to [0.01] and its on-hand quantity to [2 * 10^16] *)
Definition database_bulk : database :=
  db_after (Post_admin_update_inventory (inr (Build_inventory_form "ESP-01" (2 * 10 ^ 16))))
           (db_after (Admin_edit_item 1 (POST (inr (Build_item_form
                                                      "Espresso" "Strong classic espresso"
                                                      one_hundredth "ESP-01" 1))))
                     seeded_database None)
           None.

(** the seeded database after the admin has deactivated the Cappuccino
    (menu id 2) *)
Definition database_cappuccino_inactive : database :=
  db_after (Admin_edit_item 2 (POST (inr (Build_item_form
                                            "Cappuccino" "Espresso with steamed milk foam"
                                            (Float.of_Z 120) "CAP-01" 0))))
           seeded_database None.

(** * Proofs *)

(** ** Rules for Hoare triples *)

Section HoareRules.
Context {A B : Type}.

Lemma hoare_ret (a : A) (post : exn + A -> state -> Prop) (pre : state -> Prop) :
  (forall s, pre s -> post (inr a) s) -> hoare pre (ret a) post.
Proof. intros H s Hs. apply H, Hs. Qed.

Lemma hoare_raise (e : exn) (post : exn + A -> state -> Prop) (pre : state -> Prop) :
  (forall s, pre s -> post (inl e) s) -> hoare pre (raise e) post.
Proof. intros H s Hs. apply H, Hs. Qed.

Lemma hoare_lift (r : exn + A) (post : exn + A -> state -> Prop) (pre : state -> Prop) :
  (forall s, pre s -> post r s) -> hoare pre (lift r) post.
Proof. intros H s Hs. destruct r; apply H, Hs. Qed.

Lemma hoare_query (q : database -> A) (post : exn + A -> state -> Prop)
      (pre : state -> Prop) :
  (forall s, pre s -> post (inr (q (db s))) s) -> hoare pre (query_db q) post.
Proof. intros H s Hs. apply H, Hs. Qed.

Lemma hoare_bind (m : M A) (k : A -> M B) (pre : state -> Prop)
      (mid : exn + A -> state -> Prop) (post : exn + B -> state -> Prop) :
  hoare pre m mid ->
  (forall e s, mid (inl e) s -> post (inl e) s) ->
  (forall a, hoare (mid (inr a)) (k a) post) ->
  hoare pre (bind m k) post.
Proof.
  intros Hm He Hk s Hs. specialize (Hm s Hs). unfold bind.
  destruct (m s) as [[e | a] s1]; simpl in *.
  - apply He, Hm.
  - apply Hk, Hm.
Qed.

Lemma hoare_consequence (m : M A) (pre pre' : state -> Prop)
      (post post' : exn + A -> state -> Prop) :
  hoare pre' m post' ->
  (forall s, pre s -> pre' s) ->
  (forall r s, post' r s -> post r s) ->
  hoare pre m post.
Proof. intros Hm Hpre Hpost s Hs. apply Hpost, Hm, Hpre, Hs. Qed.

Lemma hoare_try_except (body handler : M A) (e : exn) (pre : state -> Prop)
      (mid post : exn + A -> state -> Prop) :
  hoare pre body mid ->
  (forall a s, mid (inr a) s -> post (inr a) s) ->
  (forall e' s, e' <> e -> mid (inl e') s -> post (inl e') s) ->
  hoare (mid (inl e)) handler post ->
  hoare pre (try_except body e handler) post.
Proof.
  intros Hb Hok Herr Hh s Hs. specialize (Hb s Hs). unfold try_except.
  destruct (body s) as [[e' | a] s1]; simpl in *.
  - destruct (decide (e' = e)) as [-> | Hne].
    + apply Hh, Hb.
    + apply Herr; assumption.
  - apply Hok, Hb.
Qed.
End HoareRules.

(** [execute_db] either changes nothing and raises, or commits the
    statement and uses up one unit of the budget. *)
Lemma execute_db_cases (stmt : statement) (s : state) :
  (exists e, execute_db stmt s = (inl e, s)
             /\ (e = OperationalError /\ budget s = Some O \/ stmt (db s) = inl e))
  \/ (exists d' rowid, stmt (db s) = inr (d', rowid) /\ budget s <> Some O
                       /\ execute_db stmt s
                          = (inr rowid, Build_state d' (Nat.pred <$> budget s))).
Proof.
  unfold execute_db. destruct (budget s) as [[| n] |] eqn:Hb.
  - left. exists OperationalError. auto.
  - destruct (stmt (db s)) as [e | [d' rowid]] eqn:Hst.
    + left. exists e. auto.
    + right. exists d', rowid. repeat split; auto; discriminate.
  - destruct (stmt (db s)) as [e | [d' rowid]] eqn:Hst.
    + left. exists e. auto.
    + right. exists d', rowid. repeat split; auto; discriminate.
Qed.

Lemma hoare_execute {A : Type} (stmt : statement) (pre : state -> Prop)
      (post : exn + Z -> state -> Prop) :
  (forall e s, pre s -> post (inl e) s) ->
  (forall s d' rowid, pre s -> stmt (db s) = inr (d', rowid) ->
                      post (inr rowid) (Build_state d' (Nat.pred <$> budget s))) ->
  hoare pre (execute_db stmt) post.
Proof.
  intros Herr Hok s Hs.
  destruct (execute_db_cases stmt s) as [(e & -> & _) | (d' & rowid & Hst & _ & ->)]; simpl.
  - apply Herr, Hs.
  - apply Hok; assumption.
Qed.

Lemma preserves_execute (P : database -> Prop) (stmt : statement) :
  stmt_preserves P stmt -> preserves P (execute_db stmt).
Proof.
  intros Hst. apply (hoare_execute (A := Z)).
  - auto.
  - intros s d' rowid Hs Heq. simpl. eapply Hst; eauto.
Qed.

Lemma preserves_bind {A B : Type} (P : database -> Prop) (m : M A) (k : A -> M B) :
  preserves P m -> (forall a, preserves P (k a)) -> preserves P (bind m k).
Proof.
  intros Hm Hk. eapply hoare_bind; [exact Hm | auto | exact Hk].
Qed.

Lemma preserves_ret {A : Type} (P : database -> Prop) (a : A) : preserves P (ret a).
Proof. apply hoare_ret. auto. Qed.

Lemma preserves_lift {A : Type} (P : database -> Prop) (r : exn + A) : preserves P (lift r).
Proof. apply hoare_lift. auto. Qed.

Lemma preserves_query {A : Type} (P : database -> Prop) (q : database -> A) :
  preserves P (query_db q).
Proof. apply hoare_query. auto. Qed.

Lemma preserves_try_except {A : Type} (P : database -> Prop) (body handler : M A) (e : exn) :
  preserves P body -> preserves P handler -> preserves P (try_except body e handler).
Proof.
  intros Hb Hh. eapply hoare_try_except; [exact Hb | auto | auto | exact Hh].
Qed.

Create HintDb preserve.
#[local] Hint Resolve preserves_ret preserves_lift preserves_query preserves_try_except
  : preserve.

(** ** The three loops of [place_order] *)

Lemma add_subtotals_app (total : spec_float) (l1 l2 : list order_line) :
  add_subtotals total (l1 ++ l2) = add_subtotals (add_subtotals total l1) l2.
Proof. unfold add_subtotals. apply fold_left_app. Qed.

Lemma collect_order_items_selects (form : order_form) (menu : list menu_item) :
  forall acc total lines total',
    collect_order_items form menu acc total = inr (lines, total') ->
    exists new, selects form menu new
                /\ lines = acc ++ new
                /\ total' = add_subtotals total new.
Proof.
  induction menu as [| m menu IH]; intros acc total lines total' H; simpl in H.
  - inversion H; subst. exists []. rewrite app_nil_r. repeat split; constructor.
  - destruct (form_qty form (mi_id m)) as [e | qty] eqn:Hq; [discriminate |].
    destruct (0 <? qty) eqn:Hpos.
    + destruct (py_int_mul_float qty (mi_price m)) as [e | subtotal] eqn:Hmul;
        [discriminate |].
      apply IH in H as (new & Hsel & -> & ->).
      eexists (_ :: new). split; [| split].
      * eapply selects_take; eauto. now apply Z.ltb_lt.
      * now rewrite <- app_assoc.
      * reflexivity.
    + apply IH in H as (new & Hsel & -> & ->).
      exists new. repeat split; auto.
      eapply selects_skip; eauto. now apply Z.ltb_ge.
Qed.

Lemma selects_collect_order_items (form : order_form) (menu : list menu_item)
      (new : list order_line) :
  selects form menu new ->
  forall acc total,
    collect_order_items form menu acc total = inr (acc ++ new, add_subtotals total new).
Proof.
  induction 1 as [| m menu lines qty Hq Hle _ IH
                  | m menu lines qty subtotal Hq Hlt Hmul _ IH]; intros acc total; simpl.
  - now rewrite app_nil_r.
  - rewrite Hq. replace (0 <? qty) with false by (symmetry; now apply Z.ltb_ge).
    apply IH.
  - rewrite Hq. replace (0 <? qty) with true by (symmetry; now apply Z.ltb_lt).
    rewrite Hmul, IH. now rewrite <- app_assoc.
Qed.

(** every selected line is the row of a menu item, with a positive quantity *)
Lemma selects_line (form : order_form) (menu : list menu_item) (lines : list order_line) :
  selects form menu lines ->
  Forall (fun l => exists m, m ∈ menu
                             /\ ol_menu_id l = mi_id m /\ ol_sku l = mi_sku m
                             /\ ol_name l = mi_name m /\ ol_price l = mi_price m
                             /\ form_qty form (mi_id m) = inr (ol_qty l)
                             /\ 0 < ol_qty l
                             /\ py_int_mul_float (ol_qty l) (ol_price l) = inr (ol_subtotal l))
         lines.
Proof.
  induction 1 as [| m menu lines qty Hq Hle _ IH
                  | m menu lines qty subtotal Hq Hlt Hmul _ IH].
  - constructor.
  - eapply Forall_impl; [exact IH |]. intros l (m' & Hin & Hrest).
    exists m'. split; [now apply list_elem_of_further | exact Hrest].
  - constructor.
    + exists m. simpl. repeat split; auto. apply list_elem_of_here.
    + eapply Forall_impl; [exact IH |]. intros l (m' & Hin & Hrest).
      exists m'. split; [now apply list_elem_of_further | exact Hrest].
Qed.

(** the stock keys of the lines are a sublist of those of the menu *)
Lemma selects_sku_sublist (form : order_form) (menu : list menu_item)
      (lines : list order_line) :
  selects form menu lines -> sublist (fmap ol_sku lines) (fmap mi_sku menu).
Proof.
  induction 1; simpl.
  - constructor.
  - now apply sublist_cons.
  - now apply sublist_skip.
Qed.

Lemma select_active_menu_sublist (d : database) :
  sublist (Sql.select_active_menu d) (menu_items d).
Proof. apply sublist_filter. Qed.

Lemma selects_sku_NoDup (form : order_form) (d : database) (lines : list order_line) :
  NoDup (fmap mi_sku (menu_items d)) ->
  selects form (Sql.select_active_menu d) lines ->
  NoDup (fmap ol_sku lines).
Proof.
  intros Hnd Hsel. eapply sublist_NoDup; [exact Hnd |].
  etransitivity; [eapply selects_sku_sublist; exact Hsel |].
  apply fmap_sublist, select_active_menu_sublist.
Qed.

Lemma check_inventory_first_short (lines : list order_line) (s : state) :
  check_inventory lines s = (inr (first_short (inventory (db s)) lines), s).
Proof.
  induction lines as [| l rest IH]; simpl; [reflexivity |].
  unfold bind, query_db, Sql.select_quantity. simpl.
  destruct (inventory (db s) !! ol_sku l) as [q |]; [| reflexivity].
  destruct (q <? ol_qty l); [reflexivity | exact IH].
Qed.

Lemma place_order_unfold (now : string) (form : order_form) (s : state) :
  place_order now form s =
  match collect_order_items form (Sql.select_active_menu (db s)) [] Float.zero with
  | inl e => (inl e, s)
  | inr ([], _) => (inr (Redirect To_index No_items_selected), s)
  | inr (lines, total) =>
      match first_short (inventory (db s)) lines with
      | Some name => (inr (Redirect To_index (Insufficient_inventory_for name)), s)
      | None => commit_order now total lines s
      end
  end.
Proof.
  unfold place_order, bind at 1 2. unfold query_db at 1. simpl.
  destruct (collect_order_items form (Sql.select_active_menu (db s)) [] Float.zero)
    as [e | [lines total]]; simpl; [reflexivity |].
  destruct lines as [| l rest]; [reflexivity |].
  unfold bind at 1. rewrite check_inventory_first_short.
  destruct (first_short (inventory (db s)) (l :: rest)); reflexivity.
Qed.

Lemma bind_int_fits (n : Z) : fits_sqlite_int n = true -> bind_int n = inr n.
Proof. unfold bind_int. now intros ->. Qed.

Lemma written_lines_cons (order_id : Z) (l : order_line) (rest : list order_line)
      (d : database) :
  written_lines order_id rest
    (set_inventory
       (alter (fun quantity => quantity - ol_qty l) (ol_sku l) (inventory d))
       (set_order_items
          (order_items d ++
             [Build_order_item (order_items_seq d + 1) order_id (ol_menu_id l) (ol_qty l)
                               (ol_price l)])
          (order_items_seq d + 1) d))
  = written_lines order_id (l :: rest) d.
Proof.
  unfold written_lines, set_inventory, set_order_items; simpl.
  f_equal.
  - now rewrite <- app_assoc.
  - lia.
Qed.

(** The third loop either writes every line, or is stopped by the storage
    layer. *)
Lemma write_order_items_cases (order_id : Z) (lines : list order_line) :
  Forall line_writable lines ->
  forall s r s',
    write_order_items order_id lines s = (r, s') ->
    (r = inr tt /\ db s' = written_lines order_id lines (db s))
    \/ (r = inl OperationalError /\ budget s <> None).
Proof.
  induction 1 as [| l rest [Hfit Hnan] _ IH]; intros s r s' Hrun.
  - left. simpl in Hrun. inversion Hrun; subst. split; [reflexivity |].
    unfold written_lines, decremented. destruct s' as [d b], d; simpl.
    f_equal; [now rewrite app_nil_r | lia].
  - simpl in Hrun. unfold bind at 1 in Hrun.
    destruct (execute_db_cases
                (Sql.insert_order_item order_id (ol_menu_id l) (ol_qty l) (ol_price l)) s)
      as [(e & He & [[-> Hb] | Hst]) | (d1 & r1 & Hst & Hb & He)];
      rewrite He in Hrun; clear He.
    + right. inversion Hrun. split; [reflexivity | congruence].
    + unfold Sql.insert_order_item in Hst.
      rewrite (bind_int_fits _ Hfit), Hnan in Hst. discriminate.
    + unfold bind at 1 in Hrun.
      destruct (execute_db_cases (Sql.decrement_inventory (ol_qty l) (ol_sku l))
                                 (Build_state d1 (Nat.pred <$> budget s)))
        as [(e & He & [[-> Hb2] | Hst2]) | (d2 & r2 & Hst2 & Hb2 & He)];
        rewrite He in Hrun; clear He.
      * right. inversion Hrun. split; [reflexivity |].
        simpl in Hb2. destruct (budget s); discriminate.
      * unfold Sql.decrement_inventory in Hst2.
        rewrite (bind_int_fits _ Hfit) in Hst2. discriminate.
      * simpl in *.
        apply IH in Hrun as [[Hr Hd] | [Hr Hb3]].
        -- left. split; [exact Hr |]. rewrite Hd. simpl.
           unfold Sql.decrement_inventory in Hst2.
           rewrite (bind_int_fits _ Hfit) in Hst2. inversion Hst2; subst d2.
           unfold Sql.insert_order_item in Hst.
           rewrite (bind_int_fits _ Hfit), Hnan in Hst. inversion Hst; subst d1.
           rewrite <- written_lines_cons. reflexivity.
        -- right. split; [exact Hr |]. simpl in Hb3.
           destruct (budget s); [discriminate | now contradiction Hb3].
Qed.

Lemma first_short_None (inv : gmap string Z) (lines : list order_line) :
  first_short inv lines = None ->
  Forall (fun l => exists q, inv !! ol_sku l = Some q /\ ol_qty l <= q) lines.
Proof.
  induction lines as [| l rest IH]; simpl; intros H; [constructor |].
  destruct (inv !! ol_sku l) as [q |] eqn:Hq; [| discriminate].
  destruct (q <? ol_qty l) eqn:Hlt; [discriminate |].
  constructor; [| now apply IH].
  exists q. split; [exact Hq | now apply Z.ltb_ge].
Qed.

Lemma first_short_Some (inv : gmap string Z) (lines : list order_line) (name : string) :
  first_short inv lines = Some name ->
  exists l, l ∈ lines /\ name = ol_name l
            /\ match inv !! ol_sku l with
               | None => True
               | Some q => q < ol_qty l
               end.
Proof.
  induction lines as [| l rest IH]; simpl; intros H; [discriminate |].
  destruct (inv !! ol_sku l) as [q |] eqn:Hq.
  - destruct (q <? ol_qty l) eqn:Hlt.
    + inversion H; subst. exists l. rewrite Hq.
      repeat split; [apply list_elem_of_here | now apply Z.ltb_lt].
    + destruct (IH H) as (l' & Hin & Hrest). exists l'.
      split; [now apply list_elem_of_further | exact Hrest].
  - inversion H; subst. exists l. rewrite Hq.
    repeat split. apply list_elem_of_here.
Qed.

(** In a database that satisfies the schema, the lines that pass the
    inventory check are accepted by the statements of the third loop. *)
Lemma checked_lines_writable (form : order_form) (d : database) (lines : list order_line) :
  wf_db d ->
  selects form (Sql.select_active_menu d) lines ->
  first_short (inventory d) lines = None ->
  Forall line_writable lines.
Proof.
  intros Hwf Hsel Hchk.
  apply selects_line in Hsel. apply first_short_None in Hchk.
  rewrite Forall_forall in Hsel, Hchk. apply Forall_forall. intros l Hl.
  destruct (Hsel l Hl) as (m & Hm & _ & _ & _ & Hprice & _ & Hpos & _).
  destruct (Hchk l Hl) as (q & Hq & Hle).
  split.
  - pose proof (wf_quantity d Hwf _ _ Hq) as Hfit. simpl in Hfit.
    unfold fits_sqlite_int, sqlite_int_min, sqlite_int_max in *.
    apply andb_true_iff in Hfit as [H1 H2].
    apply Z.leb_le in H1, H2. apply andb_true_iff. split; apply Z.leb_le; lia.
  - rewrite Hprice.
    pose proof (wf_price d Hwf) as Hp. rewrite Forall_forall in Hp. apply Hp.
    apply list_elem_of_filter in Hm. tauto.
Qed.

(** The commit stage writes nothing (the Order insert raised), or writes
    everything, or is stopped by the storage layer after the Order insert. *)
Lemma commit_order_cases (now : string) (total : spec_float) (lines : list order_line) :
  Forall line_writable lines ->
  forall s r s',
    commit_order now total lines s = (r, s') ->
    (db s' = db s
     /\ (r = inl OperationalError /\ budget s = Some O
         \/ r = inl IntegrityError /\ Float.is_nan total = true))
    \/ (r = inr (Redirect (To_view_order (orders_seq (db s) + 1))
                          (Order_placed (orders_seq (db s) + 1) total))
        /\ db s' = committed_order now total lines (db s))
    \/ (r = inl OperationalError /\ exists n, budget s = Some (S n)).
Proof.
  intros Hw s r s' Hrun. unfold commit_order, bind at 1 in Hrun.
  destruct (execute_db_cases (Sql.insert_order now total) s)
    as [(e & He & [[-> Hb] | Hst]) | (d1 & r1 & Hst & Hb & He)];
    rewrite He in Hrun; clear He.
  - left. inversion Hrun; subst. auto.
  - left. inversion Hrun; subst. unfold Sql.insert_order in Hst.
    destruct (Float.is_nan total); [| discriminate].
    inversion Hst; subst. auto.
  - unfold Sql.insert_order in Hst.
    destruct (Float.is_nan total); [discriminate |].
    inversion Hst; subst d1 r1. clear Hst.
    unfold bind at 1 in Hrun.
    destruct (write_order_items (orders_seq (db s) + 1) lines _) as [rw sw] eqn:Hwr.
    apply (write_order_items_cases _ _ Hw) in Hwr as [[-> Hd] | [-> Hb2]].
    + right. left. inversion Hrun; subst. split; [reflexivity |].
      rewrite Hd. reflexivity.
    + right. right. inversion Hrun; subst. split; [reflexivity |].
      destruct (budget s) as [[| n] |]; simpl in Hb2; try congruence. eauto.
Qed.

(** The third loop under a storage layer that accepts [k] more statements:
    with two statements for every line it writes every line, with fewer it
    is stopped after [k] statements, which stay committed. *)
Lemma write_order_items_run (order_id : Z) (lines : list order_line) :
  Forall line_writable lines ->
  forall d b,
    write_order_items order_id lines (Build_state d b)
    = match b with
      | None => (inr tt, Build_state (written_lines order_id lines d) None)
      | Some k =>
          if (2 * length lines <=? k)%nat
          then (inr tt, Build_state (written_lines order_id lines d)
                                    (Some (k - 2 * length lines)%nat))
          else (inl OperationalError,
                Build_state (written_prefix order_id lines k d) (Some O))
      end.
Proof.
  induction 1 as [| l rest [Hfit Hnan] _ IH]; intros d b.
  - assert (written_lines order_id [] d = d) as ->.
    { unfold written_lines, decremented. destruct d; simpl.
      f_equal; [now rewrite app_nil_r | lia]. }
    destruct b as [k |]; [| reflexivity].
    simpl. now rewrite Nat.sub_0_r.
  - assert (forall b',
               b' <> Some O -> b' <> Some 1%nat ->
               write_order_items order_id (l :: rest) (Build_state d b')
               = write_order_items order_id rest
                   (Build_state (with_decrement l (with_order_item order_id l d))
                                (Nat.pred <$> (Nat.pred <$> b')))) as Hstep.
    { intros b' H0 H1. cbn [write_order_items].
      unfold bind, execute_db, Sql.insert_order_item, Sql.decrement_inventory.
      cbn [db budget]. rewrite (bind_int_fits _ Hfit), Hnan.
      destruct b' as [[| [| k]] |]; try congruence; reflexivity. }
    assert (forall k, (k < 2)%nat -> (2 * length (l :: rest) <=? k)%nat = false) as Hlen
        by (intros; apply Nat.leb_gt; cbn [length]; lia).
    assert (written_lines order_id rest (with_decrement l (with_order_item order_id l d))
            = written_lines order_id (l :: rest) d) as Hcons
        by (rewrite <- written_lines_cons; reflexivity).
    destruct b as [[| [| k]] |].
    + rewrite Hlen by lia. cbn [write_order_items]. unfold bind, execute_db. reflexivity.
    + rewrite Hlen by lia. cbn [write_order_items].
      unfold bind, execute_db, Sql.insert_order_item. cbn [db budget].
      rewrite (bind_int_fits _ Hfit), Hnan. reflexivity.
    + rewrite Hstep by discriminate. cbn [fmap option_fmap option_map Nat.pred].
      rewrite IH, Hcons.
      replace (2 * length (l :: rest) <=? S (S k))%nat
        with (2 * length rest <=? k)%nat.
      2:{ cbn [length]. destruct (Nat.leb_spec (2 * length rest) k);
          symmetry; [apply Nat.leb_le | apply Nat.leb_gt]; lia. }
      replace (S (S k) - 2 * length (l :: rest))%nat with (k - 2 * length rest)%nat
        by (cbn [length]; lia).
      reflexivity.
    + rewrite Hstep by discriminate. cbn [fmap option_fmap option_map].
      rewrite IH, Hcons. reflexivity.
Qed.

(** The commit stage, statement by statement: the running state is
    determined by the number of statements the storage layer accepts. *)
Lemma commit_order_run (now : string) (total : spec_float) (lines : list order_line)
      (d : database) (b : option nat) :
  Forall line_writable lines ->
  Float.is_nan total = false ->
  commit_order now total lines (Build_state d b)
  = let placed := inr (Redirect (To_view_order (orders_seq d + 1))
                                (Order_placed (orders_seq d + 1) total)) in
    match b with
    | None => (placed, Build_state (committed_order now total lines d) None)
    | Some O => (inl OperationalError, Build_state d (Some O))
    | Some (S n) =>
        if (2 * length lines <=? n)%nat
        then (placed, Build_state (committed_order now total lines d)
                                  (Some (n - 2 * length lines)%nat))
        else (inl OperationalError,
              Build_state (written_prefix (orders_seq d + 1) lines n (with_order now total d))
                          (Some O))
    end.
Proof.
  intros Hw Hnan. unfold commit_order, bind at 1.
  unfold execute_db, Sql.insert_order. cbn [db budget]. rewrite Hnan.
  destruct b as [[| n] |]; [reflexivity | |].
  - cbn [fmap option_fmap option_map Nat.pred]. unfold bind.
    rewrite (write_order_items_run _ _ Hw).
    destruct (2 * length lines <=? n)%nat; reflexivity.
  - cbn [fmap option_fmap option_map]. unfold bind.
    rewrite (write_order_items_run _ _ Hw). reflexivity.
Qed.



(** the commit stage answers with the new order or raises; it never
    rejects *)
Lemma commit_order_not_rejected (now : string) (total : spec_float)
      (lines : list order_line) (s : state) (flash : flash_message) :
  outcome_of (fst (commit_order now total lines s)) <> Rejected flash.
Proof.
  unfold commit_order, bind.
  destruct (execute_db (Sql.insert_order now total) s) as [[e | order_id] s1];
    [discriminate |].
  destruct (write_order_items order_id lines s1) as [[e | []] s2]; discriminate.
Qed.

Lemma written_prefix_orders (order_id : Z) (lines : list order_line) (j : nat)
      (d : database) :
  orders (written_prefix order_id lines j d) = orders d.
Proof.
  revert d lines. induction (lt_wf j) as [j _ IH]. intros d lines.
  destruct lines as [| l rest]; [now destruct j |].
  destruct j as [| [| j]]; [reflexivity | reflexivity |].
  cbn [written_prefix]. rewrite IH by lia. reflexivity.
Qed.

(** ** The schema invariant is kept by every statement *)

Lemma is_nan_stored (f : spec_float) : Float.is_nan (Float.stored f) = Float.is_nan f.
Proof. now destruct f. Qed.

Lemma bind_int_inr (n q : Z) : bind_int n = inr q -> q = n /\ fits_sqlite_int n = true.
Proof. unfold bind_int. destruct (fits_sqlite_int n); [| discriminate]. now inversion 1. Qed.

Lemma wf_db_empty : wf_db empty_database.
Proof.
  constructor; simpl; try constructor.
  apply map_Forall_empty.
Qed.

Lemma insert_order_wf (now : string) (total : spec_float) :
  stmt_preserves wf_db (Sql.insert_order now total).
Proof.
  intros d d' rowid [Hsku Hid Hids Hprice Hq Ho Hoi] H.
  unfold Sql.insert_order in H. destruct (Float.is_nan total); [discriminate |].
  inversion H; subst; clear H. constructor; simpl; auto.
  - apply Forall_app. split.
    + eapply Forall_impl; [exact Ho |]. intros; simpl in *; lia.
    + repeat constructor. simpl. lia.
  - eapply Forall_impl; [exact Hoi |]. intros; simpl in *; lia.
Qed.

Lemma insert_order_item_wf (order_id menu_id qty : Z) (price : spec_float) :
  stmt_preserves (fun d => wf_db d /\ order_id <= orders_seq d)
                 (Sql.insert_order_item order_id menu_id qty price).
Proof.
  intros d d' rowid [[Hsku Hid Hids Hprice Hq Ho Hoi] Hle] H.
  unfold Sql.insert_order_item in H.
  destruct (bind_int qty) as [e | q]; [discriminate |].
  destruct (Float.is_nan price); [discriminate |].
  inversion H; subst; clear H. split; [| exact Hle].
  constructor; simpl; auto.
  apply Forall_app. split; [exact Hoi |]. repeat constructor. exact Hle.
Qed.

Lemma insert_or_replace_inventory_wf (sku : string) (qty : Z) :
  stmt_preserves wf_db (Sql.insert_or_replace_inventory sku qty).
Proof.
  intros d d' rowid [Hsku Hid Hids Hprice Hq Ho Hoi] H.
  unfold Sql.insert_or_replace_inventory in H.
  destruct (bind_int qty) as [e | q] eqn:Hb; [discriminate |].
  apply bind_int_inr in Hb as [-> Hfit].
  inversion H; subst; clear H. constructor; simpl; auto.
  now apply map_Forall_insert_2.
Qed.

Lemma insert_or_ignore_inventory_wf (sku : string) (qty : Z) :
  stmt_preserves wf_db (Sql.insert_or_ignore_inventory sku qty).
Proof.
  intros d d' rowid Hwf H.
  unfold Sql.insert_or_ignore_inventory in H.
  destruct (bind_int qty) as [e | q] eqn:Hb; [discriminate |].
  destruct (inventory d !! sku) eqn:Hl.
  - now inversion H; subst.
  - eapply (insert_or_replace_inventory_wf sku qty); [exact Hwf |].
    unfold Sql.insert_or_replace_inventory. rewrite Hb. exact H.
Qed.

Lemma insert_menu_item_wf (name desc : string) (price : spec_float) (sku : string)
      (active : Z) :
  stmt_preserves wf_db (Sql.insert_menu_item name desc price sku active).
Proof.
  intros d d' rowid [Hsku Hid Hids Hprice Hq Ho Hoi] H.
  unfold Sql.insert_menu_item in H.
  destruct (bind_int active) as [e | a]; [discriminate |].
  destruct (Float.is_nan price) eqn:Hnan; [discriminate |].
  case_bool_decide as Hin; [discriminate |].
  inversion H; subst; clear H. constructor; simpl; auto.
  - rewrite fmap_app. apply NoDup_app. split; [exact Hsku |]. split.
    + intros x Hx Hx'. simpl in Hx'. apply list_elem_of_singleton in Hx'. now subst.
    + apply NoDup_singleton.
  - rewrite fmap_app. apply NoDup_app. split; [exact Hid |]. split.
    + intros x Hx Hx'. simpl in Hx'. apply list_elem_of_singleton in Hx'. subst.
      apply list_elem_of_fmap in Hx as (m & Hm & Hin').
      rewrite Forall_forall in Hids. specialize (Hids m Hin'). lia.
    + apply NoDup_singleton.
  - apply Forall_app. split.
    + eapply Forall_impl; [exact Hids |]. intros; simpl in *; lia.
    + repeat constructor. simpl. lia.
  - apply Forall_app. split; [exact Hprice |]. repeat constructor.
    simpl. now rewrite is_nan_stored.
Qed.

Lemma delete_menu_item_wf (item_id : Z) :
  stmt_preserves wf_db (Sql.delete_menu_item item_id).
Proof.
  intros d d' rowid [Hsku Hid Hids Hprice Hq Ho Hoi] H.
  unfold Sql.delete_menu_item in H.
  destruct (bind_int item_id) as [e | i]; [discriminate |].
  inversion H; subst; clear H. constructor; simpl; auto.
  - eapply sublist_NoDup; [exact Hsku |]. apply fmap_sublist, sublist_filter.
  - eapply sublist_NoDup; [exact Hid |]. apply fmap_sublist, sublist_filter.
  - apply Forall_forall. intros m Hm. apply list_elem_of_filter in Hm as [_ Hm].
    rewrite Forall_forall in Hids. auto.
  - apply Forall_forall. intros m Hm. apply list_elem_of_filter in Hm as [_ Hm].
    rewrite Forall_forall in Hprice. auto.
Qed.

Section UpdateRow.
Variables (i : Z) (row : menu_item).

(** what [UPDATE menu_items SET ... WHERE id = i] does to one row *)
Let upd (m : menu_item) : menu_item :=
  if mi_id m =? i then Build_menu_item (mi_id m) (mi_name row) (mi_description row)
                                        (mi_price row) (mi_sku row) (mi_active row)
  else m.

Lemma upd_id (m : menu_item) : mi_id (upd m) = mi_id m.
Proof. unfold upd. now destruct (mi_id m =? i). Qed.

Lemma upd_ids (l : list menu_item) : mi_id <$> (upd <$> l) = mi_id <$> l.
Proof.
  induction l as [| m l IH]; [reflexivity |].
  now rewrite !fmap_cons, upd_id, IH.
Qed.

Lemma upd_sku_elem (l : list menu_item) (y : string) :
  y ∈ mi_sku <$> (upd <$> l) ->
  (y = mi_sku row /\ exists m, m ∈ l /\ mi_id m = i)
  \/ y ∈ mi_sku <$> filter (fun m => mi_id m ≠ i) l.
Proof.
  intros Hy. apply list_elem_of_fmap in Hy as (m' & -> & Hm').
  apply list_elem_of_fmap in Hm' as (m & -> & Hm).
  unfold upd. destruct (mi_id m =? i) eqn:Heq.
  - left. split; [reflexivity |]. exists m. split; [exact Hm | now apply Z.eqb_eq].
  - right. apply list_elem_of_fmap. exists m. split; [reflexivity |].
    apply list_elem_of_filter. split; [now apply Z.eqb_neq | exact Hm].
Qed.

Lemma upd_sku_NoDup (l : list menu_item) :
  NoDup (mi_id <$> l) ->
  NoDup (mi_sku <$> l) ->
  mi_sku row ∉ mi_sku <$> filter (fun m => mi_id m ≠ i) l ->
  NoDup (mi_sku <$> (upd <$> l)).
Proof.
  induction l as [| m l IH]; intros Hid Hsku Hnew; [constructor |].
  rewrite !fmap_cons in *.
  apply NoDup_cons in Hid as [Hid1 Hid2]. apply NoDup_cons in Hsku as [Hsku1 Hsku2].
  rewrite filter_cons in Hnew.
  apply NoDup_cons. destruct (decide (mi_id m ≠ i)) as [Hne | Heq].
  - rewrite fmap_cons in Hnew. apply not_elem_of_cons in Hnew as [Hnew1 Hnew2].
    split; [| now apply IH].
    unfold upd at 1. replace (mi_id m =? i) with false by (symmetry; now apply Z.eqb_neq).
    intros Hin. apply upd_sku_elem in Hin as [[Hs _] | Hin].
    + congruence.
    + apply Hsku1. apply list_elem_of_fmap in Hin as (m' & -> & Hm').
      apply list_elem_of_filter in Hm' as [_ Hm']. now apply list_elem_of_fmap_2.
  - assert (mi_id m = i) as Hi by (destruct (decide (mi_id m = i)); tauto).
    split; [| now apply IH].
    unfold upd at 1. replace (mi_id m =? i) with true by (symmetry; now apply Z.eqb_eq).
    simpl. intros Hin. apply upd_sku_elem in Hin as [[_ (m' & Hm' & Hi')] | Hin].
    + apply Hid1. rewrite Hi, <- Hi'. now apply list_elem_of_fmap_2.
    + contradiction.
Qed.
End UpdateRow.

Lemma update_menu_item_wf (name desc : string) (price : spec_float) (sku : string)
      (active item_id : Z) :
  stmt_preserves wf_db (Sql.update_menu_item name desc price sku active item_id).
Proof.
  intros d d' rowid Hwf H.
  unfold Sql.update_menu_item in H.
  destruct (bind_int active) as [e | a]; [discriminate |].
  destruct (bind_int item_id) as [e | i]; [discriminate |].
  destruct (existsb _ _); [| now inversion H; subst].
  destruct (Float.is_nan price) eqn:Hnan; [discriminate |].
  case_bool_decide as Hin; [discriminate |].
  inversion H; subst; clear H.
  destruct Hwf as [Hsku Hid Hids Hprice Hq Ho Hoi].
  pose (row := Build_menu_item 0 name desc (Float.stored price) sku a).
  constructor; simpl; auto.
  - exact (upd_sku_NoDup i row _ Hid Hsku Hin).
  - now rewrite (upd_ids i row).
  - apply Forall_fmap. eapply Forall_impl; [exact Hids |].
    intros m Hm. simpl. now destruct (mi_id m =? i).
  - apply Forall_fmap. eapply Forall_impl; [exact Hprice |].
    intros m Hm. simpl. destruct (mi_id m =? i); [simpl | exact Hm].
    now rewrite is_nan_stored.
Qed.

(** ** Invariants of the third loop

    A property of the database is kept by the third loop when the OrderLine
    insert keeps it and a decrement that stays at or above zero keeps it:
    every line passed the inventory check and no two lines share a stock
    key.  This holds at every statement, so also when the storage layer
    stops the loop. *)

Section ThirdLoop.
Variables (P : database -> Prop) (order_id : Z).
Hypothesis P_insert :
  forall menu_id qty price,
    stmt_preserves P (Sql.insert_order_item order_id menu_id qty price).
Hypothesis P_decrement :
  forall d sku q qty,
    P d -> inventory d !! sku = Some q -> 0 < qty <= q ->
    P (set_inventory (alter (fun quantity => quantity - qty) sku (inventory d)) d).

Lemma write_order_items_preserves (lines : list order_line) :
  NoDup (ol_sku <$> lines) ->
  hoare (fun s => P (db s) /\ Forall (checked (inventory (db s))) lines)
        (write_order_items order_id lines)
        (fun _ s => P (db s)).
Proof.
  induction lines as [| l rest IH]; intros Hnd.
  - apply hoare_ret. tauto.
  - rewrite fmap_cons in Hnd. apply NoDup_cons in Hnd as [Hfresh Hnd].
    simpl.
    eapply hoare_bind with
      (mid := fun r s => P (db s) /\ Forall (checked (inventory (db s))) (l :: rest)).
    + apply (hoare_execute (A := Z)); [tauto |].
      intros s d' rowid [HP Hchk] Hst. simpl. split; [eapply P_insert; eauto |].
      unfold Sql.insert_order_item in Hst.
      destruct (bind_int (ol_qty l)); [discriminate |].
      destruct (Float.is_nan (ol_price l)); [discriminate |].
      inversion Hst; subst. exact Hchk.
    + tauto.
    + intros _.
      eapply hoare_bind with
        (mid := fun r s => P (db s) /\ Forall (checked (inventory (db s))) rest).
      * apply (hoare_execute (A := Z)).
        { intros e s [HP Hchk]. apply Forall_cons in Hchk. tauto. }
        intros s d' rowid [HP Hchk] Hst. simpl.
        unfold Sql.decrement_inventory in Hst.
        destruct (bind_int (ol_qty l)) as [e | q] eqn:Hb; [discriminate |].
        apply bind_int_inr in Hb as [-> _].
        inversion Hst; subst; clear Hst.
        apply Forall_cons in Hchk as [(Hpos & q & Hq & Hle) Hrest].
        split; [eapply P_decrement; eauto |].
        simpl. rewrite Forall_forall in Hrest. apply Forall_forall.
        intros l' Hl'. destruct (Hrest l' Hl') as (Hpos' & q' & Hq' & Hle').
        split; [exact Hpos' |]. exists q'. split; [| exact Hle'].
        rewrite lookup_alter_ne; [exact Hq' |].
        intros Heq. apply Hfresh. rewrite Heq. now apply list_elem_of_fmap_2.
      * tauto.
      * intros _. exact (IH Hnd).
Qed.
End ThirdLoop.

Lemma selects_checked (form : order_form) (menu : list menu_item) (lines : list order_line)
      (inv : gmap string Z) :
  selects form menu lines ->
  first_short inv lines = None ->
  Forall (checked inv) lines.
Proof.
  intros Hsel Hchk. apply selects_line in Hsel. apply first_short_None in Hchk.
  rewrite Forall_forall in Hsel, Hchk. apply Forall_forall. intros l Hl.
  destruct (Hsel l Hl) as (m & _ & _ & _ & _ & _ & _ & Hpos & _).
  split; [exact Hpos | exact (Hchk l Hl)].
Qed.

Section PlaceOrderInvariant.
Variables (P : database -> Prop) (Q : Z -> database -> Prop).
Hypothesis P_sku_unique : forall d, P d -> NoDup (mi_sku <$> menu_items d).
Hypothesis P_insert_order :
  forall now total d d' order_id,
    P d -> Sql.insert_order now total d = inr (d', order_id) -> Q order_id d'.
Hypothesis Q_insert_order_item :
  forall order_id menu_id qty price,
    stmt_preserves (Q order_id) (Sql.insert_order_item order_id menu_id qty price).
Hypothesis Q_decrement :
  forall order_id d sku q qty,
    Q order_id d -> inventory d !! sku = Some q -> 0 < qty <= q ->
    Q order_id (set_inventory (alter (fun quantity => quantity - qty) sku (inventory d)) d).
Hypothesis Q_P : forall order_id d, Q order_id d -> P d.

Lemma commit_order_preserves (now : string) (total : spec_float)
      (lines : list order_line) :
  NoDup (ol_sku <$> lines) ->
  hoare (fun s => P (db s) /\ Forall (checked (inventory (db s))) lines)
        (commit_order now total lines)
        (fun _ s => P (db s)).
Proof.
  intros Hnd. unfold commit_order.
  eapply hoare_bind with
    (mid := fun r s => match r with
                       | inl _ => P (db s)
                       | inr order_id =>
                           Q order_id (db s) /\ Forall (checked (inventory (db s))) lines
                       end).
  - apply (hoare_execute (A := Z)); [tauto |].
    intros s d' rowid [HP Hchk] Hst. simpl. split; [eapply P_insert_order; eauto |].
    unfold Sql.insert_order in Hst. destruct (Float.is_nan total); [discriminate |].
    inversion Hst; subst. exact Hchk.
  - auto.
  - intros order_id.
    eapply hoare_bind with (mid := fun _ s => P (db s)).
    + eapply hoare_consequence.
      * apply (write_order_items_preserves (Q order_id) order_id); auto.
        intros d sku q qty. apply Q_decrement.
      * auto.
      * intros r s. apply Q_P.
    + auto.
    + intros _. apply hoare_ret. auto.
Qed.

Lemma place_order_preserves (now : string) (form : order_form) :
  preserves P (place_order now form).
Proof.
  intros s HP. rewrite place_order_unfold.
  destruct (collect_order_items form (Sql.select_active_menu (db s)) [] Float.zero)
    as [e | [lines total]] eqn:Hcol; [exact HP |].
  destruct lines as [| l rest]; [exact HP |].
  destruct (first_short (inventory (db s)) (l :: rest)) eqn:Hchk; [exact HP |].
  apply collect_order_items_selects in Hcol as (new & Hsel & Hnew & _).
  simpl in Hnew. subst new.
  apply (commit_order_preserves now total (l :: rest)).
  - eapply selects_sku_NoDup; eauto.
  - split; [exact HP |]. eapply selects_checked; eauto.
Qed.
End PlaceOrderInvariant.

Lemma decrement_checked_wf (order_id : Z) (d : database) (sku : string) (q qty : Z) :
  wf_db d /\ order_id <= orders_seq d ->
  inventory d !! sku = Some q ->
  0 < qty <= q ->
  wf_db (set_inventory (alter (fun quantity => quantity - qty) sku (inventory d)) d)
  /\ order_id <= orders_seq d.
Proof.
  intros [[Hsku Hid Hids Hprice Hq Ho Hoi] Hle] Hl Hrange.
  split; [| exact Hle]. constructor; simpl; auto.
  intros k v Hk. simpl.
  destruct (decide (sku = k)) as [-> | Hne].
  - rewrite lookup_alter_eq, Hl in Hk. inversion Hk; subst.
    pose proof (Hq _ _ Hl) as Hfit. simpl in Hfit.
    unfold fits_sqlite_int, sqlite_int_min, sqlite_int_max in *.
    apply andb_true_iff in Hfit as [H1 H2]. apply Z.leb_le in H1, H2.
    apply andb_true_iff. split; apply Z.leb_le; lia.
  - rewrite lookup_alter_ne in Hk by exact Hne. exact (Hq _ _ Hk).
Qed.

Lemma insert_order_wf_fresh (now : string) (total : spec_float) (d d' : database)
      (order_id : Z) :
  wf_db d ->
  Sql.insert_order now total d = inr (d', order_id) ->
  wf_db d' /\ order_id <= orders_seq d'.
Proof.
  intros Hwf Hst. split.
  - eapply insert_order_wf; eauto.
  - unfold Sql.insert_order in Hst. destruct (Float.is_nan total); [discriminate |].
    inversion Hst; subst. simpl. lia.
Qed.

Lemma place_order_wf (now : string) (form : order_form) :
  preserves wf_db (place_order now form).
Proof.
  apply place_order_preserves
    with (Q := fun order_id d => wf_db d /\ order_id <= orders_seq d).
  - intros d Hwf. apply (wf_sku_unique d Hwf).
  - intros now' total d d' order_id. apply insert_order_wf_fresh.
  - intros. apply insert_order_item_wf.
  - intros order_id d sku q qty. exact (decrement_checked_wf order_id d sku q qty).
  - tauto.
Qed.

(** ** Every reachable database satisfies the schema invariant *)

#[local] Hint Resolve insert_order_wf insert_or_replace_inventory_wf
  insert_or_ignore_inventory_wf insert_menu_item_wf update_menu_item_wf
  delete_menu_item_wf preserves_execute : preserve.

Ltac preserve_step :=
  first [ apply preserves_bind; [| intros ? ]
        | apply preserves_try_except
        | apply preserves_execute
        | apply preserves_ret
        | apply preserves_lift
        | apply preserves_query ].

Lemma admin_add_item_wf (req : body item_form) : preserves wf_db (admin_add_item req).
Proof.
  destruct req as [| form]; simpl; repeat preserve_step; auto with preserve.
Qed.

Lemma admin_edit_item_wf (item_id : Z) (req : body item_form) :
  preserves wf_db (admin_edit_item item_id req).
Proof.
  unfold admin_edit_item. repeat preserve_step.
  destruct a0 as [it |]; [| apply preserves_ret].
  destruct req as [| form]; repeat preserve_step; auto with preserve.
Qed.

Lemma admin_delete_item_wf (item_id : Z) : preserves wf_db (admin_delete_item item_id).
Proof. unfold admin_delete_item. repeat preserve_step; auto with preserve. Qed.

Lemma admin_update_inventory_wf (form : exn + inventory_form) :
  preserves wf_db (admin_update_inventory form).
Proof. unfold admin_update_inventory. repeat preserve_step; auto with preserve. Qed.

Lemma view_order_preserves (P : database -> Prop) (order_id : Z) :
  preserves P (view_order order_id).
Proof.
  unfold view_order. repeat preserve_step.
  destruct a0 as [o |]; repeat preserve_step.
Qed.

Lemma handle_wf (r : request) : preserves wf_db (handle r).
Proof.
  destruct r; simpl.
  - unfold index. repeat preserve_step.
  - apply place_order_wf.
  - unfold view_orders. repeat preserve_step.
  - apply view_order_preserves.
  - unfold admin_menu. repeat preserve_step.
  - apply admin_add_item_wf.
  - apply admin_edit_item_wf.
  - apply admin_delete_item_wf.
  - apply admin_update_inventory_wf.
Qed.

Lemma seed_rows_wf (rows : list (string * string * spec_float * string * Z)) :
  preserves wf_db (seed_rows rows).
Proof.
  induction rows as [| [[[[name desc] price] sku] active] rest IH]; simpl.
  - apply preserves_ret.
  - repeat preserve_step; auto with preserve.
Qed.

Lemma seeded_database_wf : wf_db seeded_database.
Proof.
  unfold seeded_database.
  assert (preserves wf_db seed_if_empty) as H.
  { unfold seed_if_empty. repeat preserve_step.
    destruct (a =? 0); [apply seed_rows_wf | apply preserves_ret]. }
  apply (H (Build_state empty_database None)). exact wf_db_empty.
Qed.

Lemma reachable_wf (d : database) : reachable d -> wf_db d.
Proof.
  induction 1 as [| d r b _ IH].
  - exact seeded_database_wf.
  - unfold db_after. apply (handle_wf r (Build_state d b)). exact IH.
Qed.

(** ** The outcomes of [place_order] on a well-formed database *)

Lemma not_placed_inl (e : exn) : ~ is_order_placed (inl e).
Proof. intros (? & ? & ?). discriminate. Qed.

Lemma not_placed_index (flash : flash_message) :
  ~ is_order_placed (inr (Redirect To_index flash)).
Proof. intros (? & ? & ?). discriminate. Qed.

Lemma place_order_cases (now : string) (form : order_form) (s : state)
      (r : exn + response) (s' : state) :
  wf_db (db s) ->
  place_order now form s = (r, s') ->
  (db s' = db s /\ ~ is_order_placed r)
  \/ (exists lines total,
         collect_order_items form (Sql.select_active_menu (db s)) [] Float.zero
         = inr (lines, total)
         /\ r = inr (Redirect (To_view_order (orders_seq (db s) + 1))
                              (Order_placed (orders_seq (db s) + 1) total))
         /\ db s' = committed_order now total lines (db s))
  \/ (r = inl OperationalError /\ exists n, budget s = Some (S n)).
Proof.
  intros Hwf Hrun. rewrite place_order_unfold in Hrun.
  destruct (collect_order_items form (Sql.select_active_menu (db s)) [] Float.zero)
    as [e | [lines total]] eqn:Hcol.
  { left. inversion Hrun; subst. split; [reflexivity | apply not_placed_inl]. }
  destruct (collect_order_items_selects _ _ _ _ _ _ Hcol) as (new & Hsel & Hnew & _).
  simpl in Hnew. subst new.
  destruct lines as [| l rest].
  { left. inversion Hrun; subst. split; [reflexivity | apply not_placed_index]. }
  destruct (first_short (inventory (db s)) (l :: rest)) as [name |] eqn:Hchk.
  { left. inversion Hrun; subst. split; [reflexivity | apply not_placed_index]. }
  pose proof (checked_lines_writable form (db s) _ Hwf Hsel Hchk) as Hw.
  destruct (commit_order_cases now total _ Hw s r s' Hrun)
    as [[Hd Hr] | [[Hr Hd] | Hr]].
  - left. split; [exact Hd |].
    destruct Hr as [[-> _] | [-> _]]; apply not_placed_inl.
  - right. left. exists (l :: rest), total. auto.
  - right. right. exact Hr.
Qed.

(** * The claims *)

(** Scenario A of the specification: the basket [{ESP-01: 2}] at price 80.00
    against an inventory of 50 is accepted with total 160.00 and leaves 48 on
    hand. *)
Example scenario_A :
  let form : order_form := fun i => if i =? 1 then Parsed 2 else Missing in
  let run := place_order "2024-05-01T09:00:00" form (Build_state seeded_database None) in
  fst run = inr (Redirect (To_view_order 1) (Order_placed 1 (Float.of_Z 160)))
  /\ inventory (db (snd run)) !! "ESP-01" = Some 48.
Proof. intros form run. split; vm_compute; reflexivity. Qed.

(** [three_fortieths] is a binary64 number, and it is the price of the
    Espresso in [database_repriced]. *)
Example three_fortieths_valid :
  valid_binary Float.prec Float.emax three_fortieths = true
  /\ mi_price <$> List.find (fun m => mi_id m =? 1) (menu_items database_repriced)
     = Some three_fortieths.
Proof. split; vm_compute; reflexivity. Qed.

(** [format_2f] on the floats [0.375], [0.125], [80.0], [-0.0], [2.675] and
    [0.001]: ties go to the even cent, and a float is printed by its own
    value, not by its shortest decimal. *)
Example format_2f_samples :
  format_2f (S754_finite false 3 (-3)) = "0.38"
  /\ format_2f (S754_finite false 1 (-3)) = "0.12"
  /\ format_2f (Float.of_Z 80) = "80.00"
  /\ format_2f (S754_zero true) = "-0.00"
  /\ format_2f (S754_finite false 6023564501608038 (-51)) = "2.67"
  /\ format_2f (S754_finite false 4611686018427388 (-62)) = "0.00".
Proof. repeat split; vm_compute; reflexivity. Qed.

(** ** C1: atomicity of the commit *)

(** C1, as stated, fails.  On the seeded database, with the basket
    [{1: 2}] and a storage layer that accepts one statement and fails at the
    second, [place_order] raises while the Order record is already
    committed: the orders table has the new row, and there is no OrderLine
    and no decrement. *)
Lemma place_order_partial_commit :
  let form : order_form := fun i => if i =? 1 then Parsed 2 else Missing in
  let s := Build_state seeded_database (Some 1%nat) in
  exists s',
    place_order "2024-05-01T09:00:00" form s = (inl OperationalError, s')
    /\ orders (db s') = [Build_order 1 "2024-05-01T09:00:00" (Float.of_Z 160)]
    /\ orders seeded_database = []
    /\ order_items (db s') = []
    /\ inventory (db s') = inventory seeded_database.
Proof.
  intros form s. exists (snd (place_order "2024-05-01T09:00:00" form s)).
  repeat split; vm_compute; reflexivity.
Qed.

(** C1, amended: on a database that satisfies the schema, [place_order]
    either writes nothing and reports no order (every rejection, every
    exception of validation, a failure of the Order insert), or writes the
    Order record, all OrderLines and all decrements and reports the order.
    The one exception is a storage layer that accepts the Order insert and
    then [n] more statements, fewer than the two statements per line of the
    third loop: [place_order] then raises, and the Order record and the
    first [n] statements of the third loop stay committed, since every
    statement is committed on its own. *)
Theorem place_order_all_or_nothing (now : string) (form : order_form) (s : state)
        (r : exn + response) (s' : state) :
  wf_db (db s) ->
  place_order now form s = (r, s') ->
  (db s' = db s /\ ~ is_order_placed r)
  \/ (exists lines total,
         selects form (Sql.select_active_menu (db s)) lines
         /\ r = inr (Redirect (To_view_order (orders_seq (db s) + 1))
                              (Order_placed (orders_seq (db s) + 1) total))
         /\ db s' = committed_order now total lines (db s))
  \/ (exists lines total n,
         selects form (Sql.select_active_menu (db s)) lines
         /\ total = add_subtotals Float.zero lines
         /\ budget s = Some (S n)
         /\ (n < 2 * length lines)%nat
         /\ r = inl OperationalError
         /\ db s' = written_prefix (orders_seq (db s) + 1) lines n
                                   (with_order now total (db s))
         /\ orders (db s')
            = orders (db s) ++ [Build_order (orders_seq (db s) + 1) now total]).
Proof.
  intros Hwf Hrun. rewrite place_order_unfold in Hrun.
  destruct (collect_order_items form (Sql.select_active_menu (db s)) [] Float.zero)
    as [e | [lines total]] eqn:Hcol.
  { left. inversion Hrun; subst. split; [reflexivity | apply not_placed_inl]. }
  destruct (collect_order_items_selects _ _ _ _ _ _ Hcol) as (new & Hsel & Hnew & Htot).
  simpl in Hnew. subst new.
  destruct lines as [| l rest].
  { left. inversion Hrun; subst. split; [reflexivity | apply not_placed_index]. }
  destruct (first_short (inventory (db s)) (l :: rest)) as [name |] eqn:Hchk.
  { left. inversion Hrun; subst. split; [reflexivity | apply not_placed_index]. }
  pose proof (checked_lines_writable form (db s) _ Hwf Hsel Hchk) as Hw.
  destruct s as [d b]. cbn [db budget] in *.
  destruct (Float.is_nan total) eqn:Hnan.
  - left. unfold commit_order, bind, execute_db, Sql.insert_order in Hrun.
    cbn [db budget] in Hrun. rewrite Hnan in Hrun.
    destruct b as [[| n] |]; inversion Hrun; subst;
      (split; [reflexivity | apply not_placed_inl]).
  - rewrite (commit_order_run _ _ _ _ _ Hw Hnan) in Hrun. cbv zeta in Hrun.
    destruct b as [[| n] |].
    + left. inversion Hrun; subst. split; [reflexivity | apply not_placed_inl].
    + destruct (Nat.leb_spec (2 * length (l :: rest)) n) as [Hle | Hlt].
      * right. left. exists (l :: rest), total. inversion Hrun; subst. auto.
      * right. right. exists (l :: rest), total, n.
        pose proof (f_equal fst Hrun) as Hr. pose proof (f_equal snd Hrun) as Hs.
        cbn [fst snd] in Hr, Hs. subst r s'.
        cbn [db]. rewrite written_prefix_orders. auto 10.
    + right. left. exists (l :: rest), total. inversion Hrun; subst. auto.
Qed.

Lemma place_order_all_or_nothing_witness :
  let form : order_form := fun i => if i =? 1 then Parsed 2 else Missing in
  let s := Build_state seeded_database (Some 2%nat) in
  let run := place_order "2024-05-01T09:00:00" form s in
  (db (snd run) = db s /\ ~ is_order_placed (fst run))
  \/ (exists lines total,
         selects form (Sql.select_active_menu (db s)) lines
         /\ fst run = inr (Redirect (To_view_order (orders_seq (db s) + 1))
                                    (Order_placed (orders_seq (db s) + 1) total))
         /\ db (snd run) = committed_order "2024-05-01T09:00:00" total lines (db s))
  \/ (exists lines total n,
         selects form (Sql.select_active_menu (db s)) lines
         /\ total = add_subtotals Float.zero lines
         /\ budget s = Some (S n)
         /\ (n < 2 * length lines)%nat
         /\ fst run = inl OperationalError
         /\ db (snd run) = written_prefix (orders_seq (db s) + 1) lines n
                                          (with_order "2024-05-01T09:00:00" total (db s))
         /\ orders (db (snd run))
            = orders (db s)
              ++ [Build_order (orders_seq (db s) + 1) "2024-05-01T09:00:00" total]).
Proof.
  intros form s run.
  apply (place_order_all_or_nothing "2024-05-01T09:00:00" form s (fst run) (snd run)).
  - exact seeded_database_wf.
  - unfold run. now destruct (place_order _ _ _).
Defined.

(** The three cases on the seeded database with the basket [{1: 2}], whose
    commit takes three statements: a storage layer that accepts them all, one
    that refuses the first, and one that accepts two (the Order insert and
    the OrderLine insert) and refuses the decrement. *)
Example place_order_three_cases :
  let form : order_form := fun i => if i =? 1 then Parsed 2 else Missing in
  let run b := place_order "2024-05-01T09:00:00" form (Build_state seeded_database b) in
  let line := Build_order_line 1 "ESP-01" "Espresso" 2 (Float.of_Z 80) (Float.of_Z 160) in
  db (snd (run (Some 3%nat)))
  = committed_order "2024-05-01T09:00:00" (Float.of_Z 160) [line] seeded_database
  /\ run (Some 0%nat) = (inl OperationalError, Build_state seeded_database (Some 0%nat))
  /\ fst (run (Some 2%nat)) = inl OperationalError
  /\ db (snd (run (Some 2%nat)))
     = written_prefix 1 [line] 1
         (with_order "2024-05-01T09:00:00" (Float.of_Z 160) seeded_database)
  /\ order_items (db (snd (run (Some 2%nat))))
     = [Build_order_item 1 1 1 2 (Float.of_Z 80)]
  /\ inventory (db (snd (run (Some 2%nat)))) !! "ESP-01" = Some 50.
Proof. intros form run line. repeat split; vm_compute; reflexivity. Qed.

(** ** C2: the total of an order *)

Lemma add_subtotals_float_total (form : order_form) (menu : list menu_item)
      (lines : list order_line) :
  selects form menu lines ->
  forall total,
    add_subtotals total lines
    = fold_left (fun acc '(qty, price) => Float.add acc (Float.mul (Float.of_Z qty) price))
                ((fun l => (ol_qty l, ol_price l)) <$> lines) total.
Proof.
  intros Hsel. apply selects_line in Hsel.
  induction Hsel as [| l rest (m & _ & _ & _ & _ & _ & _ & _ & Hmul) _ IH]; intros total.
  - reflexivity.
  - rewrite fmap_cons. simpl. unfold add_subtotals in *. simpl. rewrite IH.
    unfold py_int_mul_float in Hmul.
    destruct (Float.of_Z (ol_qty l)); inversion Hmul; reflexivity.
Qed.

Lemma order_item_rows_order_id (order_id seq : Z) (lines : list order_line) :
  Forall (fun oi => oi_order_id oi = order_id) (order_item_rows order_id seq lines).
Proof.
  revert seq. induction lines as [| l rest IH]; intros seq; simpl; constructor; auto.
Qed.

Lemma order_item_rows_fields (order_id seq : Z) (lines : list order_line) :
  (fun oi => (oi_menu_item_id oi, oi_qty oi, oi_price oi))
    <$> order_item_rows order_id seq lines
  = (fun l => (ol_menu_id l, ol_qty l, ol_price l)) <$> lines.
Proof.
  revert seq. induction lines as [| l rest IH]; intros seq; [reflexivity |].
  cbn [order_item_rows]. rewrite !fmap_cons. f_equal. apply IH.
Qed.

Lemma filter_all {A : Type} (P : A -> Prop) `{forall x, Decision (P x)} (l : list A) :
  Forall P l -> filter P l = l.
Proof.
  induction 1 as [| x l Hx _ IH]; [reflexivity |].
  rewrite filter_cons. destruct (decide (P x)); [now rewrite IH | contradiction].
Qed.

Lemma filter_none {A : Type} (P : A -> Prop) `{forall x, Decision (P x)} (l : list A) :
  Forall (fun x => ~ P x) l -> filter P l = [].
Proof.
  induction 1 as [| x l Hx _ IH]; [reflexivity |].
  rewrite filter_cons. destruct (decide (P x)); [contradiction | exact IH].
Qed.

Lemma find_fresh_order (order_id : Z) (rows : list order) (o : order) :
  Forall (fun o' => o_id o' < order_id) rows ->
  o_id o = order_id ->
  List.find (fun o' => o_id o' =? order_id) (rows ++ [o]) = Some o.
Proof.
  intros Hrows Ho. induction Hrows as [| o' rows Hlt _ IH]; simpl.
  - now replace (o_id o =? order_id) with true by (symmetry; now apply Z.eqb_eq).
  - replace (o_id o' =? order_id) with false by (symmetry; apply Z.eqb_neq; lia).
    exact IH.
Qed.

(** the rows of a committed order in the two ledger tables *)
Lemma committed_order_rows (now : string) (total : spec_float) (lines : list order_line)
      (d : database) :
  wf_db d ->
  let order_id := orders_seq d + 1 in
  let d' := committed_order now total lines d in
  List.find (fun o => o_id o =? order_id) (orders d') = Some (Build_order order_id now total)
  /\ filter (fun oi => oi_order_id oi = order_id) (order_items d')
     = order_item_rows order_id (order_items_seq d) lines.
Proof.
  intros Hwf order_id d'. split.
  - unfold d', committed_order, written_lines. simpl.
    apply find_fresh_order; [| reflexivity].
    eapply Forall_impl; [exact (wf_order_ids d Hwf) |]. intros o Ho. simpl in *.
    unfold order_id. lia.
  - unfold d', committed_order, written_lines. simpl.
    rewrite filter_app, filter_none, filter_all; [reflexivity | |].
    + apply order_item_rows_order_id.
    + eapply Forall_impl; [exact (wf_order_item_ids d Hwf) |]. intros oi Hoi. simpl in *.
      unfold order_id. lia.
Qed.

(** C2, as stated, fails, also when amounts are compared after rounding to
    two digits.  With the Espresso (menu id 1) priced at [0.01], enough of
    it on hand and the basket [{1: 10^16 + 1}], the order is accepted and the
    one OrderLine written holds quantity [10^16 + 1] at that price.  The
    total stored in the Order record is the float [10^14], printed as
    [100000000000000.00]; the exact product of the quantity and the stored
    price, and also the product of the quantity and the number 0.01, round
    to [100000000000000.01]. *)
Lemma accepted_total_not_exact :
  let qty := 10 ^ 16 + 1 in
  let form : order_form := fun i => if i =? 1 then Parsed qty else Missing in
  let run := place_order "2024-05-01T09:00:00" form (Build_state database_bulk None) in
  let total := Float.of_Z (10 ^ 14) in
  fst run = inr (Redirect (To_view_order 1) (Order_placed 1 total))
  /\ reported_total (Order_placed 1 total) = Some "100000000000000.00"
  /\ o_total <$> orders (db (snd run)) = [total]
  /\ (fun oi => (oi_qty oi, oi_price oi)) <$> order_items (db (snd run))
     = [(qty, one_hundredth)]
  /\ (exists q e, Float.to_Q total = Some q
                  /\ exact_total [(qty, one_hundredth)] = Some e
                  /\ ~ (q == e)%Q
                  /\ format_2f_exact e = "100000000000000.01")
  /\ format_2f_exact (inject_Z qty * (1 # 100)) = "100000000000000.01".
Proof.
  intros qty form run total. repeat split; try (vm_compute; reflexivity).
  do 2 eexists. split; [reflexivity |]. split; [reflexivity |]. split.
  - intros H. apply Qeq_bool_iff in H. vm_compute in H. discriminate.
  - vm_compute. reflexivity.
Qed.

(** At small amounts too the printed total can be one cent from the exact
    sum of the stored prices: with the Espresso priced at the float [0.075]
    and the basket [{1: 5}], the total is the float [0.375], printed as
    [0.38], and the exact product of 5 and the stored price is
    [0.375 - 2^-56], which rounds to [0.37]. *)
Example total_one_cent_off :
  let form : order_form := fun i => if i =? 1 then Parsed 5 else Missing in
  let run := place_order "2024-05-01T09:00:00" form (Build_state database_repriced None) in
  let total := S754_finite false 6755399441055744 (-54) in
  fst run = inr (Redirect (To_view_order 1) (Order_placed 1 total))
  /\ reported_total (Order_placed 1 total) = Some "0.38"
  /\ exists e, exact_total [(5, three_fortieths)] = Some e
               /\ format_2f_exact e = "0.37".
Proof.
  intros form run total. repeat split; try (vm_compute; reflexivity).
  eexists. split; [reflexivity |]. vm_compute. reflexivity.
Qed.

(** C2, amended: when [place_order] accepts a basket, the total is the
    binary64 sum, accumulated from [0.0] in menu order with every product
    and every addition rounded to nearest, of quantity times catalog price
    over the lines of the basket.  The new Order record stores that float,
    the message prints that float with two fractional digits, and the float
    equals the same binary64 sum over the OrderLine rows written for the
    Order. *)
Theorem place_order_total (now : string) (form : order_form) (s : state)
        (order_id : Z) (flash : flash_message) (s' : state) :
  wf_db (db s) ->
  place_order now form s = (inr (Redirect (To_view_order order_id) flash), s') ->
  exists lines total,
    selects form (Sql.select_active_menu (db s)) lines
    /\ flash = Order_placed order_id total
    /\ total = float_total ((fun l => (ol_qty l, ol_price l)) <$> lines)
    /\ reported_total flash = Some (format_2f total)
    /\ List.find (fun o => o_id o =? order_id) (orders (db s'))
       = Some (Build_order order_id now total)
    /\ (fun oi => (oi_menu_item_id oi, oi_qty oi, oi_price oi))
         <$> filter (fun oi => oi_order_id oi = order_id) (order_items (db s'))
       = (fun l => (ol_menu_id l, ol_qty l, ol_price l)) <$> lines
    /\ total = float_total ((fun oi => (oi_qty oi, oi_price oi))
                              <$> filter (fun oi => oi_order_id oi = order_id)
                                         (order_items (db s'))).
Proof.
  intros Hwf Hrun.
  destruct (place_order_cases now form s _ s' Hwf Hrun)
    as [[_ Hno] | [(lines & total & Hcol & Hr & Hd) | [Hr _]]].
  - exfalso. apply Hno. now do 2 eexists.
  - inversion Hr; subst order_id flash. clear Hr.
    apply collect_order_items_selects in Hcol as (new & Hsel & Hnew & Htot).
    simpl in Hnew. subst new.
    rewrite (add_subtotals_float_total _ _ _ Hsel) in Htot.
    destruct (committed_order_rows now total lines (db s) Hwf) as [Hfind Hrows].
    cbv zeta in Hfind, Hrows. rewrite <- Hd in Hfind, Hrows. rewrite Hrows.
    exists lines, total.
    split; [exact Hsel |]. split; [reflexivity |]. split; [exact Htot |].
    split; [reflexivity |]. split; [exact Hfind |]. split.
    + apply order_item_rows_fields.
    + rewrite Htot. unfold float_total. f_equal.
      pose proof (order_item_rows_fields (orders_seq (db s) + 1)
                                         (order_items_seq (db s)) lines) as Hf.
      apply (f_equal (fmap (fun t : Z * Z * spec_float => (t.1.2, t.2)))) in Hf.
      rewrite <- !list_fmap_compose in Hf. symmetry. exact Hf.
  - discriminate.
Qed.

Lemma place_order_total_witness :
  let form : order_form := fun i => if i =? 1 then Parsed 2 else Missing in
  let s := Build_state seeded_database None in
  let run := place_order "2024-05-01T09:00:00" form s in
  exists lines total,
    selects form (Sql.select_active_menu (db s)) lines
    /\ Order_placed 1 (Float.of_Z 160) = Order_placed 1 total
    /\ total = float_total ((fun l => (ol_qty l, ol_price l)) <$> lines)
    /\ reported_total (Order_placed 1 (Float.of_Z 160)) = Some (format_2f total)
    /\ List.find (fun o => o_id o =? 1) (orders (db (snd run)))
       = Some (Build_order 1 "2024-05-01T09:00:00" total)
    /\ (fun oi => (oi_menu_item_id oi, oi_qty oi, oi_price oi))
         <$> filter (fun oi => oi_order_id oi = 1) (order_items (db (snd run)))
       = (fun l => (ol_menu_id l, ol_qty l, ol_price l)) <$> lines
    /\ total = float_total ((fun oi => (oi_qty oi, oi_price oi))
                              <$> filter (fun oi => oi_order_id oi = 1)
                                         (order_items (db (snd run)))).
Proof.
  intros form s run.
  apply (place_order_total "2024-05-01T09:00:00" form s 1
                           (Order_placed 1 (Float.of_Z 160)) (snd run)).
  - exact seeded_database_wf.
  - vm_compute. reflexivity.
Defined.


(** ** C3: on-hand quantities below zero *)

Lemma insert_or_replace_inventory_nonneg (sku : string) (qty : Z) :
  0 <= qty -> stmt_preserves nonneg_inventory (Sql.insert_or_replace_inventory sku qty).
Proof.
  intros Hqty d d' rowid Hnn H. unfold Sql.insert_or_replace_inventory in H.
  destruct (bind_int qty) as [e | q] eqn:Hb; [discriminate |].
  apply bind_int_inr in Hb as [-> _]. inversion H; subst.
  unfold nonneg_inventory. simpl. now apply map_Forall_insert_2.
Qed.

Lemma insert_or_ignore_inventory_nonneg (sku : string) (qty : Z) :
  0 <= qty -> stmt_preserves nonneg_inventory (Sql.insert_or_ignore_inventory sku qty).
Proof.
  intros Hqty d d' rowid Hnn H. unfold Sql.insert_or_ignore_inventory in H.
  destruct (bind_int qty) as [e | q] eqn:Hb; [discriminate |].
  destruct (inventory d !! sku) eqn:Hl.
  - now inversion H; subst.
  - eapply (insert_or_replace_inventory_nonneg sku qty Hqty); [exact Hnn |].
    unfold Sql.insert_or_replace_inventory. rewrite Hb. exact H.
Qed.

(** the statements on the other three tables leave the inventory alone *)
Lemma insert_order_inventory (now : string) (total : spec_float) (d d' : database)
      (rowid : Z) :
  Sql.insert_order now total d = inr (d', rowid) -> inventory d' = inventory d.
Proof.
  unfold Sql.insert_order. destruct (Float.is_nan total); [discriminate |].
  now inversion 1.
Qed.

Lemma insert_order_item_inventory (order_id menu_id qty : Z) (price : spec_float)
      (d d' : database) (rowid : Z) :
  Sql.insert_order_item order_id menu_id qty price d = inr (d', rowid) ->
  inventory d' = inventory d.
Proof.
  unfold Sql.insert_order_item. destruct (bind_int qty); [discriminate |].
  destruct (Float.is_nan price); [discriminate |]. now inversion 1.
Qed.

Lemma insert_menu_item_inventory (name desc : string) (price : spec_float) (sku : string)
      (active : Z) (d d' : database) (rowid : Z) :
  Sql.insert_menu_item name desc price sku active d = inr (d', rowid) ->
  inventory d' = inventory d.
Proof.
  unfold Sql.insert_menu_item. destruct (bind_int active); [discriminate |].
  destruct (Float.is_nan price); [discriminate |].
  case_bool_decide; [discriminate |]. now inversion 1.
Qed.

Lemma update_menu_item_inventory (name desc : string) (price : spec_float) (sku : string)
      (active item_id : Z) (d d' : database) (rowid : Z) :
  Sql.update_menu_item name desc price sku active item_id d = inr (d', rowid) ->
  inventory d' = inventory d.
Proof.
  unfold Sql.update_menu_item. destruct (bind_int active); [discriminate |].
  destruct (bind_int item_id); [discriminate |].
  destruct (existsb _ _); [| now inversion 1].
  destruct (Float.is_nan price); [discriminate |].
  case_bool_decide; [discriminate |]. now inversion 1.
Qed.

Lemma delete_menu_item_inventory (item_id : Z) (d d' : database) (rowid : Z) :
  Sql.delete_menu_item item_id d = inr (d', rowid) -> inventory d' = inventory d.
Proof.
  unfold Sql.delete_menu_item. destruct (bind_int item_id); [discriminate |].
  now inversion 1.
Qed.

Lemma nonneg_inventory_same (d d' : database) :
  inventory d' = inventory d -> nonneg_inventory d -> nonneg_inventory d'.
Proof. unfold nonneg_inventory. now intros ->. Qed.

Lemma decrement_checked_nonneg (d : database) (sku : string) (q qty : Z) :
  nonneg_inventory d ->
  inventory d !! sku = Some q ->
  0 < qty <= q ->
  nonneg_inventory
    (set_inventory (alter (fun quantity => quantity - qty) sku (inventory d)) d).
Proof.
  intros Hnn Hl Hrange k v Hk. simpl in *.
  destruct (decide (sku = k)) as [-> | Hne].
  - rewrite lookup_alter_eq, Hl in Hk. inversion Hk; subst. lia.
  - rewrite lookup_alter_ne in Hk by exact Hne. exact (Hnn _ _ Hk).
Qed.

Lemma place_order_nonneg (now : string) (form : order_form) :
  preserves (fun d => wf_db d /\ nonneg_inventory d) (place_order now form).
Proof.
  apply place_order_preserves
    with (Q := fun order_id d => (wf_db d /\ order_id <= orders_seq d) /\ nonneg_inventory d).
  - intros d [Hwf _]. apply (wf_sku_unique d Hwf).
  - intros now' total d d' order_id [Hwf Hnn] Hst. split.
    + eapply insert_order_wf_fresh; eauto.
    + eapply nonneg_inventory_same; [eapply insert_order_inventory; eauto | exact Hnn].
  - intros order_id menu_id qty price d d' rowid [Hwf Hnn] Hst. split.
    + eapply insert_order_item_wf; eauto.
    + eapply nonneg_inventory_same; [eapply insert_order_item_inventory; eauto | exact Hnn].
  - intros order_id d sku q qty [Hwf Hnn] Hl Hrange. split.
    + exact (decrement_checked_wf order_id d sku q qty Hwf Hl Hrange).
    + exact (decrement_checked_nonneg d sku q qty Hnn Hl Hrange).
  - tauto.
Qed.

Lemma stmt_preserves_nonneg_same (stmt : statement) :
  (forall d d' rowid, stmt d = inr (d', rowid) -> inventory d' = inventory d) ->
  stmt_preserves nonneg_inventory stmt.
Proof.
  intros Hsame d d' rowid Hnn Hst.
  apply (nonneg_inventory_same d d'); [exact (Hsame _ _ _ Hst) | exact Hnn].
Qed.

Lemma admin_add_item_nonneg (req : body item_form) :
  preserves nonneg_inventory (admin_add_item req).
Proof.
  destruct req as [| form]; simpl; repeat preserve_step.
  - apply stmt_preserves_nonneg_same. intros d d' rowid. apply insert_menu_item_inventory.
  - apply insert_or_ignore_inventory_nonneg. lia.
Qed.

Lemma admin_edit_item_nonneg (item_id : Z) (req : body item_form) :
  preserves nonneg_inventory (admin_edit_item item_id req).
Proof.
  unfold admin_edit_item. repeat preserve_step.
  destruct a0 as [it |]; [| apply preserves_ret].
  destruct req as [| form]; repeat preserve_step.
  - apply stmt_preserves_nonneg_same. intros d d' rowid. apply update_menu_item_inventory.
  - apply insert_or_ignore_inventory_nonneg. lia.
Qed.

Lemma admin_delete_item_nonneg (item_id : Z) :
  preserves nonneg_inventory (admin_delete_item item_id).
Proof.
  unfold admin_delete_item. repeat preserve_step.
  apply stmt_preserves_nonneg_same. intros d d' rowid. apply delete_menu_item_inventory.
Qed.

Lemma bind_ret {A B : Type} (a : A) (k : A -> M B) : bind (ret a) k = k a.
Proof. reflexivity. Qed.

Lemma admin_update_inventory_nonneg (form : exn + inventory_form) :
  (forall f, form = inr f -> 0 <= vf_qty f) ->
  preserves nonneg_inventory (admin_update_inventory form).
Proof.
  intros Hqty. unfold admin_update_inventory.
  destruct form as [e | f]; simpl.
  - intros s Hs. exact Hs.
  - rewrite bind_ret. repeat preserve_step.
    apply insert_or_replace_inventory_nonneg. now apply Hqty.
Qed.

Lemma seeded_database_nonneg : nonneg_inventory seeded_database.
Proof.
  assert (forall rows, preserves nonneg_inventory (seed_rows rows)) as Hrows.
  { induction rows as [| [[[[name desc] price] sku] active] rest IH]; simpl.
    - apply preserves_ret.
    - repeat preserve_step.
      + apply stmt_preserves_nonneg_same. intros d d' rowid.
        apply insert_menu_item_inventory.
      + apply insert_or_ignore_inventory_nonneg. lia.
      + exact IH. }
  assert (preserves nonneg_inventory seed_if_empty) as H.
  { unfold seed_if_empty. repeat preserve_step.
    destruct (a =? 0); [apply Hrows | apply preserves_ret]. }
  apply (H (Build_state empty_database None)). apply map_Forall_empty.
Qed.

(** C3, as stated, fails: from the seeded database, where every quantity is
    50, the inventory route with the form [sku=ESP-01, qty=-5] completes and
    leaves -5 as the on-hand quantity of ESP-01. *)
Lemma negative_quantity_stored :
  let d := db_after (Post_admin_update_inventory (inr (Build_inventory_form "ESP-01" (-5))))
                    seeded_database None in
  reachable seeded_database
  /\ nonneg_inventory seeded_database
  /\ reachable d
  /\ inventory d !! "ESP-01" = Some (-5)
  /\ ~ nonneg_inventory d.
Proof.
  intros d.
  assert (inventory d !! "ESP-01" = Some (-5)) as Hl by (vm_compute; reflexivity).
  split; [| split; [| split; [| split]]].
  - constructor.
  - exact seeded_database_nonneg.
  - apply reachable_step. constructor.
  - exact Hl.
  - intros Hnn. specialize (Hnn _ _ Hl). simpl in Hnn. lia.
Qed.

(** C3, amended: a request that is served alone, with no statement of
    another request between its reads and its writes, and that is not an
    inventory update submitting a negative quantity, keeps all on-hand
    quantities at or above zero: from every database that satisfies the
    schema and holds no negative quantity it leaves a database that holds
    none, also when the storage layer stops it midway.  ([db_after] runs
    the handler of one request from start to end; what two order placements
    do to each other when their statements interleave is no part of this
    statement.) *)
Theorem inventory_stays_nonneg (d : database) (r : request) (b : option nat) :
  wf_db d ->
  nonneg_inventory d ->
  (forall f, r = Post_admin_update_inventory (inr f) -> 0 <= vf_qty f) ->
  nonneg_inventory (db_after r d b).
Proof.
  intros Hwf Hnn Hqty. unfold db_after.
  destruct r; simpl.
  - exact Hnn.
  - apply (place_order_nonneg now form (Build_state d b)).
    split; [exact Hwf | exact Hnn].
  - exact Hnn.
  - apply (view_order_preserves nonneg_inventory order_id (Build_state d b)). exact Hnn.
  - exact Hnn.
  - apply (admin_add_item_nonneg req (Build_state d b)). exact Hnn.
  - apply (admin_edit_item_nonneg item_id req (Build_state d b)). exact Hnn.
  - apply (admin_delete_item_nonneg item_id (Build_state d b)). exact Hnn.
  - apply (admin_update_inventory_nonneg form); [| exact Hnn].
    intros f ->. now apply Hqty.
Qed.

Lemma inventory_stays_nonneg_witness :
  let form : order_form := fun i => if i =? 1 then Parsed 50 else Missing in
  nonneg_inventory
    (db_after (Post_place_order "2024-05-01T09:00:00" form) seeded_database None).
Proof.
  intros form. apply inventory_stays_nonneg.
  - exact seeded_database_wf.
  - exact seeded_database_nonneg.
  - intros f H. discriminate H.
Defined.

(** ** C4: the inventory sufficiency check *)

Lemma aggregate_absent (lines : list order_line) (sku : string) :
  sku ∉ ol_sku <$> lines -> aggregate lines sku = 0.
Proof.
  induction lines as [| x rest IH]; intros Hnot; [reflexivity |].
  rewrite fmap_cons in Hnot. apply not_elem_of_cons in Hnot as [Hne Hnot].
  simpl. destruct (decide (ol_sku x = sku)); [congruence | now apply IH].
Qed.

(** with one line per stock key, the aggregate of a line's key is the
    line's own quantity *)
Lemma aggregate_NoDup (lines : list order_line) (l : order_line) :
  NoDup (ol_sku <$> lines) -> l ∈ lines -> aggregate lines (ol_sku l) = ol_qty l.
Proof.
  induction lines as [| x rest IH]; intros Hnd Hin; [now apply elem_of_nil in Hin |].
  rewrite fmap_cons in Hnd. apply NoDup_cons in Hnd as [Hfresh Hnd].
  apply elem_of_cons in Hin as [-> | Hin]; simpl.
  - destruct (decide (ol_sku x = ol_sku x)); [| congruence].
    rewrite aggregate_absent by exact Hfresh. lia.
  - destruct (decide (ol_sku x = ol_sku l)) as [Heq | Hne]; [| now apply IH].
    exfalso. apply Hfresh. rewrite Heq. now apply list_elem_of_fmap_2.
Qed.

(** the first loop raises ValueError (a field that is not a number) or
    OverflowError (a quantity beyond the range of floats), nothing else *)
Lemma collect_order_items_raises (form : order_form) (menu : list menu_item) :
  forall acc total e,
    collect_order_items form menu acc total = inl e ->
    e = ValueError \/ e = OverflowError.
Proof.
  induction menu as [| m menu IH]; intros acc total e H; simpl in H; [discriminate |].
  destruct (form_qty form (mi_id m)) as [e' | qty] eqn:Hq.
  - left. unfold form_qty in Hq. destruct (form (mi_id m)); congruence.
  - destruct (0 <? qty); [| now apply IH in H].
    destruct (py_int_mul_float qty (mi_price m)) as [e' | subtotal] eqn:Hmul.
    + right. unfold py_int_mul_float in Hmul.
      destruct (Float.of_Z qty); congruence.
    + now apply IH in H.
Qed.

(** the second loop stops at the first line that is short: the lines before
    it have enough on hand *)
Lemma first_short_split (inv : gmap string Z) (lines : list order_line) (name : string) :
  first_short inv lines = Some name ->
  exists before l after,
    lines = before ++ l :: after
    /\ name = ol_name l
    /\ Forall (fun l' => exists q, inv !! ol_sku l' = Some q /\ ol_qty l' <= q) before
    /\ match inv !! ol_sku l with
       | None => True
       | Some q => q < ol_qty l
       end.
Proof.
  induction lines as [| l rest IH]; simpl; intros H; [discriminate |].
  destruct (inv !! ol_sku l) as [q |] eqn:Hq.
  - destruct (q <? ol_qty l) eqn:Hlt.
    + inversion H; subst. exists [], l, rest. rewrite Hq.
      repeat split; [constructor | now apply Z.ltb_lt].
    + destruct (IH H) as (before & l' & after & -> & Hname & Hbefore & Hl').
      exists (l :: before), l', after. repeat split; auto.
      constructor; [| exact Hbefore]. exists q. split; [exact Hq | now apply Z.ltb_ge].
  - inversion H; subst. exists [], l, rest. rewrite Hq. repeat split. constructor.
Qed.

(** C4, as stated for every basket, fails: a quantity beyond the range of
    floats is not rejected as insufficient.  On the seeded database, where
    50 Espresso are on hand, the basket [{1: 2^1024}] makes [place_order]
    raise OverflowError at [qty * price], before the inventory check is
    reached; nothing is written. *)
Lemma huge_quantity_not_rejected :
  let form : order_form := fun i => if i =? 1 then Parsed (2 ^ 1024) else Missing in
  let s := Build_state seeded_database None in
  inventory seeded_database !! "ESP-01" = Some 50
  /\ place_order "2024-05-01T09:00:00" form s = (inl OverflowError, s)
  /\ outcome_of (fst (place_order "2024-05-01T09:00:00" form s))
     <> Rejected (Insufficient_inventory_for "Espresso").
Proof.
  intros form s.
  assert (place_order "2024-05-01T09:00:00" form s = (inl OverflowError, s)) as Hrun
      by (vm_compute; reflexivity).
  split; [reflexivity |]. split; [exact Hrun |]. rewrite Hrun. discriminate.
Qed.

(** C4, amended: [place_order] does not sum quantities per stock key: its
    check compares each line of the basket with the on-hand quantity of the
    line's stock key, in menu order.  In a database that satisfies the
    schema the basket has one line per stock key (one form entry per menu
    item, and [sku] is UNIQUE), so the quantity of a line is all the basket
    requests of its key.  For every basket, the first loop either raises
    ValueError or OverflowError, and [place_order] raises it and writes
    nothing; or it yields the lines, and then: if some line's stock key has
    no inventory row or less on hand than the line requests, [place_order]
    answers [Insufficient inventory for <name>], naming the first such line,
    with the state as it was before the request; and if no line is short,
    it does not answer so. *)
Theorem insufficient_inventory_rejected (now : string) (form : order_form) (s : state) :
  wf_db (db s) ->
  (forall e,
      collect_order_items form (Sql.select_active_menu (db s)) [] Float.zero = inl e ->
      (e = ValueError \/ e = OverflowError)
      /\ place_order now form s = (inl e, s))
  /\ (forall lines total,
         collect_order_items form (Sql.select_active_menu (db s)) [] Float.zero
         = inr (lines, total) ->
         NoDup (ol_sku <$> lines)
         /\ (forall l, l ∈ lines -> aggregate lines (ol_sku l) = ol_qty l)
         /\ ((exists l, l ∈ lines /\ insufficient (db s) lines (ol_sku l)) ->
             exists before l after,
               lines = before ++ l :: after
               /\ Forall (fun l' => ~ insufficient (db s) lines (ol_sku l')) before
               /\ insufficient (db s) lines (ol_sku l)
               /\ place_order now form s
                  = (inr (Redirect To_index (Insufficient_inventory_for (ol_name l))), s))
         /\ (Forall (fun l => ~ insufficient (db s) lines (ol_sku l)) lines ->
             forall name,
               outcome_of (fst (place_order now form s))
               <> Rejected (Insufficient_inventory_for name))).
Proof.
  intros Hwf. split.
  - intros e Hcol. split; [exact (collect_order_items_raises _ _ _ _ _ Hcol) |].
    now rewrite place_order_unfold, Hcol.
  - intros lines total Hcol.
    destruct (collect_order_items_selects _ _ _ _ _ _ Hcol) as (new & Hsel & Hnew & _).
    simpl in Hnew. subst new.
    pose proof (selects_sku_NoDup form (db s) lines (wf_sku_unique _ Hwf) Hsel) as Hnd.
    assert (forall l, l ∈ lines ->
                      insufficient (db s) lines (ol_sku l)
                      <-> match inventory (db s) !! ol_sku l with
                          | None => True
                          | Some q => q < ol_qty l
                          end) as Hline.
    { intros l Hl. unfold insufficient. now rewrite (aggregate_NoDup lines l Hnd Hl). }
    split; [exact Hnd |]. split; [intros l Hl; now apply aggregate_NoDup |]. split.
    + intros (l0 & Hin0 & Hshort0).
      destruct (first_short (inventory (db s)) lines) as [name |] eqn:Hchk.
      * destruct (first_short_split _ _ _ Hchk)
          as (before & l & after & Hsplit & -> & Hbefore & Hl).
        assert (l ∈ lines) as Hin
            by (rewrite Hsplit; apply elem_of_app; right; apply list_elem_of_here).
        exists before, l, after. split; [exact Hsplit |]. split; [| split].
        -- apply Forall_forall. intros l' Hl'.
           assert (l' ∈ lines) as Hin' by (rewrite Hsplit; apply elem_of_app; now left).
           rewrite (Hline l' Hin').
           rewrite Forall_forall in Hbefore. destruct (Hbefore l' Hl') as (q & -> & Hle). lia.
        -- now apply Hline.
        -- rewrite place_order_unfold, Hcol, Hchk.
           destruct lines; [now apply elem_of_nil in Hin | reflexivity].
      * exfalso. apply first_short_None in Hchk. rewrite Forall_forall in Hchk.
        destruct (Hchk l0 Hin0) as (q & Hq & Hle).
        apply (Hline l0 Hin0) in Hshort0. rewrite Hq in Hshort0. lia.
    + intros Hall name. rewrite place_order_unfold, Hcol.
      destruct lines as [| l rest]; [discriminate |].
      destruct (first_short (inventory (db s)) (l :: rest)) as [name' |] eqn:Hchk.
      * exfalso. destruct (first_short_Some _ _ _ Hchk) as (l' & Hin' & _ & Hl').
        rewrite Forall_forall in Hall. apply (Hall l' Hin'). now apply Hline.
      * apply commit_order_not_rejected.
Qed.

(** a basket of two lines against 50 on hand of each key: 2 Espresso, which
    are there, and 100 Cappuccino, which are not *)
Lemma insufficient_inventory_rejected_witness :
  let form : order_form :=
    fun i => if i =? 1 then Parsed 2 else if i =? 2 then Parsed 100 else Missing in
  let s := Build_state seeded_database None in
  let lines :=
    [Build_order_line 1 "ESP-01" "Espresso" 2 (Float.of_Z 80) (Float.of_Z 160);
     Build_order_line 2 "CAP-01" "Cappuccino" 100 (Float.of_Z 120) (Float.of_Z 12000)] in
  exists before l after,
    lines = before ++ l :: after
    /\ Forall (fun l' => ~ insufficient (db s) lines (ol_sku l')) before
    /\ insufficient (db s) lines (ol_sku l)
    /\ place_order "2024-05-01T09:00:00" form s
       = (inr (Redirect To_index (Insufficient_inventory_for (ol_name l))), s).
Proof.
  intros form s lines.
  destruct (insufficient_inventory_rejected "2024-05-01T09:00:00" form s seeded_database_wf)
    as [_ Hlines].
  destruct (Hlines lines (Float.of_Z 12160)) as (_ & _ & Hshort & _).
  - vm_compute. reflexivity.
  - apply Hshort.
    exists (Build_order_line 2 "CAP-01" "Cappuccino" 100 (Float.of_Z 120) (Float.of_Z 12000)).
    split; [apply list_elem_of_further, list_elem_of_here |]. vm_compute. reflexivity.
Defined.

(** Scenario B of the specification, and the two-line basket above: the
    answer names the line that is short, and the state is unchanged. *)
Example scenario_B :
  let s := Build_state seeded_database None in
  place_order "2024-05-01T09:00:00" (fun i => if i =? 1 then Parsed 100 else Missing) s
  = (inr (Redirect To_index (Insufficient_inventory_for "Espresso")), s)
  /\ place_order "2024-05-01T09:00:00"
                 (fun i => if i =? 1 then Parsed 2 else if i =? 2 then Parsed 100 else Missing)
                 s
     = (inr (Redirect To_index (Insufficient_inventory_for "Cappuccino")), s).
Proof. intros s. split; vm_compute; reflexivity. Qed.

(** ** C5, C6, C7: what the first loop reads of the form *)

Lemma collect_order_items_agree (form form' : order_form) (menu : list menu_item) :
  (forall m, m ∈ menu -> same_choice (form_qty form (mi_id m)) (form_qty form' (mi_id m))) ->
  forall acc total,
    collect_order_items form menu acc total = collect_order_items form' menu acc total.
Proof.
  induction menu as [| m menu IH]; intros Hagree acc total; [reflexivity |].
  assert (forall m', m' ∈ menu ->
                     same_choice (form_qty form (mi_id m')) (form_qty form' (mi_id m')))
    as Hrest by (intros m' Hm'; apply Hagree; now apply list_elem_of_further).
  simpl.
  destruct (Hagree m (list_elem_of_here _ _)) as [<- | (x & y & -> & -> & Hx & Hy)].
  - destruct (form_qty form (mi_id m)) as [e | qty]; [reflexivity |].
    destruct (0 <? qty); [| now apply IH].
    destruct (py_int_mul_float qty (mi_price m)); [reflexivity | now apply IH].
  - replace (0 <? x) with false by (symmetry; now apply Z.ltb_ge).
    replace (0 <? y) with false by (symmetry; now apply Z.ltb_ge).
    now apply IH.
Qed.

Lemma place_order_agree (now : string) (form form' : order_form) (s : state) :
  (forall m, m ∈ Sql.select_active_menu (db s) ->
             same_choice (form_qty form (mi_id m)) (form_qty form' (mi_id m))) ->
  place_order now form s = place_order now form' s.
Proof.
  intros Hagree. rewrite !place_order_unfold.
  now rewrite (collect_order_items_agree form form' _ Hagree).
Qed.

(** C5, as stated, fails: there is no ItemUnavailable outcome.  With the
    Cappuccino (menu id 2) deactivated, the basket [{1: 1, 2: 1}] is
    accepted: the entry of the inactive item is skipped, and an order with
    the single line of item 1 is written. *)
Lemma inactive_item_entry_ignored :
  let form : order_form := fun i => if (i =? 1) || (i =? 2) then Parsed 1 else Missing in
  let run := place_order "2024-05-01T09:00:00" form
                         (Build_state database_cappuccino_inactive None) in
  mi_active <$> menu_items database_cappuccino_inactive = [1; 0; 1; 1]
  /\ fst run = inr (Redirect (To_view_order 1) (Order_placed 1 (Float.of_Z 80)))
  /\ (fun oi => (oi_order_id oi, oi_menu_item_id oi, oi_qty oi))
       <$> order_items (db (snd run)) = [(1, 1, 1)]
  /\ inventory (db (snd run)) !! "ESP-01" = Some 49.
Proof.
  intros form run. split; [| split; [| split]]; vm_compute; reflexivity.
Qed.

(** C5, amended: [place_order] reads only the entries of the items that are
    active in the catalog.  Entries that reference an absent or inactive item
    are ignored: two baskets that agree on the active items have the same
    outcome and the same writes. *)
Theorem unavailable_entries_ignored (now : string) (form form' : order_form) (s : state) :
  (forall m, m ∈ Sql.select_active_menu (db s) -> form (mi_id m) = form' (mi_id m)) ->
  place_order now form s = place_order now form' s.
Proof.
  intros Hagree. apply place_order_agree. intros m Hm. left.
  unfold form_qty. now rewrite (Hagree m Hm).
Qed.

Lemma unavailable_entries_ignored_witness :
  let form : order_form := fun i => if (i =? 1) || (i =? 2) then Parsed 1 else Missing in
  let form' : order_form := fun i => if i =? 1 then Parsed 1 else Missing in
  let s := Build_state database_cappuccino_inactive None in
  place_order "2024-05-01T09:00:00" form s = place_order "2024-05-01T09:00:00" form' s.
Proof.
  intros form form' s. apply unavailable_entries_ignored.
  intros m Hm. apply list_elem_of_In in Hm. vm_compute in Hm.
  destruct Hm as [<- | [<- | [<- | []]]]; reflexivity.
Defined.

(** C6, as stated, fails: there is no InvalidQuantity outcome.  On the
    seeded database the basket [{1: -1, 2: 1}] is accepted: the entry with
    quantity -1 is dropped and the order holds the single line of item 2. *)
Lemma nonpositive_quantity_dropped :
  let form : order_form :=
    fun i => if i =? 1 then Parsed (-1) else if i =? 2 then Parsed 1 else Missing in
  let run := place_order "2024-05-01T09:00:00" form (Build_state seeded_database None) in
  fst run = inr (Redirect (To_view_order 1) (Order_placed 1 (Float.of_Z 120)))
  /\ (fun oi => (oi_order_id oi, oi_menu_item_id oi, oi_qty oi))
       <$> order_items (db (snd run)) = [(1, 2, 1)].
Proof.
  intros form run. split; vm_compute; reflexivity.
Qed.

(** C6, amended: an entry whose quantity is zero or negative is silently
    dropped by the guard [if qty > 0]: the outcome and the writes are those
    of the basket without that entry. *)
Theorem nonpositive_entry_is_dropped (now : string) (form : order_form) (item_id n : Z)
        (s : state) :
  form item_id = Parsed n ->
  n <= 0 ->
  place_order now (without_entry item_id form) s = place_order now form s.
Proof.
  intros Hform Hn. apply place_order_agree. intros m _.
  unfold without_entry, form_qty.
  destruct (mi_id m =? item_id) eqn:Heq.
  - apply Z.eqb_eq in Heq. rewrite Heq, Hform.
    right. exists 0, n. repeat split; auto; lia.
  - now left.
Qed.

Lemma nonpositive_entry_is_dropped_witness :
  let form : order_form :=
    fun i => if i =? 1 then Parsed (-1) else if i =? 2 then Parsed 1 else Missing in
  let s := Build_state seeded_database None in
  place_order "2024-05-01T09:00:00" (without_entry 1 form) s
  = place_order "2024-05-01T09:00:00" form s.
Proof.
  intros form s. apply (nonpositive_entry_is_dropped _ form 1 (-1) s).
  - reflexivity.
  - lia.
Defined.

Lemma collect_order_items_none (form : order_form) (menu : list menu_item) :
  (forall m, m ∈ menu -> exists n, form_qty form (mi_id m) = inr n /\ n <= 0) ->
  forall acc total, collect_order_items form menu acc total = inr (acc, total).
Proof.
  induction menu as [| m menu IH]; intros Hnone acc total; [reflexivity |].
  simpl. destruct (Hnone m (list_elem_of_here _ _)) as (n & -> & Hn).
  replace (0 <? n) with false by (symmetry; now apply Z.ltb_ge).
  apply IH. intros m' Hm'. apply Hnone. now apply list_elem_of_further.
Qed.

(** C7: when the entry of every active item is absent, zero or negative,
    no line survives the first loop and [place_order] answers
    [No items selected].  The answer is given whatever the inventory holds
    (the check is not reached), and the state is the one before the request:
    no statement was executed and no table was written. *)
Theorem empty_order_rejected (now : string) (form : order_form) (s : state) :
  (forall m, m ∈ Sql.select_active_menu (db s) ->
             form (mi_id m) = Missing \/ exists n, form (mi_id m) = Parsed n /\ n <= 0) ->
  place_order now form s = (inr (Redirect To_index No_items_selected), s).
Proof.
  intros Hnone. rewrite place_order_unfold, collect_order_items_none; [reflexivity |].
  intros m Hm. unfold form_qty.
  destruct (Hnone m Hm) as [-> | (n & -> & Hn)]; [exists 0 | exists n]; split; auto; lia.
Qed.

(** Scenario C: every quantity field holds 0 *)
Lemma empty_order_rejected_witness :
  let form : order_form := fun _ => Parsed 0 in
  let s := Build_state seeded_database None in
  place_order "2024-05-01T09:00:00" form s = (inr (Redirect To_index No_items_selected), s).
Proof.
  intros form s. apply empty_order_rejected.
  intros m _. right. exists 0. split; [reflexivity | lia].
Defined.

(** ** C8: the price at the time of sale *)

Lemma find_fmap_id (f : menu_item -> menu_item) (x : Z) (l : list menu_item) :
  (forall m, mi_id (f m) = mi_id m) ->
  List.find (fun m => mi_id m =? x) (f <$> l) = f <$> List.find (fun m => mi_id m =? x) l.
Proof.
  intros Hid. induction l as [| m l IH]; [reflexivity |].
  rewrite fmap_cons. simpl. rewrite Hid.
  destruct (mi_id m =? x); [reflexivity | exact IH].
Qed.

Lemma ledger_kept_refl (d : database) : ledger_kept d d.
Proof. repeat split; auto. Qed.

Lemma update_menu_item_ledger (d0 : database) (name desc : string) (price : spec_float)
      (sku : string) (active item_id : Z) :
  stmt_preserves (ledger_kept d0) (Sql.update_menu_item name desc price sku active item_id).
Proof.
  intros d d' rowid (Ho & Hoi & Hids) H.
  unfold Sql.update_menu_item in H.
  destruct (bind_int active) as [e | a]; [discriminate |].
  destruct (bind_int item_id) as [e | i]; [discriminate |].
  destruct (existsb _ _); [| now inversion H; subst].
  destruct (Float.is_nan price); [discriminate |].
  case_bool_decide; [discriminate |].
  inversion H; subst; clear H. repeat split; simpl; auto.
  - intros Hsome. apply Hids. rewrite find_fmap_id in Hsome.
    + now apply fmap_is_Some in Hsome.
    + intros m. now destruct (mi_id m =? i).
  - intros Hsome. apply Hids in Hsome. rewrite find_fmap_id.
    + now apply fmap_is_Some.
    + intros m. now destruct (mi_id m =? i).
Qed.

Lemma insert_or_ignore_inventory_ledger (d0 : database) (sku : string) (qty : Z) :
  stmt_preserves (ledger_kept d0) (Sql.insert_or_ignore_inventory sku qty).
Proof.
  intros d d' rowid Hk H. unfold Sql.insert_or_ignore_inventory in H.
  destruct (bind_int qty); [discriminate |].
  destruct (inventory d !! sku); inversion H; subst; exact Hk.
Qed.

Lemma admin_edit_item_ledger (d0 : database) (item_id : Z) (req : body item_form) :
  preserves (ledger_kept d0) (admin_edit_item item_id req).
Proof.
  unfold admin_edit_item. repeat preserve_step.
  destruct a0 as [it |]; [| apply preserves_ret].
  destruct req as [| form]; repeat preserve_step.
  - apply update_menu_item_ledger.
  - apply insert_or_ignore_inventory_ledger.
Qed.

Lemma select_order_lines_sale (order_id : Z) (d0 d : database) :
  ledger_kept d0 d ->
  sale <$> Sql.select_order_lines order_id d = sale <$> Sql.select_order_lines order_id d0.
Proof.
  intros (_ & Hoi & Hids). unfold Sql.select_order_lines. rewrite Hoi. clear Hoi.
  induction (order_items d0) as [| oi rows IH]; [reflexivity |].
  simpl. rewrite !fmap_app, IH. f_equal.
  destruct (oi_order_id oi =? order_id); [| reflexivity].
  specialize (Hids (oi_menu_item_id oi)).
  destruct (List.find _ (menu_items d)) as [m |], (List.find _ (menu_items d0)) as [m0 |];
    try reflexivity.
  - exfalso. destruct Hids as [H _]. destruct H as [? ?]; [now eexists | discriminate].
  - exfalso. destruct Hids as [_ H]. destruct H as [? ?]; [now eexists | discriminate].
Qed.

Lemma order_view_lines_sale (items items' : list (Z * spec_float * string)) :
  sale <$> items = sale <$> items' ->
  line_billing (order_view_lines items) = line_billing (order_view_lines items').
Proof.
  revert items'. induction items as [| [[q p] n] rest IH]; intros [| [[q' p'] n'] rest'] H;
    try discriminate; [reflexivity |].
  rewrite !fmap_cons in H. inversion H; subst. simpl.
  destruct (py_int_mul_float q' p'); [reflexivity |].
  specialize (IH rest' H3).
  destruct (order_view_lines rest), (order_view_lines rest'); simpl in *;
    inversion IH; subst; try reflexivity.
  do 2 f_equal. exact H1.
Qed.

Lemma view_order_billing (order_id : Z) (d0 d : database) (b b' : option nat) :
  ledger_kept d0 d ->
  billing (fst (view_order order_id (Build_state d b)))
  = billing (fst (view_order order_id (Build_state d0 b'))).
Proof.
  intros Hk. pose proof (select_order_lines_sale order_id d0 d Hk) as Hsale.
  apply order_view_lines_sale in Hsale.
  destruct Hk as (Ho & _ & _).
  unfold view_order, bind, query_db, lift, Sql.select_order. simpl. rewrite Ho.
  destruct (bind_int order_id) as [e | i]; simpl; [reflexivity |].
  destruct (List.find _ (orders d0)) as [o |]; simpl; [| reflexivity].
  destruct (order_view_lines (Sql.select_order_lines order_id d)),
           (order_view_lines (Sql.select_order_lines order_id d0));
    simpl in *; inversion Hsale; subst; reflexivity.
Qed.

Lemma order_view_lines_rows (items : list (Z * spec_float * string))
      (lines : list order_view_line) :
  order_view_lines items = inr lines ->
  Forall (fun vl => (vl_qty vl, vl_price vl, vl_name vl) ∈ items
                    /\ py_int_mul_float (vl_qty vl) (vl_price vl) = inr (vl_subtotal vl))
         lines.
Proof.
  revert lines. induction items as [| [[q p] n] rest IH]; intros lines H; simpl in H.
  - inversion H. constructor.
  - destruct (py_int_mul_float q p) as [e | subtotal] eqn:Hmul; [discriminate |].
    destruct (order_view_lines rest) as [e | ls]; [discriminate |].
    inversion H; subst. constructor.
    + simpl. split; [apply list_elem_of_here | exact Hmul].
    + eapply Forall_impl; [apply IH; reflexivity |].
      intros vl [Hin Hvl]. split; [now apply list_elem_of_further | exact Hvl].
Qed.

Lemma select_order_lines_rows (order_id : Z) (d : database) (q : Z) (p : spec_float)
      (n : string) :
  (q, p, n) ∈ Sql.select_order_lines order_id d ->
  exists oi, oi ∈ order_items d /\ oi_order_id oi = order_id
             /\ oi_qty oi = q /\ oi_price oi = p.
Proof.
  intros Hin. apply list_elem_of_In in Hin. unfold Sql.select_order_lines in Hin.
  apply in_flat_map in Hin as (oi & Hoi & Hin).
  destruct (oi_order_id oi =? order_id) eqn:Heq; [| destruct Hin].
  destruct (List.find _ (menu_items d)) as [m |]; [| destruct Hin].
  destruct Hin as [Hin | []]. inversion Hin; subst.
  exists oi. repeat split; [now apply list_elem_of_In | now apply Z.eqb_eq].
Qed.

Lemma order_item_rows_price (form : order_form) (menu : list menu_item)
      (lines : list order_line) (order_id seq : Z) :
  selects form menu lines ->
  Forall (fun oi => oi_order_id oi = order_id
                    /\ exists m, m ∈ menu /\ mi_id m = oi_menu_item_id oi
                                 /\ oi_price oi = mi_price m)
         (order_item_rows order_id seq lines).
Proof.
  intros Hsel. apply selects_line in Hsel. revert seq.
  induction Hsel as [| l rest (m & Hm & Hid & _ & _ & Hprice & _) _ IH]; intros seq; simpl.
  - constructor.
  - constructor; [| apply IH]. simpl. split; [reflexivity |].
    exists m. auto.
Qed.

Lemma find_menu_item_unique (l : list menu_item) (m : menu_item) :
  NoDup (mi_id <$> l) ->
  m ∈ l ->
  List.find (fun m' => mi_id m' =? mi_id m) l = Some m.
Proof.
  induction l as [| x l IH]; intros Hnd Hin; [now apply elem_of_nil in Hin |].
  rewrite fmap_cons in Hnd. apply NoDup_cons in Hnd as [Hfresh Hnd].
  simpl. apply elem_of_cons in Hin as [-> | Hin].
  - now rewrite Z.eqb_refl.
  - destruct (mi_id x =? mi_id m) eqn:Heq; [| now apply IH].
    exfalso. apply Hfresh. apply Z.eqb_eq in Heq. rewrite Heq.
    now apply list_elem_of_fmap_2.
Qed.

Lemma flat_map_none {A B : Type} (f : A -> list B) (l : list A) :
  Forall (fun x => f x = []) l -> flat_map f l = [].
Proof.
  induction 1 as [| x l Hx _ IH]; [reflexivity |]. simpl. now rewrite Hx, IH.
Qed.

(** the join of the order page over the rows of a freshly written order *)
Lemma select_new_order_lines (form : order_form) (d : database) (lines : list order_line)
      (order_id seq : Z) (menu : list menu_item) :
  NoDup (mi_id <$> menu) ->
  selects form (filter (fun m => mi_active m = 1) menu) lines ->
  flat_map
    (fun oi =>
       if oi_order_id oi =? order_id then
         match List.find (fun m => mi_id m =? oi_menu_item_id oi) menu with
         | Some m => [(oi_qty oi, oi_price oi, mi_name m)]
         | None => []
         end
       else [])
    (order_item_rows order_id seq lines)
  = (fun l => (ol_qty l, ol_price l, ol_name l)) <$> lines.
Proof.
  intros Hnd Hsel. apply selects_line in Hsel. revert seq.
  induction Hsel as [| l rest (m & Hm & Hid & _ & Hname & _) _ IH]; intros seq;
    [reflexivity |].
  cbn [order_item_rows flat_map]. rewrite fmap_cons, IH. simpl.
  rewrite Z.eqb_refl, Hid.
  apply list_elem_of_filter in Hm as [_ Hm].
  rewrite (find_menu_item_unique menu m Hnd Hm), Hname. reflexivity.
Qed.

Lemma order_view_lines_of_selected (form : order_form) (menu : list menu_item)
      (lines : list order_line) :
  selects form menu lines ->
  order_view_lines ((fun l => (ol_qty l, ol_price l, ol_name l)) <$> lines)
  = inr (view_lines_of lines).
Proof.
  intros Hsel. apply selects_line in Hsel.
  induction Hsel as [| l rest (m & _ & _ & _ & _ & _ & _ & _ & Hmul) _ IH];
    [reflexivity |].
  unfold view_lines_of in *. rewrite !fmap_cons. simpl. now rewrite Hmul, IH.
Qed.

(** what an accepted order has read and written *)
Lemma place_order_accepted (now : string) (form : order_form) (s s' : state)
      (order_id : Z) (flash : flash_message) :
  wf_db (db s) ->
  place_order now form s = (inr (Redirect (To_view_order order_id) flash), s') ->
  exists lines total,
    selects form (Sql.select_active_menu (db s)) lines
    /\ lines <> []
    /\ first_short (inventory (db s)) lines = None
    /\ order_id = orders_seq (db s) + 1
    /\ flash = Order_placed order_id total
    /\ db s' = committed_order now total lines (db s).
Proof.
  intros Hwf Hrun. rewrite place_order_unfold in Hrun.
  destruct (collect_order_items form (Sql.select_active_menu (db s)) [] Float.zero)
    as [e | [lines total]] eqn:Hcol; [discriminate |].
  destruct (collect_order_items_selects _ _ _ _ _ _ Hcol) as (new & Hsel & Hnew & _).
  simpl in Hnew. subst new.
  destruct lines as [| l rest]; [discriminate |].
  destruct (first_short (inventory (db s)) (l :: rest)) as [name |] eqn:Hchk;
    [discriminate |].
  pose proof (checked_lines_writable form (db s) _ Hwf Hsel Hchk) as Hw.
  destruct (commit_order_cases now total _ Hw s _ s' Hrun)
    as [[_ [[Hr _] | [Hr _]]] | [[Hr Hd] | [Hr _]]]; try discriminate.
  inversion Hr; subst. exists (l :: rest), total. repeat split; auto.
Qed.

(** the order page of a committed order: the Order record and one row per
    line, with the quantity, price and subtotal of the line *)
Lemma committed_order_page (now : string) (form : order_form) (d : database)
      (lines : list order_line) (total : spec_float) (b : option nat) :
  wf_db d ->
  fits_sqlite_int (orders_seq d + 1) = true ->
  selects form (Sql.select_active_menu d) lines ->
  view_order (orders_seq d + 1) (Build_state (committed_order now total lines d) b)
  = (inr (Render (Order_view_page (Build_order (orders_seq d + 1) now total)
                                  (view_lines_of lines))
                 None),
     Build_state (committed_order now total lines d) b).
Proof.
  intros Hwf Hfit Hsel.
  destruct (committed_order_rows now total lines d Hwf) as [Hfind _].
  cbv zeta in Hfind.
  unfold view_order, bind, query_db, lift, Sql.select_order. cbn [db].
  rewrite (bind_int_fits _ Hfit). cbn [ret raise fst snd db]. rewrite Hfind.
  cbn [ret raise fst snd db].
  assert (Sql.select_order_lines (orders_seq d + 1) (committed_order now total lines d)
          = (fun l => (ol_qty l, ol_price l, ol_name l)) <$> lines) as Hlines.
  { unfold Sql.select_order_lines, committed_order, written_lines. simpl.
    rewrite flat_map_app, flat_map_none.
    - simpl. apply (select_new_order_lines form d); [apply (wf_id_unique _ Hwf) |].
      exact Hsel.
    - eapply Forall_impl; [exact (wf_order_item_ids _ Hwf) |]. intros oi Hle. simpl in *.
      replace (oi_order_id oi =? orders_seq d + 1) with false; [reflexivity |].
      symmetry. apply Z.eqb_neq. lia. }
  rewrite Hlines, (order_view_lines_of_selected _ _ _ Hsel). reflexivity.
Qed.

(** C8: an accepted order writes one OrderLine row for every line of the
    basket, at least one, and each row holds the catalog price that its
    item had when the order was placed.  The order page of the new order
    shows the stored total and, for every line, the quantity, that price
    and the subtotal computed from it.  A later [admin_edit_item], with any
    form and whether or not the storage layer fails, leaves the orders and
    order_items tables as they were, and the order page still shows the
    same total, quantities, prices and subtotals.  On any database, each
    line of an order page takes its price from an OrderLine row of that
    order, and its subtotal is quantity times that stored price. *)
Theorem order_lines_keep_sale_price (now : string) (form : order_form) (s s1 : state)
        (order_id : Z) (flash : flash_message) :
  wf_db (db s) ->
  place_order now form s = (inr (Redirect (To_view_order order_id) flash), s1) ->
  (exists lines total,
      selects form (Sql.select_active_menu (db s)) lines
      /\ lines <> []
      /\ flash = Order_placed order_id total
      /\ Forall (fun l => exists m, m ∈ Sql.select_active_menu (db s)
                                    /\ mi_id m = ol_menu_id l
                                    /\ ol_price l = mi_price m
                                    /\ py_int_mul_float (ol_qty l) (mi_price m)
                                       = inr (ol_subtotal l))
                lines
      /\ order_items (db s1)
         = order_items (db s) ++ order_item_rows order_id (order_items_seq (db s)) lines
      /\ (fun oi => (oi_order_id oi, oi_menu_item_id oi, oi_qty oi, oi_price oi))
           <$> order_item_rows order_id (order_items_seq (db s)) lines
         = (fun l => (order_id, ol_menu_id l, ol_qty l, ol_price l)) <$> lines
      /\ (fits_sqlite_int order_id = true ->
          (forall b,
              billing (fst (view_order order_id (Build_state (db s1) b)))
              = Some (total, (fun l => (ol_qty l, ol_price l, ol_subtotal l)) <$> lines))
          /\ (forall item_id req b b1,
                 billing (fst (view_order order_id
                                 (Build_state (db_after (Admin_edit_item item_id req)
                                                        (db s1) b) b1)))
                 = Some (total, (fun l => (ol_qty l, ol_price l, ol_subtotal l)) <$> lines))))
  /\ (forall item_id req b,
         let d2 := db_after (Admin_edit_item item_id req) (db s1) b in
         orders d2 = orders (db s1)
         /\ order_items d2 = order_items (db s1)
         /\ forall id b1 b2,
             billing (fst (view_order id (Build_state d2 b1)))
             = billing (fst (view_order id (Build_state (db s1) b2))))
  /\ (forall d id b o lines flash',
         fst (view_order id (Build_state d b)) = inr (Render (Order_view_page o lines) flash') ->
         Forall (fun vl => exists oi, oi ∈ order_items d /\ oi_order_id oi = id
                                      /\ vl_qty vl = oi_qty oi /\ vl_price vl = oi_price oi
                                      /\ py_int_mul_float (oi_qty oi) (oi_price oi)
                                         = inr (vl_subtotal vl))
                lines).
Proof.
  intros Hwf Hrun.
  assert (forall item_id req b,
             ledger_kept (db s1) (db_after (Admin_edit_item item_id req) (db s1) b)) as Hkept.
  { intros item_id req b.
    apply (admin_edit_item_ledger (db s1) item_id req (Build_state (db s1) b)).
    apply ledger_kept_refl. }
  split; [| split].
  - destruct (place_order_accepted now form s s1 order_id flash Hwf Hrun)
      as (lines & total & Hsel & Hne & _ & Hid & Hflash & Hd).
    exists lines, total.
    split; [exact Hsel |]. split; [exact Hne |]. split; [exact Hflash |].
    split; [| split; [| split]].
    + pose proof (selects_line _ _ _ Hsel) as Hl.
      eapply Forall_impl; [exact Hl |].
      intros l (m & Hm & Hmid & _ & _ & Hprice & _ & _ & Hmul).
      exists m. rewrite <- Hprice. auto.
    + rewrite Hd, Hid. reflexivity.
    + clear. generalize (order_items_seq (db s)).
      induction lines as [| l rest IH]; intros seq; [reflexivity |].
      cbn [order_item_rows]. rewrite !fmap_cons. f_equal. apply IH.
    + intros Hfit.
      assert (forall b,
                 billing (fst (view_order order_id (Build_state (db s1) b)))
                 = Some (total, (fun l => (ol_qty l, ol_price l, ol_subtotal l)) <$> lines))
        as Hpage.
      { intros b. rewrite Hd, Hid. rewrite Hid in Hfit.
        rewrite (committed_order_page now form (db s) lines total b Hwf Hfit Hsel).
        cbn [fst billing o_total]. unfold view_lines_of.
        rewrite <- list_fmap_compose. reflexivity. }
      split; [exact Hpage |].
      intros item_id req b b1.
      rewrite (view_order_billing order_id (db s1) _ b1 b1 (Hkept item_id req b)).
      apply Hpage.
  - intros item_id req b d2. pose proof (Hkept item_id req b) as Hk.
    split; [apply Hk |]. split; [apply Hk |].
    intros id b1 b2. now apply view_order_billing.
  - intros d id b o lines flash' Hview.
    unfold view_order, bind, query_db, lift, Sql.select_order in Hview. simpl in Hview.
    destruct (bind_int id) as [e | i]; simpl in Hview; [discriminate |].
    destruct (List.find _ (orders d)) as [o' |]; simpl in Hview; [| discriminate].
    destruct (order_view_lines (Sql.select_order_lines id d)) as [e | ls] eqn:Hls;
      simpl in Hview; [discriminate |].
    inversion Hview; subst. apply order_view_lines_rows in Hls.
    eapply Forall_impl; [exact Hls |]. intros vl [Hin Hmul].
    apply select_order_lines_rows in Hin as (oi & Hoi & Hid & Hq & Hp).
    exists oi. rewrite Hq, Hp. auto.
Qed.

(** two Espresso sold at 80, then the price of the Espresso set to 95: the
    order has lines, and its page after the edit shows the total and, for
    every line, the quantity, price and subtotal of the sale *)
Lemma order_lines_keep_sale_price_witness :
  let form : order_form := fun i => if i =? 1 then Parsed 2 else Missing in
  let s := Build_state seeded_database None in
  let s1 := snd (place_order "2024-05-01T09:00:00" form s) in
  let d2 := db_after (Admin_edit_item 1 (POST (inr (Build_item_form
                                                      "Espresso" "Strong classic espresso"
                                                      (Float.of_Z 95) "ESP-01" 1))))
                     (db s1) None in
  exists lines total,
    selects form (Sql.select_active_menu (db s)) lines
    /\ lines <> []
    /\ Order_placed 1 (Float.of_Z 160) = Order_placed 1 total
    /\ order_items d2 = order_item_rows 1 0 lines
    /\ billing (fst (view_order 1 (Build_state d2 None)))
       = Some (total, (fun l => (ol_qty l, ol_price l, ol_subtotal l)) <$> lines).
Proof.
  intros form s s1 d2.
  destruct (order_lines_keep_sale_price "2024-05-01T09:00:00" form s s1 1
                                        (Order_placed 1 (Float.of_Z 160)))
    as [(lines & total & Hsel & Hne & Hflash & _ & Hrows & _ & Hpage) [Hedit _]].
  - exact seeded_database_wf.
  - vm_compute. reflexivity.
  - exists lines, total.
    split; [exact Hsel |]. split; [exact Hne |]. split; [exact Hflash |]. split.
    + unfold d2. destruct (Hedit 1 (POST (inr (Build_item_form
                                                  "Espresso" "Strong classic espresso"
                                                  (Float.of_Z 95) "ESP-01" 1))) None)
        as (_ & -> & _).
      exact Hrows.
    + apply Hpage. reflexivity.
Defined.

(** The same sale and edit, computed: the catalog holds 95 afterwards, the
    OrderLine row and the order page hold 80 and the total 160. *)
Example sale_price_survives_edit :
  let form : order_form := fun i => if i =? 1 then Parsed 2 else Missing in
  let s1 := snd (place_order "2024-05-01T09:00:00" form (Build_state seeded_database None)) in
  let d2 := db_after (Admin_edit_item 1 (POST (inr (Build_item_form
                                                      "Espresso" "Strong classic espresso"
                                                      (Float.of_Z 95) "ESP-01" 1))))
                     (db s1) None in
  mi_price <$> List.find (fun m => mi_id m =? 1) (menu_items d2) = Some (Float.of_Z 95)
  /\ order_items d2 = [Build_order_item 1 1 1 2 (Float.of_Z 80)]
  /\ billing (fst (view_order 1 (Build_state d2 None)))
     = Some (Float.of_Z 160, [(2, Float.of_Z 80, Float.of_Z 160)]).
Proof. intros form s1 d2. repeat split; vm_compute; reflexivity. Qed.

(** ** C9: the outcome is a function of catalog, inventory and basket *)












(** ** C10: the inventory route stores what the form holds *)

(** C10, as stated for every integer, fails at the bound of SQLite's
    INTEGER: with [qty = 2^63] the statement cannot bind the parameter, the
    handler raises OverflowError and the stored quantity of ESP-01 is still
    50. *)
Lemma inventory_update_overflow :
  let form := Build_inventory_form "ESP-01" (2 ^ 63) in
  let run := admin_update_inventory (inr form) (Build_state seeded_database None) in
  fst run = inl OverflowError
  /\ inventory (db (snd run)) !! "ESP-01" = Some 50.
Proof.
  intros form run. split; vm_compute; reflexivity.
Qed.

(** C10, amended: the inventory route has no lower bound.  When the
    storage layer accepts the statement, every integer [q] in the range of
    SQLite's 64-bit INTEGER, negative ones included, is stored exactly as
    the on-hand quantity of the given stock key, and no other quantity
    changes; every integer outside that range makes the handler raise
    OverflowError and stores nothing.  When the storage layer refuses the
    statement the handler raises and stores nothing. *)
Theorem inventory_update_stores_quantity (sku : string) (q : Z) (d : database)
        (b : option nat) :
  let run := admin_update_inventory (inr (Build_inventory_form sku q)) (Build_state d b) in
  (b <> Some O ->
   fits_sqlite_int q = true ->
   run = (inr (Redirect To_admin_menu Inventory_updated),
          Build_state (set_inventory (<[sku := q]> (inventory d)) d) (Nat.pred <$> b))
   /\ inventory (db (snd run)) !! sku = Some q
   /\ forall sku', sku' <> sku -> inventory (db (snd run)) !! sku' = inventory d !! sku')
  /\ (b <> Some O ->
      fits_sqlite_int q = false ->
      run = (inl OverflowError, Build_state d b))
  /\ (b = Some O -> exists e, run = (inl e, Build_state d b)).
Proof.
  intros run. unfold run, admin_update_inventory, bind, lift, ret, execute_db. simpl.
  unfold Sql.insert_or_replace_inventory, bind_int.
  split; [| split].
  - intros Hb Hfit. rewrite Hfit.
    destruct b as [[| n] |]; [congruence | |];
      (split; [reflexivity |]; simpl; split;
       [apply lookup_insert_eq | intros sku' Hne; now apply lookup_insert_ne]).
  - intros Hb Hfit. rewrite Hfit.
    destruct b as [[| n] |]; [congruence | reflexivity | reflexivity].
  - intros ->. eexists. reflexivity.
Qed.

(** the form [sku=ESP-01, qty=-5] against the seeded database: -5 is stored
    for ESP-01 and the Cappuccino keeps its 50 *)
Lemma inventory_update_stores_quantity_witness :
  let run := admin_update_inventory (inr (Build_inventory_form "ESP-01" (-5)))
                                    (Build_state seeded_database None) in
  fst run = inr (Redirect To_admin_menu Inventory_updated)
  /\ inventory (db (snd run)) !! "ESP-01" = Some (-5)
  /\ inventory (db (snd run)) !! "CAP-01" = Some 50.
Proof.
  intros run.
  destruct (inventory_update_stores_quantity "ESP-01" (-5) seeded_database None)
    as [Hstore _].
  destruct Hstore as (Hrun & Hsku & Hother); [discriminate | reflexivity |].
  fold run in Hrun, Hsku, Hother.
  split; [now rewrite Hrun |]. split; [exact Hsku |].
  rewrite Hother by discriminate. reflexivity.
Defined.

(** * Further properties of the routes *)

(** ** The ledger is append-only *)

Lemma ledger_unchanged_refl (d : database) : ledger_unchanged d d.
Proof. repeat split. Qed.

Lemma stmt_keeps_ledger (d0 : database) (stmt : statement) :
  (forall d d' rowid, stmt d = inr (d', rowid) ->
                      orders d' = orders d /\ orders_seq d' = orders_seq d
                      /\ order_items d' = order_items d) ->
  stmt_preserves (ledger_unchanged d0) stmt.
Proof.
  intros Hkeep d d' rowid (Ho & Hs & Hoi) Hst.
  destruct (Hkeep d d' rowid Hst) as (Ho' & Hs' & Hoi').
  unfold ledger_unchanged. now rewrite Ho', Hs', Hoi'.
Qed.

Lemma insert_menu_item_ledger (d0 : database) (name desc : string) (price : spec_float)
      (sku : string) (active : Z) :
  stmt_preserves (ledger_unchanged d0) (Sql.insert_menu_item name desc price sku active).
Proof.
  apply stmt_keeps_ledger. intros d d' rowid H. unfold Sql.insert_menu_item in H.
  destruct (bind_int active); [discriminate |].
  destruct (Float.is_nan price); [discriminate |].
  case_bool_decide; [discriminate |]. now inversion H.
Qed.

Lemma update_menu_item_ledger_unchanged (d0 : database) (name desc : string)
      (price : spec_float) (sku : string) (active item_id : Z) :
  stmt_preserves (ledger_unchanged d0)
                 (Sql.update_menu_item name desc price sku active item_id).
Proof.
  apply stmt_keeps_ledger. intros d d' rowid H. unfold Sql.update_menu_item in H.
  destruct (bind_int active); [discriminate |].
  destruct (bind_int item_id); [discriminate |].
  destruct (existsb _ _); [| now inversion H].
  destruct (Float.is_nan price); [discriminate |].
  case_bool_decide; [discriminate |]. now inversion H.
Qed.

Lemma delete_menu_item_ledger (d0 : database) (item_id : Z) :
  stmt_preserves (ledger_unchanged d0) (Sql.delete_menu_item item_id).
Proof.
  apply stmt_keeps_ledger. intros d d' rowid H. unfold Sql.delete_menu_item in H.
  destruct (bind_int item_id); [discriminate |]. now inversion H.
Qed.

Lemma insert_or_ignore_inventory_ledger_unchanged (d0 : database) (sku : string) (qty : Z) :
  stmt_preserves (ledger_unchanged d0) (Sql.insert_or_ignore_inventory sku qty).
Proof.
  apply stmt_keeps_ledger. intros d d' rowid H. unfold Sql.insert_or_ignore_inventory in H.
  destruct (bind_int qty); [discriminate |].
  destruct (inventory d !! sku); now inversion H.
Qed.

Lemma insert_or_replace_inventory_ledger (d0 : database) (sku : string) (qty : Z) :
  stmt_preserves (ledger_unchanged d0) (Sql.insert_or_replace_inventory sku qty).
Proof.
  apply stmt_keeps_ledger. intros d d' rowid H. unfold Sql.insert_or_replace_inventory in H.
  destruct (bind_int qty); [discriminate |]. now inversion H.
Qed.

(** the third loop adds OrderLine rows of its Order and nothing else to the
    ledger *)
Lemma write_order_items_ledger (d0 : database) (order_id : Z) (lines : list order_line) :
  preserves (fun d => orders d = orders d0 /\ orders_seq d = orders_seq d0
                      /\ exists rows, order_items d = order_items d0 ++ rows
                                      /\ Forall (fun oi => oi_order_id oi = order_id) rows)
            (write_order_items order_id lines).
Proof.
  induction lines as [| l rest IH]; simpl.
  - apply preserves_ret.
  - apply preserves_bind; [apply preserves_execute | intros _; apply preserves_bind;
                           [apply preserves_execute | intros _; exact IH]].
    + intros d d' rowid (Ho & Hs & rows & Hoi & Hrows) Hst.
      unfold Sql.insert_order_item in Hst.
      destruct (bind_int (ol_qty l)); [discriminate |].
      destruct (Float.is_nan (ol_price l)); [discriminate |].
      inversion Hst; subst; simpl. repeat split; auto.
      eexists (rows ++ [_]). rewrite Hoi, <- app_assoc. split; [reflexivity |].
      apply Forall_app. split; [exact Hrows |]. repeat constructor.
    + intros d d' rowid H Hst. unfold Sql.decrement_inventory in Hst.
      destruct (bind_int (ol_qty l)); [discriminate |].
      inversion Hst; subst. exact H.
Qed.

Lemma commit_order_ledger (now : string) (total : spec_float) (lines : list order_line)
      (s : state) :
  let d' := db (snd (commit_order now total lines s)) in
  ledger_unchanged (db s) d' \/ ledger_appended now (db s) d'.
Proof.
  intros d'. unfold d', commit_order, bind. clear d'.
  destruct (execute_db_cases (Sql.insert_order now total) s)
    as [(e & -> & _) | (d1 & id & Hst & _ & ->)]; simpl.
  { left. apply ledger_unchanged_refl. }
  unfold Sql.insert_order in Hst. destruct (Float.is_nan total); [discriminate |].
  inversion Hst; subst d1 id; clear Hst.
  right.
  match goal with |- context [write_order_items _ _ ?st] => set (s1 := st) end.
  pose proof (write_order_items_ledger (db s1) (orders_seq (db s) + 1) lines s1) as Hloop.
  destruct (write_order_items (orders_seq (db s) + 1) lines s1) as [[e | []] s2];
    simpl in *;
    (destruct Hloop as (Ho & Hs & rows & Hoi & Hrows);
     [repeat split; auto; exists []; rewrite app_nil_r; split; [reflexivity | constructor] |];
     exists total, rows; rewrite Ho, Hs, Hoi; auto).
Qed.

Lemma place_order_ledger (now : string) (form : order_form) (s : state) :
  let d' := db (snd (place_order now form s)) in
  ledger_unchanged (db s) d' \/ ledger_appended now (db s) d'.
Proof.
  intros d'. unfold d'. clear d'. rewrite place_order_unfold.
  destruct (collect_order_items form _ [] Float.zero) as [e | [lines total]];
    [left; apply ledger_unchanged_refl |].
  destruct lines as [| l rest]; [left; apply ledger_unchanged_refl |].
  destruct (first_short (inventory (db s)) (l :: rest));
    [left; apply ledger_unchanged_refl |].
  apply commit_order_ledger.
Qed.

Ltac ledger_frame d b :=
  left;
  match goal with
  | |- ledger_unchanged _ (db (snd (?m _))) =>
      let H := fresh "H" in
      assert (preserves (ledger_unchanged d) m) as H;
      [| exact (H (Build_state d b) (ledger_unchanged_refl d))]
  end.

Lemma handle_ledger (r : request) (d : database) (b : option nat) :
  ledger_unchanged d (db_after r d b)
  \/ exists now form, r = Post_place_order now form /\ ledger_appended now d (db_after r d b).
Proof.
  unfold db_after. destruct r; cbn [handle].
  - ledger_frame d b. unfold index. repeat preserve_step.
  - destruct (place_order_ledger now form (Build_state d b)) as [H | H]; [now left |].
    right. eauto.
  - ledger_frame d b. unfold view_orders. repeat preserve_step.
  - ledger_frame d b. apply view_order_preserves.
  - ledger_frame d b. unfold admin_menu. repeat preserve_step.
  - ledger_frame d b. destruct req as [| form]; simpl; repeat preserve_step.
    + apply insert_menu_item_ledger.
    + apply insert_or_ignore_inventory_ledger_unchanged.
  - ledger_frame d b. unfold admin_edit_item. repeat preserve_step.
    destruct a0 as [it |]; [| apply preserves_ret].
    destruct req as [| form]; repeat preserve_step.
    + apply update_menu_item_ledger_unchanged.
    + apply insert_or_ignore_inventory_ledger_unchanged.
  - ledger_frame d b. unfold admin_delete_item. repeat preserve_step.
    apply delete_menu_item_ledger.
  - ledger_frame d b. unfold admin_update_inventory. repeat preserve_step.
    apply insert_or_replace_inventory_ledger.
Qed.

(** X1: the ledger is append-only.  Whatever the request and whether or not
    the storage layer fails, the rows of [orders] and [order_items] that were
    there before are still there, unchanged and in place: either both tables
    are as before, or the request was an order placement, which added one
    Order numbered after the counter and OrderLine rows of that Order
    only.  No route updates or deletes a ledger row. *)
Theorem ledger_append_only (r : request) (d : database) (b : option nat) :
  (orders (db_after r d b) = orders d /\ order_items (db_after r d b) = order_items d)
  \/ exists now form total rows,
      r = Post_place_order now form
      /\ orders (db_after r d b) = orders d ++ [Build_order (orders_seq d + 1) now total]
      /\ order_items (db_after r d b) = order_items d ++ rows
      /\ Forall (fun oi => oi_order_id oi = orders_seq d + 1) rows.
Proof.
  destruct (handle_ledger r d b)
    as [(Ho & _ & Hoi) | (now & form & -> & total & rows & Ho & _ & Hoi & Hrows)].
  - left. split; assumption.
  - right. exists now, form, total, rows. auto.
Qed.

(** ** Order ids and the orders page *)

Lemma orders_sorted_step (now : string) (d d' : database) :
  orders_sorted d ->
  ledger_unchanged d d' \/ ledger_appended now d d' ->
  orders_sorted d'.
Proof.
  intros [Hsorted Hbound] [(Ho & Hs & _) | (total & rows & Ho & Hs & _)];
    unfold orders_sorted; rewrite Ho, Hs.
  - split; assumption.
  - split.
    + apply StronglySorted_app. split; [| split].
      * intros o1 o2 H1 H2. apply list_elem_of_singleton in H2. subst o2. simpl.
        rewrite Forall_forall in Hbound. specialize (Hbound o1 H1). lia.
      * exact Hsorted.
      * repeat constructor.
    + apply Forall_app. split.
      * eapply Forall_impl; [exact Hbound |]. intros o Hle. simpl in *. lia.
      * repeat constructor. simpl. lia.
Qed.

Lemma reachable_orders_sorted (d : database) : reachable d -> orders_sorted d.
Proof.
  induction 1 as [| d r b _ IH].
  - split; vm_compute; constructor.
  - destruct (handle_ledger r d b) as [H | (now & form & _ & H)].
    + apply (orders_sorted_step "" d); auto.
    + apply (orders_sorted_step now d); auto.
Qed.

Lemma StronglySorted_rev {A : Type} (R : A -> A -> Prop) (l : list A) :
  StronglySorted R l -> StronglySorted (fun x y => R y x) (rev l).
Proof.
  induction 1 as [| x l Hl IH Hx]; simpl; [constructor |].
  apply StronglySorted_app. split; [| split].
  - intros y z Hy Hz. apply list_elem_of_singleton in Hz. subst z.
    apply list_elem_of_In, in_rev, list_elem_of_In in Hy.
    rewrite Forall_forall in Hx. now apply Hx.
  - exact IH.
  - repeat constructor.
Qed.

(** X2: in every reachable database the orders page lists every order
    exactly once, newest first: the rows are the rows of the orders table,
    in strictly decreasing order of id, so no two orders share an id.  The
    page is a pure read: the state is unchanged. *)
Theorem view_orders_newest_first (d : database) (b : option nat) :
  reachable d ->
  exists rows,
    view_orders (Build_state d b) = (inr (Render (Orders_page rows) None), Build_state d b)
    /\ rows ≡ₚ orders d
    /\ StronglySorted (fun o1 o2 => o_id o2 < o_id o1) rows
    /\ NoDup (o_id <$> rows).
Proof.
  intros Hreach. destruct (reachable_orders_sorted d Hreach) as [Hsorted _].
  exists (rev (orders d)). split; [reflexivity |].
  pose proof (StronglySorted_rev _ _ Hsorted) as Hdesc. simpl in Hdesc.
  split; [symmetry; apply Permutation_rev | split; [exact Hdesc |]].
  clear Hsorted. induction Hdesc as [| o l _ IH Ho]; [constructor |].
  rewrite fmap_cons. apply NoDup_cons. split; [| exact IH].
  intros Hin. apply list_elem_of_fmap in Hin as (o' & Heq & Ho').
  rewrite Forall_forall in Ho. specialize (Ho o' Ho'). lia.
Qed.

Lemma view_orders_newest_first_witness :
  let form : order_form := fun i => if i =? 1 then Parsed 2 else Missing in
  let d1 := db_after (Post_place_order "2024-05-01T09:00:00" form) seeded_database None in
  let d2 := db_after (Post_place_order "2024-05-01T09:05:00" form) d1 None in
  exists rows,
    view_orders (Build_state d2 None) = (inr (Render (Orders_page rows) None), Build_state d2 None)
    /\ rows ≡ₚ orders d2
    /\ StronglySorted (fun o1 o2 => o_id o2 < o_id o1) rows
    /\ NoDup (o_id <$> rows).
Proof.
  intros form d1 d2. apply view_orders_newest_first.
  apply reachable_step, reachable_step, reachable_seeded.
Defined.

(** ** An order that was placed can be viewed *)

(** X3: an accepted order can be read back.  After [place_order] has
    accepted a basket, the order page of the id it reports shows the Order
    record with the reported total and the time of the request, and one row
    per basket line, in menu order, with the item's name, the quantity, the
    price and the subtotal computed by [place_order]. *)
Theorem placed_order_is_viewable (now : string) (form : order_form) (s s' : state)
        (order_id : Z) (flash : flash_message) (b : option nat) :
  wf_db (db s) ->
  fits_sqlite_int order_id = true ->
  place_order now form s = (inr (Redirect (To_view_order order_id) flash), s') ->
  exists lines total,
    selects form (Sql.select_active_menu (db s)) lines
    /\ flash = Order_placed order_id total
    /\ view_order order_id (Build_state (db s') b)
       = (inr (Render (Order_view_page (Build_order order_id now total) (view_lines_of lines))
                      None),
          Build_state (db s') b).
Proof.
  intros Hwf Hfit Hrun.
  destruct (place_order_cases now form s _ s' Hwf Hrun)
    as [[_ Hno] | [(lines & total & Hcol & Hr & Hd) | [Hr _]]].
  - exfalso. apply Hno. now do 2 eexists.
  - inversion Hr; subst order_id flash. clear Hr.
    apply collect_order_items_selects in Hcol as (new & Hsel & Hnew & _).
    simpl in Hnew. subst new.
    exists lines, total. split; [exact Hsel |]. split; [reflexivity |].
    destruct (committed_order_rows now total lines (db s) Hwf) as [Hfind _].
    cbv zeta in Hfind. rewrite <- Hd in Hfind.
    unfold view_order, bind, query_db, lift, Sql.select_order. simpl.
    rewrite (bind_int_fits _ Hfit). simpl. rewrite Hfind. simpl.
    assert (Sql.select_order_lines (orders_seq (db s) + 1) (db s')
            = (fun l => (ol_qty l, ol_price l, ol_name l)) <$> lines) as Hlines.
    { unfold Sql.select_order_lines. rewrite Hd. simpl.
      rewrite flat_map_app, flat_map_none.
      - simpl. apply (select_new_order_lines form (db s)); [apply (wf_id_unique _ Hwf) |].
        exact Hsel.
      - eapply Forall_impl; [exact (wf_order_item_ids _ Hwf) |]. intros oi Hle. simpl in *.
        replace (oi_order_id oi =? orders_seq (db s) + 1) with false; [reflexivity |].
        symmetry. apply Z.eqb_neq. lia. }
    rewrite Hlines, (order_view_lines_of_selected _ _ _ Hsel). reflexivity.
  - discriminate.
Qed.

Lemma placed_order_is_viewable_witness :
  let form : order_form := fun i => if i =? 1 then Parsed 2 else Missing in
  let s := Build_state seeded_database None in
  let s' := snd (place_order "2024-05-01T09:00:00" form s) in
  exists lines total,
    selects form (Sql.select_active_menu (db s)) lines
    /\ Order_placed 1 (Float.of_Z 160) = Order_placed 1 total
    /\ view_order 1 (Build_state (db s') None)
       = (inr (Render (Order_view_page (Build_order 1 "2024-05-01T09:00:00" total)
                                       (view_lines_of lines))
                      None),
          Build_state (db s') None).
Proof.
  intros form s s'.
  apply (placed_order_is_viewable "2024-05-01T09:00:00" form s s' 1
                                  (Order_placed 1 (Float.of_Z 160)) None).
  - exact seeded_database_wf.
  - reflexivity.
  - vm_compute. reflexivity.
Defined.

(** ** The stock after two orders served at the same time *)

(** after the decrements of [lines], a stock key holds what it held less
    everything the lines request of it *)
Lemma decremented_aggregate (lines : list order_line) (sku : string) :
  forall inv : gmap string Z,
    decremented inv lines !! sku = (fun q => q - aggregate lines sku) <$> inv !! sku.
Proof.
  induction lines as [| l rest IH]; intros inv.
  - unfold decremented. simpl. destruct (inv !! sku); simpl; [f_equal; lia | reflexivity].
  - change (decremented inv (l :: rest))
      with (decremented (alter (fun q => q - ol_qty l) (ol_sku l) inv) rest).
    rewrite IH. simpl. destruct (decide (ol_sku l = sku)) as [<- | Hne].
    + rewrite lookup_alter_eq. destruct (inv !! ol_sku l); simpl; [f_equal; lia | reflexivity].
    + now rewrite lookup_alter_ne.
Qed.

Lemma order_decision_lines (form : order_form) (d : database) (lines : list order_line)
      (total : spec_float) :
  wf_db d ->
  order_decision form d = inr (inr (lines, total)) ->
  selects form (Sql.select_active_menu d) lines
  /\ first_short (inventory d) lines = None
  /\ Forall line_writable lines.
Proof.
  intros Hwf Hdec. unfold order_decision in Hdec.
  destruct (collect_order_items form (Sql.select_active_menu d) [] Float.zero)
    as [e | [lines' total']] eqn:Hcol; [discriminate |].
  destruct (collect_order_items_selects _ _ _ _ _ _ Hcol) as (new & Hsel & Hnew & _).
  simpl in Hnew. subst new.
  destruct lines' as [| l rest]; [discriminate |].
  destruct (first_short (inventory d) (l :: rest)) as [name |] eqn:Hchk; [discriminate |].
  inversion Hdec; subst lines total'.
  split; [exact Hsel |]. split; [exact Hchk |].
  exact (checked_lines_writable form d _ Hwf Hsel Hchk).
Qed.

(** X4: the inventory check of one order does not hold against the writes
    of another.  When two order placements are served at the same time and
    both run their reads (lines 299-318) before either writes (lines
    320-325), each one that passes the check on its own is accepted: both
    answer with a new order, and every stock key ends at what it held less
    what both baskets request of it, which is below zero when the two
    together request more than was on hand. *)
Theorem interleaved_orders_oversell (nowA nowB : string) (formA formB : order_form)
        (d : database) (linesA linesB : list order_line) (totalA totalB : spec_float) :
  wf_db d ->
  order_decision formA d = inr (inr (linesA, totalA)) ->
  order_decision formB d = inr (inr (linesB, totalB)) ->
  Float.is_nan totalA = false ->
  Float.is_nan totalB = false ->
  exists d',
    interleaved_orders nowA formA nowB formB d
    = (inr (Redirect (To_view_order (orders_seq d + 1))
                     (Order_placed (orders_seq d + 1) totalA)),
       inr (Redirect (To_view_order (orders_seq d + 2))
                     (Order_placed (orders_seq d + 2) totalB)),
       d')
    /\ (forall sku q,
          inventory d !! sku = Some q ->
          inventory d' !! sku = Some (q - aggregate linesA sku - aggregate linesB sku))
    /\ (forall sku q,
          inventory d !! sku = Some q ->
          q < aggregate linesA sku + aggregate linesB sku ->
          exists q', inventory d' !! sku = Some q' /\ q' < 0).
Proof.
  intros Hwf HA HB HnanA HnanB.
  destruct (order_decision_lines formA d linesA totalA Hwf HA) as (_ & _ & HwA).
  destruct (order_decision_lines formB d linesB totalB Hwf HB) as (_ & _ & HwB).
  exists (committed_order nowB totalB linesB (committed_order nowA totalA linesA d)).
  assert (forall sku q,
             inventory d !! sku = Some q ->
             inventory (committed_order nowB totalB linesB
                                        (committed_order nowA totalA linesA d)) !! sku
             = Some (q - aggregate linesA sku - aggregate linesB sku)) as Hinv.
  { intros sku q Hq. unfold committed_order, written_lines. simpl.
    rewrite !decremented_aggregate, Hq. reflexivity. }
  split; [| split].
  - unfold interleaved_orders. rewrite HA, HB. unfold finish_order.
    rewrite (commit_order_run nowA totalA linesA d None HwA HnanA). cbv zeta. cbn [db].
    rewrite (commit_order_run nowB totalB linesB _ None HwB HnanB). cbv zeta. cbn [db].
    replace (orders_seq (committed_order nowA totalA linesA d) + 1) with (orders_seq d + 2)
      by (unfold committed_order, written_lines; simpl; lia).
    reflexivity.
  - exact Hinv.
  - intros sku q Hq Hlt. eexists. split; [exact (Hinv sku q Hq) | lia].
Qed.

(** two baskets of 30 Espresso against 50 on hand: both orders are accepted
    and ESP-01 ends at -10 *)
Lemma interleaved_orders_oversell_witness :
  let form : order_form := fun i => if i =? 1 then Parsed 30 else Missing in
  let run := interleaved_orders "2024-05-01T09:00:00" form "2024-05-01T09:00:00" form
                                seeded_database in
  outcome_of run.1.1 = Accepted (Float.of_Z 2400)
  /\ outcome_of run.1.2 = Accepted (Float.of_Z 2400)
  /\ inventory seeded_database !! "ESP-01" = Some 50
  /\ inventory run.2 !! "ESP-01" = Some (-10).
Proof.
  intros form run.
  pose (line := Build_order_line 1 "ESP-01" "Espresso" 30 (Float.of_Z 80) (Float.of_Z 2400)).
  destruct (interleaved_orders_oversell
              "2024-05-01T09:00:00" "2024-05-01T09:00:00" form form seeded_database
              [line] [line] (Float.of_Z 2400) (Float.of_Z 2400) seeded_database_wf)
    as (d' & Hrun & Hinv & _); try (vm_compute; reflexivity).
  fold run in Hrun. rewrite Hrun. cbn [fst snd].
  split; [reflexivity |]. split; [reflexivity |]. split; [reflexivity |].
  rewrite (Hinv "ESP-01" 50) by reflexivity. reflexivity.
Defined.

(** ** Inventory rows across requests *)

(** [place_order] keeps what its three kinds of statement keep *)
Lemma place_order_frame (P : database -> Prop) (now : string) (form : order_form) :
  (forall total, stmt_preserves P (Sql.insert_order now total)) ->
  (forall order_id menu_id qty price,
      stmt_preserves P (Sql.insert_order_item order_id menu_id qty price)) ->
  (forall qty sku, stmt_preserves P (Sql.decrement_inventory qty sku)) ->
  preserves P (place_order now form).
Proof.
  intros Hinsert Hitem Hdec.
  assert (forall order_id lines, preserves P (write_order_items order_id lines)) as Hloop.
  { intros order_id lines. induction lines as [| l rest IH]; simpl.
    - apply preserves_ret.
    - apply preserves_bind; [apply preserves_execute, Hitem | intros _].
      apply preserves_bind; [apply preserves_execute, Hdec | intros _; exact IH]. }
  intros s HP. rewrite place_order_unfold.
  destruct (collect_order_items form _ [] Float.zero) as [e | [lines total]]; [exact HP |].
  destruct lines as [| l rest]; [exact HP |].
  destruct (first_short (inventory (db s)) (l :: rest)); [exact HP |].
  revert s HP. change (preserves P (commit_order now total (l :: rest))).
  unfold commit_order.
  apply preserves_bind; [apply preserves_execute, Hinsert | intros order_id].
  apply preserves_bind; [apply Hloop | intros _; apply preserves_ret].
Qed.

Lemma stmt_same_inventory (Q : gmap string Z -> Prop) (stmt : statement) :
  (forall d d' rowid, stmt d = inr (d', rowid) -> inventory d' = inventory d) ->
  stmt_preserves (fun d => Q (inventory d)) stmt.
Proof. intros Hsame d d' rowid HQ Hst. now rewrite (Hsame d d' rowid Hst). Qed.

Lemma decrement_inventory_row (sku : string) (qty : Z) (sku' : string) :
  stmt_preserves (fun d => is_Some (inventory d !! sku)) (Sql.decrement_inventory qty sku').
Proof.
  intros d d' rowid Hrow Hst. unfold Sql.decrement_inventory in Hst.
  destruct (bind_int qty); [discriminate |]. inversion Hst; subst. simpl.
  now apply lookup_alter_is_Some.
Qed.

Lemma insert_or_replace_inventory_row (sku : string) (qty : Z) (sku' : string) :
  stmt_preserves (fun d => is_Some (inventory d !! sku))
                 (Sql.insert_or_replace_inventory sku' qty).
Proof.
  intros d d' rowid Hrow Hst. unfold Sql.insert_or_replace_inventory in Hst.
  destruct (bind_int qty); [discriminate |]. inversion Hst; subst. simpl.
  apply lookup_insert_is_Some'. now right.
Qed.

Lemma insert_or_ignore_inventory_quantity (sku : string) (q : Z) (sku' : string) (qty : Z) :
  stmt_preserves (fun d => inventory d !! sku = Some q)
                 (Sql.insert_or_ignore_inventory sku' qty).
Proof.
  intros d d' rowid Hrow Hst. unfold Sql.insert_or_ignore_inventory in Hst.
  destruct (bind_int qty); [discriminate |].
  destruct (inventory d !! sku') eqn:Hl; inversion Hst; subst; [exact Hrow |].
  simpl. rewrite lookup_insert_ne; [exact Hrow | congruence].
Qed.

(** the add, edit and delete routes keep the quantity of a stock key *)
Lemma catalog_route_quantity (sku : string) (q : Z) (r : request) :
  match r with
  | Admin_add_item _ | Admin_edit_item _ _ | Admin_delete_item _ => True
  | _ => False
  end ->
  preserves (fun d => inventory d !! sku = Some q) (handle r).
Proof.
  set (Q := fun inv : gmap string Z => inv !! sku = Some q).
  destruct r; intros Hr; try contradiction; cbn [handle].
  - destruct req as [| form]; simpl; repeat preserve_step.
    + apply (stmt_same_inventory Q). intros d d' rowid. apply insert_menu_item_inventory.
    + apply insert_or_ignore_inventory_quantity.
  - unfold admin_edit_item. repeat preserve_step.
    destruct a0 as [it |]; [| apply preserves_ret].
    destruct req as [| form]; repeat preserve_step.
    + apply (stmt_same_inventory Q). intros d d' rowid. apply update_menu_item_inventory.
    + apply insert_or_ignore_inventory_quantity.
  - unfold admin_delete_item. repeat preserve_step.
    apply (stmt_same_inventory Q). intros d d' rowid. apply delete_menu_item_inventory.
Qed.

(** X5: no route deletes an inventory row.  A stock key that has a row
    before a request has one after it, whatever the request and whether or
    not the storage layer fails; in particular the row of a deleted menu
    item stays behind. *)
Theorem inventory_rows_never_deleted (r : request) (d : database) (b : option nat)
        (sku : string) :
  is_Some (inventory d !! sku) ->
  is_Some (inventory (db_after r d b) !! sku).
Proof.
  intros Hrow. unfold db_after.
  set (Q := fun inv : gmap string Z => is_Some (inv !! sku)).
  assert (forall m : M response,
             preserves (fun d' => is_Some (inventory d' !! sku)) m ->
             is_Some (inventory (db (snd (m (Build_state d b)))) !! sku)) as Hkeep
      by (intros m Hm; exact (Hm (Build_state d b) Hrow)).
  assert (forall r', match r' with
                     | Admin_add_item _ | Admin_edit_item _ _ | Admin_delete_item _ => True
                     | _ => False
                     end ->
                     is_Some (inventory (db (snd (handle r' (Build_state d b)))) !! sku))
    as Hcat.
  { intros r' Hr'. destruct Hrow as [q Hq]. exists q.
    exact (catalog_route_quantity sku q r' Hr' (Build_state d b) Hq). }
  destruct r; cbn [handle].
  - apply Hkeep. unfold index. repeat preserve_step.
  - apply Hkeep. apply place_order_frame.
    + intros total. apply (stmt_same_inventory Q). intros d0 d' rowid.
      apply insert_order_inventory.
    + intros order_id menu_id qty price. apply (stmt_same_inventory Q).
      intros d0 d' rowid. apply insert_order_item_inventory.
    + intros qty sku'. apply decrement_inventory_row.
  - apply Hkeep. unfold view_orders. repeat preserve_step.
  - apply Hkeep. apply view_order_preserves.
  - apply Hkeep. unfold admin_menu. repeat preserve_step.
  - exact (Hcat (Admin_add_item req) I).
  - exact (Hcat (Admin_edit_item item_id req) I).
  - exact (Hcat (Admin_delete_item item_id) I).
  - apply Hkeep. unfold admin_update_inventory. repeat preserve_step.
    apply insert_or_replace_inventory_row.
Qed.

Lemma inventory_rows_never_deleted_witness :
  is_Some (inventory (db_after (Admin_delete_item 1) seeded_database None) !! "ESP-01").
Proof.
  apply inventory_rows_never_deleted. vm_compute. now eexists.
Defined.

(** X6: the catalog routes leave the stock alone.  Adding, editing or
    deleting a menu item never changes the quantity of a stock key that has
    an inventory row: an added or re-keyed item gets a row with quantity 0
    only when its stock key has none, and otherwise takes over the quantity
    that is there. *)
Theorem catalog_routes_keep_quantities (r : request) (d : database) (b : option nat)
        (sku : string) (q : Z) :
  match r with
  | Admin_add_item _ | Admin_edit_item _ _ | Admin_delete_item _ => True
  | _ => False
  end ->
  inventory d !! sku = Some q ->
  inventory (db_after r d b) !! sku = Some q.
Proof.
  intros Hr Hq. exact (catalog_route_quantity sku q r Hr (Build_state d b) Hq).
Qed.

(** deleting the Espresso and adding an item with its stock key again: the
    new item has the 50 that were on hand *)
Lemma catalog_routes_keep_quantities_witness :
  let d1 := db_after (Admin_delete_item 1) seeded_database None in
  inventory (db_after (Admin_add_item
                         (POST (inr (Build_item_form "Ristretto" "Short espresso"
                                                     (Float.of_Z 90) "ESP-01" 1))))
                      d1 None) !! "ESP-01" = Some 50.
Proof.
  intros d1. apply catalog_routes_keep_quantities; [exact I |].
  vm_compute. reflexivity.
Defined.


(** ** Adding a menu item *)

(** X7: a stock key that is already in the catalog is refused.  When the
    submitted sku is the sku of a menu item, [admin_add_item] answers the
    form page with [SKU must be unique] and the database is as before: no
    menu row and no inventory row is written. *)
Theorem add_item_duplicate_sku (f : item_form) (d : database) (b : option nat) :
  if_sku f ∈ mi_sku <$> menu_items d ->
  fits_sqlite_int (if_active f) = true ->
  b <> Some O ->
  admin_add_item (POST (inr f)) (Build_state d b)
  = (inr (Render (Add_edit_page None) (Some SKU_must_be_unique)), Build_state d b).
Proof.
  intros Hdup Hfit Hb.
  unfold admin_add_item, lift. rewrite bind_ret.
  unfold try_except, bind at 1.
  destruct (execute_db_cases
              (Sql.insert_menu_item (if_name f) (if_description f) (if_price f)
                                    (if_sku f) (if_active f)) (Build_state d b))
    as [(e & -> & [[_ Hb'] | Hst]) | (d' & rowid & Hst & _ & _)].
  - simpl in Hb'. contradiction.
  - simpl in Hst. unfold Sql.insert_menu_item in Hst.
    rewrite (bind_int_fits _ Hfit) in Hst.
    destruct (Float.is_nan (if_price f)); inversion Hst; subst; [reflexivity |].
    case_bool_decide; inversion Hst; subst. reflexivity.
  - exfalso. simpl in Hst. unfold Sql.insert_menu_item in Hst.
    rewrite (bind_int_fits _ Hfit) in Hst.
    destruct (Float.is_nan (if_price f)); [discriminate |].
    case_bool_decide; [discriminate | contradiction].
Qed.

Lemma add_item_duplicate_sku_witness :
  let f := Build_item_form "Doppio" "Double espresso" (Float.of_Z 95) "ESP-01" 1 in
  admin_add_item (POST (inr f)) (Build_state seeded_database None)
  = (inr (Render (Add_edit_page None) (Some SKU_must_be_unique)),
     Build_state seeded_database None).
Proof.
  intros f. apply add_item_duplicate_sku.
  - vm_compute. apply list_elem_of_here.
  - reflexivity.
  - discriminate.
Defined.

Lemma collect_order_items_app (form : order_form) (l1 l2 : list menu_item) :
  forall acc total,
    collect_order_items form (l1 ++ l2) acc total
    = match collect_order_items form l1 acc total with
      | inl e => inl e
      | inr (acc', total') => collect_order_items form l2 acc' total'
      end.
Proof.
  induction l1 as [| m l1 IH]; intros acc total; [reflexivity |].
  simpl. destruct (form_qty form (mi_id m)) as [e | qty]; [reflexivity |].
  destruct (0 <? qty); [| apply IH].
  destruct (py_int_mul_float qty (mi_price m)); [reflexivity | apply IH].
Qed.

(** whether [int * float] raises depends on the int alone *)
Lemma py_int_mul_float_any (n : Z) (x subtotal y : spec_float) :
  py_int_mul_float n x = inr subtotal -> exists subtotal', py_int_mul_float n y = inr subtotal'.
Proof.
  unfold py_int_mul_float. destruct (Float.of_Z n); try discriminate; eauto.
Qed.

(** the database after a successful [admin_add_item] *)
Lemma admin_add_item_success (f : item_form) (d : database) :
  if_sku f ∉ mi_sku <$> menu_items d ->
  Float.is_nan (if_price f) = false ->
  fits_sqlite_int (if_active f) = true ->
  inventory d !! if_sku f = None ->
  admin_add_item (POST (inr f)) (Build_state d None)
  = (inr (Redirect To_admin_menu Item_added),
     Build_state
       (set_inventory
          (<[if_sku f := 0]> (inventory d))
          (set_menu_items
             (menu_items d ++ [Build_menu_item (menu_items_seq d + 1) (if_name f)
                                               (if_description f)
                                               (Float.stored (if_price f)) (if_sku f)
                                               (if_active f)])
             (menu_items_seq d + 1) d))
       None).
Proof.
  intros Hfresh Hnan Hfit Hnone.
  unfold admin_add_item, lift. rewrite bind_ret.
  unfold try_except, bind, execute_db. simpl.
  unfold Sql.insert_menu_item. rewrite (bind_int_fits _ Hfit), Hnan.
  case_bool_decide; [contradiction |]. simpl.
  unfold Sql.insert_or_ignore_inventory. simpl. rewrite Hnone. reflexivity.
Qed.

(** X8: a new item cannot be ordered before it is stocked.  After
    [admin_add_item] has added an active item whose stock key had no
    inventory row, the row it creates holds 0, and a basket that asks for
    that item alone is rejected with [Insufficient inventory for <name>],
    writing nothing. *)
Theorem new_item_has_no_stock (f : item_form) (d : database) (now : string)
        (form : order_form) (n : Z) (subtotal : spec_float) (s1 : state) (b : option nat) :
  if_sku f ∉ mi_sku <$> menu_items d ->
  Float.is_nan (if_price f) = false ->
  if_active f = 1 ->
  inventory d !! if_sku f = None ->
  admin_add_item (POST (inr f)) (Build_state d None)
  = (inr (Redirect To_admin_menu Item_added), s1) ->
  (forall m, m ∈ menu_items d -> form (mi_id m) = Missing) ->
  form (menu_items_seq d + 1) = Parsed n ->
  0 < n ->
  py_int_mul_float n (if_price f) = inr subtotal ->
  inventory (db s1) !! if_sku f = Some 0
  /\ place_order now form (Build_state (db s1) b)
     = (inr (Redirect To_index (Insufficient_inventory_for (if_name f))),
        Build_state (db s1) b).
Proof.
  intros Hfresh Hnan Hactive Hnone Hadd Hold Hnew Hpos Hmul.
  assert (fits_sqlite_int (if_active f) = true) as Hfit by (rewrite Hactive; reflexivity).
  rewrite (admin_add_item_success f d Hfresh Hnan Hfit Hnone) in Hadd.
  inversion Hadd; subst s1; clear Hadd. simpl.
  split; [apply lookup_insert_eq |].
  rewrite place_order_unfold. unfold Sql.select_active_menu. simpl.
  rewrite filter_app, collect_order_items_app.
  rewrite collect_order_items_none.
  - rewrite filter_cons, filter_nil. simpl.
    destruct (decide (if_active f = 1)); [| contradiction]. simpl.
    unfold form_qty. rewrite Hnew.
    replace (0 <? n) with true by (symmetry; now apply Z.ltb_lt).
    destruct (py_int_mul_float_any n _ _ (Float.stored (if_price f)) Hmul) as [sub' ->].
    simpl. rewrite lookup_insert_eq.
    replace (0 <? n) with true by (symmetry; now apply Z.ltb_lt). reflexivity.
  - intros m Hm. apply list_elem_of_filter in Hm as [_ Hm].
    exists 0. unfold form_qty. rewrite (Hold m Hm). split; [reflexivity | lia].
Qed.

Lemma new_item_has_no_stock_witness :
  let f := Build_item_form "Brownie" "Chocolate brownie" (Float.of_Z 60) "BRW-01" 1 in
  let s1 := snd (admin_add_item (POST (inr f)) (Build_state seeded_database None)) in
  let form : order_form := fun i => if i =? 5 then Parsed 1 else Missing in
  inventory (db s1) !! "BRW-01" = Some 0
  /\ place_order "2024-05-01T09:00:00" form (Build_state (db s1) None)
     = (inr (Redirect To_index (Insufficient_inventory_for "Brownie")),
        Build_state (db s1) None).
Proof.
  intros f s1 form.
  apply (new_item_has_no_stock f seeded_database "2024-05-01T09:00:00" form 1
                               (Float.of_Z 60) s1 None).
  - intros Hin. apply list_elem_of_In in Hin. vm_compute in Hin.
    destruct Hin as [H | [H | [H | [H | []]]]]; discriminate H.
  - reflexivity.
  - reflexivity.
  - vm_compute. reflexivity.
  - vm_compute. reflexivity.
  - intros m Hm. apply list_elem_of_In in Hm. vm_compute in Hm.
    destruct Hm as [<- | [<- | [<- | [<- | []]]]]; reflexivity.
  - reflexivity.
  - lia.
  - vm_compute. reflexivity.
Defined.

(** ** Editing a menu item *)

Lemma find_some_existsb {A : Type} (p : A -> bool) (l : list A) (x : A) :
  List.find p l = Some x -> existsb p l = true /\ x ∈ l /\ p x = true.
Proof.
  induction l as [| y l IH]; simpl; [discriminate |].
  destruct (p y) eqn:Hp.
  - inversion 1; subst. repeat split; auto. apply list_elem_of_here.
  - intros H. destruct (IH H) as (He & Hin & Hx). repeat split; auto.
    now apply list_elem_of_further.
Qed.

Lemma NoDup_fmap_eq {A B : Type} (f : A -> B) (l : list A) (x y : A) :
  NoDup (f <$> l) -> x ∈ l -> y ∈ l -> f x = f y -> x = y.
Proof.
  induction l as [| z l IH]; intros Hnd Hx Hy Heq; [now apply elem_of_nil in Hx |].
  rewrite fmap_cons in Hnd. apply NoDup_cons in Hnd as [Hfresh Hnd].
  apply elem_of_cons in Hx as [-> | Hx], Hy as [-> | Hy]; auto.
  - exfalso. apply Hfresh. rewrite Heq. now apply list_elem_of_fmap_2.
  - exfalso. apply Hfresh. rewrite <- Heq. now apply list_elem_of_fmap_2.
Qed.

(** X9: an item can be saved under its own stock key.  In a database that
    satisfies the schema, editing an existing item with a form that keeps
    the item's sku is not a uniqueness conflict: the route answers
    [Item updated], the row of that id holds the submitted values (the price
    as the REAL column keeps it, so [0.0] for a submitted [-0.0]), and every
    other menu row is as before. *)
Theorem edit_item_keeps_own_sku (d : database) (item_id : Z) (it : menu_item)
        (f : item_form) :
  wf_db d ->
  fits_sqlite_int item_id = true ->
  List.find (fun m => mi_id m =? item_id) (menu_items d) = Some it ->
  if_sku f = mi_sku it ->
  Float.is_nan (if_price f) = false ->
  fits_sqlite_int (if_active f) = true ->
  exists s',
    admin_edit_item item_id (POST (inr f)) (Build_state d None)
    = (inr (Redirect To_admin_menu Item_updated), s')
    /\ menu_items (db s')
       = (fun m => if mi_id m =? item_id
                   then Build_menu_item (mi_id m) (if_name f) (if_description f)
                                        (Float.stored (if_price f)) (if_sku f) (if_active f)
                   else m) <$> menu_items d.
Proof.
  intros Hwf Hfit Hfind Hsku Hnan Hactive.
  destruct (find_some_existsb _ _ _ Hfind) as (Hex & Hin & Hid).
  apply Z.eqb_eq in Hid.
  assert (if_sku f ∉ mi_sku <$> filter (fun m => mi_id m ≠ item_id) (menu_items d))
    as Hfree.
  { intros Hdup. apply list_elem_of_fmap in Hdup as (m & Hm & Hmin).
    apply list_elem_of_filter in Hmin as [Hne Hmin]. apply Hne.
    rewrite Hsku in Hm. symmetry in Hm.
    now rewrite (NoDup_fmap_eq mi_sku _ m it (wf_sku_unique _ Hwf) Hmin Hin Hm). }
  unfold admin_edit_item, bind at 1 2. unfold query_db at 1, Sql.select_menu_item.
  simpl. rewrite (bind_int_fits _ Hfit). simpl. rewrite Hfind.
  unfold lift. rewrite bind_ret.
  unfold try_except, bind, execute_db. simpl.
  unfold Sql.update_menu_item. rewrite (bind_int_fits _ Hactive), (bind_int_fits _ Hfit).
  rewrite Hex, Hnan. case_bool_decide; [contradiction |]. simpl.
  unfold Sql.insert_or_ignore_inventory. simpl.
  destruct (inventory d !! if_sku f); simpl; eexists; split; reflexivity.
Qed.

Lemma edit_item_keeps_own_sku_witness :
  let f := Build_item_form "Espresso" "Strong classic espresso" (Float.of_Z 95) "ESP-01" 1 in
  exists s',
    admin_edit_item 1 (POST (inr f)) (Build_state seeded_database None)
    = (inr (Redirect To_admin_menu Item_updated), s')
    /\ menu_items (db s')
       = (fun m => if mi_id m =? 1
                   then Build_menu_item (mi_id m) (if_name f) (if_description f)
                                        (Float.stored (if_price f)) (if_sku f) (if_active f)
                   else m) <$> menu_items seeded_database.
Proof.
  intros f.
  apply (edit_item_keeps_own_sku seeded_database 1
           (Build_menu_item 1 "Espresso" "Strong classic espresso" (Float.of_Z 80) "ESP-01" 1)
           f).
  - exact seeded_database_wf.
  - reflexivity.
  - vm_compute. reflexivity.
  - reflexivity.
  - reflexivity.
  - reflexivity.
Defined.

(** a price submitted as [-0.0] is kept by the REAL column as [0.0] *)
Example edit_item_negative_zero :
  let f := Build_item_form "Espresso" "Strong classic espresso" (S754_zero true) "ESP-01" 1 in
  mi_price <$> List.find (fun m => mi_id m =? 1)
                         (menu_items (db_after (Admin_edit_item 1 (POST (inr f)))
                                               seeded_database None))
  = Some (S754_zero false).
Proof. intros f. vm_compute. reflexivity. Qed.

(** X10: taking the stock key of another item is refused.  When the
    submitted sku belongs to a menu item with a different id,
    [admin_edit_item] answers the form page of the unchanged item with
    [SKU must be unique] and the database is as before. *)
Theorem edit_item_sku_conflict (d : database) (b : option nat) (item_id : Z)
        (it other : menu_item) (f : item_form) :
  fits_sqlite_int item_id = true ->
  List.find (fun m => mi_id m =? item_id) (menu_items d) = Some it ->
  other ∈ menu_items d ->
  mi_id other <> item_id ->
  mi_sku other = if_sku f ->
  fits_sqlite_int (if_active f) = true ->
  b <> Some O ->
  admin_edit_item item_id (POST (inr f)) (Build_state d b)
  = (inr (Render (Add_edit_page (Some it)) (Some SKU_must_be_unique)), Build_state d b).
Proof.
  intros Hfit Hfind Hother Hne Hsku Hactive Hb.
  destruct (find_some_existsb _ _ _ Hfind) as (Hex & _ & _).
  unfold admin_edit_item, bind at 1 2. unfold query_db at 1, Sql.select_menu_item.
  simpl. rewrite (bind_int_fits _ Hfit). simpl. rewrite Hfind.
  unfold lift. rewrite bind_ret.
  unfold try_except, bind at 1.
  destruct (execute_db_cases
              (Sql.update_menu_item (if_name f) (if_description f) (if_price f)
                                    (if_sku f) (if_active f) item_id) (Build_state d b))
    as [(e & -> & [[_ Hb'] | Hst]) | (d' & rowid & Hst & _ & _)].
  - simpl in Hb'. contradiction.
  - simpl in Hst. unfold Sql.update_menu_item in Hst.
    rewrite (bind_int_fits _ Hactive), (bind_int_fits _ Hfit), Hex in Hst.
    destruct (Float.is_nan (if_price f)); inversion Hst; subst; [reflexivity |].
    case_bool_decide; inversion Hst; subst. reflexivity.
  - exfalso. simpl in Hst. unfold Sql.update_menu_item in Hst.
    rewrite (bind_int_fits _ Hactive), (bind_int_fits _ Hfit), Hex in Hst.
    destruct (Float.is_nan (if_price f)); [discriminate |].
    case_bool_decide as Hdup; [discriminate |]. apply Hdup.
    rewrite <- Hsku. apply list_elem_of_fmap_2, list_elem_of_filter. auto.
Qed.

Lemma edit_item_sku_conflict_witness :
  let f := Build_item_form "Espresso" "Strong classic espresso" (Float.of_Z 80) "CAP-01" 1 in
  let it := Build_menu_item 1 "Espresso" "Strong classic espresso" (Float.of_Z 80) "ESP-01" 1 in
  admin_edit_item 1 (POST (inr f)) (Build_state seeded_database None)
  = (inr (Render (Add_edit_page (Some it)) (Some SKU_must_be_unique)),
     Build_state seeded_database None).
Proof.
  intros f it.
  apply (edit_item_sku_conflict seeded_database None 1 it
           (Build_menu_item 2 "Cappuccino" "Espresso with steamed milk foam"
                            (Float.of_Z 120) "CAP-01" 1) f).
  - reflexivity.
  - vm_compute. reflexivity.
  - vm_compute. apply list_elem_of_further, list_elem_of_here.
  - discriminate.
  - reflexivity.
  - reflexivity.
  - discriminate.
Defined.

(** X11: an unknown id is answered before the form is read.  When no menu
    item has the id, [admin_edit_item] redirects with [Item not found] for a
    GET and for any POST, also one whose fields are missing or do not
    parse, and the state is as before. *)
Theorem edit_item_not_found (d : database) (b : option nat) (item_id : Z)
        (req : body item_form) :
  fits_sqlite_int item_id = true ->
  (forall m, m ∈ menu_items d -> mi_id m <> item_id) ->
  admin_edit_item item_id req (Build_state d b)
  = (inr (Redirect To_admin_menu Item_not_found), Build_state d b).
Proof.
  intros Hfit Hnone.
  unfold admin_edit_item, bind at 1 2. unfold query_db at 1, Sql.select_menu_item.
  simpl. rewrite (bind_int_fits _ Hfit). simpl.
  destruct (List.find _ (menu_items d)) as [m |] eqn:Hfind; [| reflexivity].
  destruct (find_some_existsb _ _ _ Hfind) as (_ & Hin & Hid).
  apply Z.eqb_eq in Hid. now destruct (Hnone m Hin).
Qed.

Lemma edit_item_not_found_witness :
  admin_edit_item 9 (POST (inl ValueError)) (Build_state seeded_database None)
  = (inr (Redirect To_admin_menu Item_not_found), Build_state seeded_database None).
Proof.
  apply edit_item_not_found; [reflexivity |].
  intros m Hm. apply list_elem_of_In in Hm. vm_compute in Hm.
  destruct Hm as [<- | [<- | [<- | [<- | []]]]]; discriminate.
Defined.

(** ** Deleting a menu item *)

Lemma find_filter_id (x i : Z) (l : list menu_item) :
  List.find (fun m => mi_id m =? x) (filter (fun m => mi_id m ≠ i) l)
  = if x =? i then None else List.find (fun m => mi_id m =? x) l.
Proof.
  induction l as [| m l IH]; [now destruct (x =? i) |].
  rewrite filter_cons. destruct (decide (mi_id m ≠ i)) as [Hne | Heq]; simpl.
  - rewrite IH. destruct (mi_id m =? x) eqn:Hmx; [| reflexivity].
    apply Z.eqb_eq in Hmx.
    replace (x =? i) with false by (symmetry; apply Z.eqb_neq; congruence).
    reflexivity.
  - assert (mi_id m = i) as Hi by (destruct (decide (mi_id m = i)); tauto).
    rewrite IH. destruct (x =? i) eqn:Hxi; [reflexivity |].
    apply Z.eqb_neq in Hxi.
    replace (mi_id m =? x) with false by (symmetry; apply Z.eqb_neq; congruence).
    reflexivity.
Qed.

Lemma view_order_reads (order_id : Z) (d1 d2 : database) (b1 b2 : option nat) :
  orders d1 = orders d2 ->
  Sql.select_order_lines order_id d1 = Sql.select_order_lines order_id d2 ->
  fst (view_order order_id (Build_state d1 b1)) = fst (view_order order_id (Build_state d2 b2)).
Proof.
  intros Ho Hl. unfold view_order, bind, query_db, lift, Sql.select_order. cbn [db].
  rewrite Ho.
  destruct (bind_int order_id); cbn [ret raise fst snd]; [reflexivity |].
  destruct (List.find _ (orders d2)); cbn [ret raise fst snd db]; [| reflexivity].
  rewrite Hl. destruct (order_view_lines _); reflexivity.
Qed.

(** X12: deleting a menu item does not cascade.  [admin_delete_item]
    removes the menu row and leaves the orders, order_items and inventory
    tables as they were; but the order page joins the OrderLine rows with
    the menu, so from then on every order page is the page of the same order
    without the lines of the deleted item, while it still shows the stored
    total that includes them. *)
Theorem deleted_item_drops_order_lines (d : database) (b : option nat) (item_id : Z) :
  fits_sqlite_int item_id = true ->
  b <> Some O ->
  let d' := db_after (Admin_delete_item item_id) d b in
  menu_items d' = filter (fun m => mi_id m ≠ item_id) (menu_items d)
  /\ orders d' = orders d
  /\ order_items d' = order_items d
  /\ inventory d' = inventory d
  /\ forall order_id b1 b2,
      fst (view_order order_id (Build_state d' b1))
      = fst (view_order order_id (Build_state (without_lines_of item_id d) b2)).
Proof.
  intros Hfit Hb d'.
  assert (d' = set_menu_items (filter (fun m => mi_id m ≠ item_id) (menu_items d))
                              (menu_items_seq d) d) as ->.
  { unfold d', db_after. cbn [handle]. unfold admin_delete_item, bind, execute_db. simpl.
    unfold Sql.delete_menu_item. rewrite (bind_int_fits _ Hfit).
    destruct b as [[| n] |]; [contradiction | reflexivity | reflexivity]. }
  simpl. repeat split.
  intros order_id b1 b2. apply view_order_reads; [reflexivity |].
  unfold Sql.select_order_lines, without_lines_of. simpl.
  induction (order_items d) as [| oi rows IH]; [reflexivity |].
  rewrite filter_cons. simpl. rewrite IH, find_filter_id.
  destruct (decide (oi_menu_item_id oi ≠ item_id)) as [Hne | Heq].
  - replace (oi_menu_item_id oi =? item_id) with false
      by (symmetry; now apply Z.eqb_neq).
    reflexivity.
  - assert (oi_menu_item_id oi = item_id) as Hi
        by (destruct (decide (oi_menu_item_id oi = item_id)); tauto).
    replace (oi_menu_item_id oi =? item_id) with true by (symmetry; now apply Z.eqb_eq).
    now destruct (oi_order_id oi =? order_id).
Qed.

(** an order of two Espressos, then the Espresso is deleted: the page of the
    order still shows the total 160 and has no line *)
Lemma deleted_item_drops_order_lines_witness :
  let form : order_form := fun i => if i =? 1 then Parsed 2 else Missing in
  let d := db_after (Post_place_order "2024-05-01T09:00:00" form) seeded_database None in
  let d' := db_after (Admin_delete_item 1) d None in
  (menu_items d' = filter (fun m => mi_id m ≠ 1) (menu_items d)
   /\ orders d' = orders d
   /\ order_items d' = order_items d
   /\ inventory d' = inventory d
   /\ forall order_id b1 b2,
       fst (view_order order_id (Build_state d' b1))
       = fst (view_order order_id (Build_state (without_lines_of 1 d) b2)))
  /\ fst (view_order 1 (Build_state (without_lines_of 1 d) None))
     = inr (Render (Order_view_page (Build_order 1 "2024-05-01T09:00:00" (Float.of_Z 160)) [])
                   None).
Proof.
  intros form d d'. split.
  - apply (deleted_item_drops_order_lines d None 1); [reflexivity | discriminate].
  - vm_compute. reflexivity.
Defined.

(** ** Malformed order forms, and what [place_order] leaves alone *)

Lemma collect_order_items_unparsable (form : order_form) (menu : list menu_item)
      (m : menu_item) :
  m ∈ menu ->
  form (mi_id m) = Unparsable ->
  forall acc total,
    exists e, collect_order_items form menu acc total = inl e
              /\ (e = ValueError \/ e = OverflowError).
Proof.
  intros Hin Hbad. induction menu as [| x menu IH]; intros acc total;
    [now apply elem_of_nil in Hin |].
  simpl. unfold form_qty at 1.
  apply elem_of_cons in Hin as [<- | Hin].
  - rewrite Hbad. eauto.
  - destruct (form (mi_id x)) as [| | n]; [now apply IH | eauto |].
    destruct (0 <? n); [| now apply IH].
    unfold py_int_mul_float. destruct (Float.of_Z n); try (now apply IH). eauto.
Qed.

(** X13: one field that is not a number aborts the whole order.  When the
    quantity field of some active item holds text that [int] cannot read,
    [place_order] raises (ValueError, or OverflowError when an earlier
    quantity is too large for a float) whatever the other entries are, and
    the state is as before: nothing is written. *)
Theorem unparsable_field_aborts_order (now : string) (form : order_form) (s : state)
        (m : menu_item) :
  m ∈ Sql.select_active_menu (db s) ->
  form (mi_id m) = Unparsable ->
  exists e, place_order now form s = (inl e, s)
            /\ (e = ValueError \/ e = OverflowError).
Proof.
  intros Hin Hbad.
  destruct (collect_order_items_unparsable form _ m Hin Hbad [] Float.zero)
    as (e & Hcol & He).
  exists e. split; [| exact He]. now rewrite place_order_unfold, Hcol.
Qed.

Lemma unparsable_field_aborts_order_witness :
  let form : order_form := fun i => if i =? 1 then Parsed 2 else Unparsable in
  let s := Build_state seeded_database None in
  exists e, place_order "2024-05-01T09:00:00" form s = (inl e, s)
            /\ (e = ValueError \/ e = OverflowError).
Proof.
  intros form s.
  apply (unparsable_field_aborts_order "2024-05-01T09:00:00" form s
           (Build_menu_item 2 "Cappuccino" "Espresso with steamed milk foam"
                            (Float.of_Z 120) "CAP-01" 1)).
  - vm_compute. apply list_elem_of_further, list_elem_of_here.
  - reflexivity.
Defined.

(** X14: [place_order] never writes the catalog.  Whatever the basket, the
    outcome and the behaviour of the storage layer, the menu rows and the
    menu counter after an order attempt are those before it, so an order
    can neither change a price nor activate or remove an item. *)
Theorem place_order_keeps_catalog (now : string) (form : order_form) (s : state) :
  menu_items (db (snd (place_order now form s))) = menu_items (db s)
  /\ menu_items_seq (db (snd (place_order now form s))) = menu_items_seq (db s).
Proof.
  set (P := fun d => menu_items d = menu_items (db s)
                     /\ menu_items_seq d = menu_items_seq (db s)).
  assert (preserves P (place_order now form)) as H.
  { apply place_order_frame.
    - intros total d d' rowid HP Hst. unfold Sql.insert_order in Hst.
      destruct (Float.is_nan total); [discriminate |]. inversion Hst; subst. exact HP.
    - intros order_id menu_id qty price d d' rowid HP Hst.
      unfold Sql.insert_order_item in Hst.
      destruct (bind_int qty); [discriminate |].
      destruct (Float.is_nan price); [discriminate |]. inversion Hst; subst. exact HP.
    - intros qty sku d d' rowid HP Hst. unfold Sql.decrement_inventory in Hst.
      destruct (bind_int qty); [discriminate |]. inversion Hst; subst. exact HP. }
  apply (H s). split; reflexivity.
Qed.

(** ** Menu ids are never reused *)

Lemma stmt_keeps_issued_ids (stmt : statement) :
  (forall d d' rowid, stmt d = inr (d', rowid) ->
                      order_items d' = order_items d
                      /\ menu_items_seq d <= menu_items_seq d') ->
  stmt_preserves lines_refer_to_issued_ids stmt.
Proof.
  intros Hkeep d d' rowid HI Hst. destruct (Hkeep d d' rowid Hst) as [Hoi Hseq].
  unfold lines_refer_to_issued_ids in *. rewrite Hoi.
  eapply Forall_impl; [exact HI |]. intros oi Hle. simpl in *. lia.
Qed.

Lemma insert_menu_item_issued_ids (name desc : string) (price : spec_float) (sku : string)
      (active : Z) :
  stmt_preserves lines_refer_to_issued_ids
                 (Sql.insert_menu_item name desc price sku active).
Proof.
  apply stmt_keeps_issued_ids. intros d d' rowid H. unfold Sql.insert_menu_item in H.
  destruct (bind_int active); [discriminate |].
  destruct (Float.is_nan price); [discriminate |].
  case_bool_decide; [discriminate |]. inversion H; subst. simpl. split; [reflexivity | lia].
Qed.

Lemma update_menu_item_issued_ids (name desc : string) (price : spec_float) (sku : string)
      (active item_id : Z) :
  stmt_preserves lines_refer_to_issued_ids
                 (Sql.update_menu_item name desc price sku active item_id).
Proof.
  apply stmt_keeps_issued_ids. intros d d' rowid H. unfold Sql.update_menu_item in H.
  destruct (bind_int active); [discriminate |].
  destruct (bind_int item_id); [discriminate |].
  destruct (existsb _ _); [| inversion H; subst; split; [reflexivity | lia]].
  destruct (Float.is_nan price); [discriminate |].
  case_bool_decide; [discriminate |]. inversion H; subst. simpl. split; [reflexivity | lia].
Qed.

Lemma delete_menu_item_issued_ids (item_id : Z) :
  stmt_preserves lines_refer_to_issued_ids (Sql.delete_menu_item item_id).
Proof.
  apply stmt_keeps_issued_ids. intros d d' rowid H. unfold Sql.delete_menu_item in H.
  destruct (bind_int item_id); [discriminate |].
  inversion H; subst. simpl. split; [reflexivity | lia].
Qed.

Lemma insert_or_ignore_inventory_issued_ids (sku : string) (qty : Z) :
  stmt_preserves lines_refer_to_issued_ids (Sql.insert_or_ignore_inventory sku qty).
Proof.
  apply stmt_keeps_issued_ids. intros d d' rowid H.
  unfold Sql.insert_or_ignore_inventory in H.
  destruct (bind_int qty); [discriminate |].
  destruct (inventory d !! sku); inversion H; subst; simpl; split; (reflexivity || lia).
Qed.

Lemma insert_or_replace_inventory_issued_ids (sku : string) (qty : Z) :
  stmt_preserves lines_refer_to_issued_ids (Sql.insert_or_replace_inventory sku qty).
Proof.
  apply stmt_keeps_issued_ids. intros d d' rowid H.
  unfold Sql.insert_or_replace_inventory in H.
  destruct (bind_int qty); [discriminate |].
  inversion H; subst; simpl; split; (reflexivity || lia).
Qed.

Lemma write_order_items_issued_ids (K order_id : Z) (lines : list order_line) :
  Forall (fun l => ol_menu_id l <= K) lines ->
  preserves (fun d => menu_items_seq d = K
                      /\ Forall (fun oi => oi_menu_item_id oi <= K) (order_items d))
            (write_order_items order_id lines).
Proof.
  induction 1 as [| l rest Hl _ IH]; simpl.
  - apply preserves_ret.
  - apply preserves_bind; [apply preserves_execute | intros _; apply preserves_bind;
                           [apply preserves_execute | intros _; exact IH]].
    + intros d d' rowid [Hseq Hrows] Hst. unfold Sql.insert_order_item in Hst.
      destruct (bind_int (ol_qty l)); [discriminate |].
      destruct (Float.is_nan (ol_price l)); [discriminate |].
      inversion Hst; subst; simpl. split; [reflexivity |].
      apply Forall_app. split; [exact Hrows |]. repeat constructor. exact Hl.
    + intros d d' rowid H Hst. unfold Sql.decrement_inventory in Hst.
      destruct (bind_int (ol_qty l)); [discriminate |].
      inversion Hst; subst. exact H.
Qed.

Lemma place_order_issued_ids (now : string) (form : order_form) (s : state) :
  wf_db (db s) ->
  lines_refer_to_issued_ids (db s) ->
  lines_refer_to_issued_ids (db (snd (place_order now form s))).
Proof.
  intros Hwf HI. rewrite place_order_unfold.
  destruct (collect_order_items form (Sql.select_active_menu (db s)) [] Float.zero)
    as [e | [lines total]] eqn:Hcol; [exact HI |].
  destruct (collect_order_items_selects _ _ _ _ _ _ Hcol) as (new & Hsel & Hnew & _).
  simpl in Hnew. subst new.
  destruct lines as [| l rest]; [exact HI |].
  destruct (first_short (inventory (db s)) (l :: rest)); [exact HI |].
  set (K := menu_items_seq (db s)).
  assert (Forall (fun l' => ol_menu_id l' <= K) (l :: rest)) as Hlines.
  { apply selects_line in Hsel. eapply Forall_impl; [exact Hsel |].
    intros l' (m & Hm & Hid & _). simpl. rewrite Hid.
    apply list_elem_of_filter in Hm as [_ Hm].
    pose proof (wf_menu_ids _ Hwf) as Hids. rewrite Forall_forall in Hids. now apply Hids. }
  assert (preserves (fun d => menu_items_seq d = K
                              /\ Forall (fun oi => oi_menu_item_id oi <= K) (order_items d))
                    (commit_order now total (l :: rest))) as Hcommit.
  { unfold commit_order.
    apply preserves_bind; [apply preserves_execute | intros order_id].
    - intros d d' rowid HP Hst. unfold Sql.insert_order in Hst.
      destruct (Float.is_nan total); [discriminate |]. inversion Hst; subst. exact HP.
    - apply preserves_bind;
        [now apply write_order_items_issued_ids | intros _; apply preserves_ret]. }
  destruct (Hcommit s (conj eq_refl HI)) as [Hseq Hrows].
  unfold lines_refer_to_issued_ids. now rewrite Hseq.
Qed.

Lemma reachable_issued_ids (d : database) :
  reachable d -> lines_refer_to_issued_ids d.
Proof.
  induction 1 as [| d r b Hreach IH].
  - vm_compute. constructor.
  - unfold db_after.
    assert (forall m : M response,
               preserves lines_refer_to_issued_ids m ->
               lines_refer_to_issued_ids (db (snd (m (Build_state d b))))) as Hkeep
        by (intros m Hm; exact (Hm (Build_state d b) IH)).
    destruct r; cbn [handle].
    + apply Hkeep. unfold index. repeat preserve_step.
    + apply place_order_issued_ids; [now apply reachable_wf | exact IH].
    + apply Hkeep. unfold view_orders. repeat preserve_step.
    + apply Hkeep. apply view_order_preserves.
    + apply Hkeep. unfold admin_menu. repeat preserve_step.
    + apply Hkeep. destruct req as [| form]; simpl; repeat preserve_step.
      * apply insert_menu_item_issued_ids.
      * apply insert_or_ignore_inventory_issued_ids.
    + apply Hkeep. unfold admin_edit_item. repeat preserve_step.
      destruct a0 as [it |]; [| apply preserves_ret].
      destruct req as [| form]; repeat preserve_step.
      * apply update_menu_item_issued_ids.
      * apply insert_or_ignore_inventory_issued_ids.
    + apply Hkeep. unfold admin_delete_item. repeat preserve_step.
      apply delete_menu_item_issued_ids.
    + apply Hkeep. unfold admin_update_inventory. repeat preserve_step.
      apply insert_or_replace_inventory_issued_ids.
Qed.

Lemma find_snoc_false {A : Type} (p : A -> bool) (l : list A) (x : A) :
  p x = false -> List.find p (l ++ [x]) = List.find p l.
Proof.
  intros Hx. induction l as [| y l IH]; simpl; [now rewrite Hx |].
  destruct (p y); [reflexivity | exact IH].
Qed.

Lemma insert_or_ignore_inventory_menu (sku : string) (qty : Z) (d d' : database) (rowid : Z) :
  Sql.insert_or_ignore_inventory sku qty d = inr (d', rowid) ->
  menu_items d' = menu_items d.
Proof.
  unfold Sql.insert_or_ignore_inventory. destruct (bind_int qty); [discriminate |].
  destruct (inventory d !! sku); now inversion 1.
Qed.

(** the menu after [admin_add_item]: as before, or one row more, numbered
    after the menu counter *)
Lemma admin_add_item_menu (req : body item_form) (d : database) (b : option nat) :
  let d' := db_after (Admin_add_item req) d b in
  menu_items d' = menu_items d
  \/ exists row, mi_id row = menu_items_seq d + 1 /\ menu_items d' = menu_items d ++ [row].
Proof.
  intros d'. unfold d', db_after. clear d'. cbn [handle].
  destruct req as [| [e | f]]; [now left | now left |].
  unfold admin_add_item, lift. rewrite bind_ret. unfold try_except, bind.
  destruct (execute_db_cases
              (Sql.insert_menu_item (if_name f) (if_description f) (if_price f)
                                    (if_sku f) (if_active f)) (Build_state d b))
    as [(e & -> & _) | (d1 & id & Hst & _ & ->)].
  { left. destruct (decide (e = IntegrityError)); reflexivity. }
  right. simpl in Hst. unfold Sql.insert_menu_item in Hst.
  destruct (bind_int (if_active f)) as [e | a]; [discriminate |].
  destruct (Float.is_nan (if_price f)); [discriminate |].
  case_bool_decide; [discriminate |]. inversion Hst; subst d1 id; clear Hst.
  exists (Build_menu_item (menu_items_seq d + 1) (if_name f) (if_description f)
                          (Float.stored (if_price f)) (if_sku f) a).
  split; [| match goal with
                     | |- context [execute_db ?st ?s1] =>
                         destruct (execute_db_cases st s1)
                           as [(e & -> & _) | (d2 & r2 & Hst2 & _ & ->)]
                     end].
  - reflexivity.
  - destruct (decide (e = IntegrityError)); reflexivity.
  - simpl. apply insert_or_ignore_inventory_menu in Hst2. rewrite Hst2. reflexivity.
Qed.

(** X15: menu ids are never reused, so adding an item never changes an
    order page.  In every reachable database the OrderLine rows refer only to
    ids that the AUTOINCREMENT counter of the menu has handed out, and a new
    item gets the next id, also after deletions; hence after
    [admin_add_item], with any form and storage behaviour, every order page
    is what it was: no line of a deleted item reappears under the name of
    the item added later. *)
Theorem add_item_keeps_order_pages (d : database) (req : body item_form)
        (b b1 b2 : option nat) (order_id : Z) :
  reachable d ->
  fst (view_order order_id (Build_state (db_after (Admin_add_item req) d b) b1))
  = fst (view_order order_id (Build_state d b2)).
Proof.
  intros Hreach.
  pose proof (reachable_issued_ids d Hreach) as HI.
  destruct (handle_ledger (Admin_add_item req) d b)
    as [(Ho & _ & Hoi) | (now & form & Hr & _)]; [| discriminate].
  apply view_order_reads; [exact Ho |].
  unfold Sql.select_order_lines. rewrite Hoi.
  destruct (admin_add_item_menu req d b) as [-> | (row & Hid & ->)]; [reflexivity |].
  unfold lines_refer_to_issued_ids in HI. clear Hoi Ho.
  induction HI as [| oi rows Hle _ IH]; [reflexivity |].
  simpl. rewrite IH. f_equal.
  rewrite find_snoc_false; [reflexivity |].
  apply Z.eqb_neq. lia.
Qed.

(** an order of two Espressos, the Espresso is deleted, and a new item is
    added: the page of the order is the one before the addition *)
Lemma add_item_keeps_order_pages_witness :
  let form : order_form := fun i => if i =? 1 then Parsed 2 else Missing in
  let d1 := db_after (Post_place_order "2024-05-01T09:00:00" form) seeded_database None in
  let d2 := db_after (Admin_delete_item 1) d1 None in
  let req := POST (inr (Build_item_form "Brownie" "Chocolate brownie" (Float.of_Z 60)
                                        "BRW-01" 1)) in
  fst (view_order 1 (Build_state (db_after (Admin_add_item req) d2 None) None))
  = fst (view_order 1 (Build_state d2 None)).
Proof.
  intros form d1 d2 req. apply add_item_keeps_order_pages.
  apply reachable_step, reachable_step, reachable_seeded.
Defined.
